(** * scrapeforllm: a shallow embedding of the crawler and the extractors

    The development follows the two scraper classes of the repository,
    [WebScraperForLLM] (web_scraper.py) and [CompleteTextWebScraper]
    (complete_web_scraper.py).  Python strings are modelled as [string]
    (sequences of characters with the code points 0 to 255), the parsed
    document as a forest of [node]s, Python sets as [gset] where only
    membership is used and as a duplicate-free insertion history where
    iteration matters, and the third-party libraries (requests,
    urllib.parse, the HTML parser) as interfaces whose operations are
    parameters of the model. *)

From Stdlib Require Import String Ascii Sorted.
From stdpp Require Import gmap strings list.


(** ** Python string operations *)

Module PyStr.

(** The double quote, as a string of one character. *)
Definition dquote : string := String (ascii_of_nat 34) EmptyString.

(** [s.startswith(p)] *)
Definition startswith (s p : string) : bool := String.prefix p s.

(** [s.startswith((p1, ..., pn))] *)
Definition startswith_any (s : string) (ps : list string) : bool :=
  existsb (startswith s) ps.

(** [s.endswith(suf)]: some suffix of [s] is [suf]. *)
Fixpoint endswith (s suf : string) : bool :=
  String.eqb s suf ||
  match s with
  | EmptyString => false
  | String _ s' => endswith s' suf
  end.

(** [sub in s] *)
Fixpoint contains (sub s : string) : bool :=
  String.prefix sub s ||
  match s with
  | EmptyString => false
  | String _ s' => contains sub s'
  end.

(** [c.lower()] on one character with a code point below 256: the letters
    A-Z and the capital letters U+00C0 to U+00DE (the multiplication sign
    U+00D7 is no letter) change. *)
Definition lower_ascii (c : ascii) : ascii :=
  let n := nat_of_ascii c in
  if (((65 <=? n) && (n <=? 90)) || ((192 <=? n) && (n <=? 222) && negb (n =? 215)))%nat
  then ascii_of_nat (n + 32)
  else c.

(** [s.lower()] *)
Fixpoint lower (s : string) : string :=
  match s with
  | EmptyString => EmptyString
  | String c s' => String (lower_ascii c) (lower s')
  end.

(** [s.split('#')[0]]: the part of [s] before its first ['#']. *)
Fixpoint before_hash (s : string) : string :=
  match s with
  | EmptyString => EmptyString
  | String c s' => if Ascii.eqb c "#"%char then EmptyString else String c (before_hash s')
  end.

(** [c.isspace()] on the code points below 256: tab, newline, vertical tab,
    form feed, carriage return, the separators 28-31, the space, the next
    line control U+0085 and the no-break space U+00A0.  [str.strip],
    [str.split] and the [\s] of [re] use the same set. *)
Definition isspace (c : ascii) : bool :=
  let n := nat_of_ascii c in
  (((9 <=? n) && (n <=? 13)) || ((28 <=? n) && (n <=? 32)) || (n =? 133) || (n =? 160))%nat.

(** [s.lstrip()] *)
Fixpoint lstrip (s : string) : string :=
  match s with
  | EmptyString => EmptyString
  | String c s' => if isspace c then lstrip s' else s
  end.

(** [s.rstrip()] *)
Fixpoint rstrip (s : string) : string :=
  match s with
  | EmptyString => EmptyString
  | String c s' =>
      match rstrip s' with
      | EmptyString => if isspace c then EmptyString else String c EmptyString
      | r => String c r
      end
  end.

(** [s.strip()] *)
Definition strip (s : string) : string := rstrip (lstrip s).

(** [sep.join(l)] *)
Fixpoint join (sep : string) (l : list string) : string :=
  match l with
  | [] => EmptyString
  | [x] => x
  | x :: rest => x +:+ sep +:+ join sep rest
  end.

(** Truthiness of a string: [if s]. *)
Definition truthy (s : string) : bool := negb (String.eqb s EmptyString).

(** [re.sub(r'\s+', ' ', s)]: every maximal run of whitespace becomes one
    space.  [in_run] tells whether the previous character was whitespace. *)
Fixpoint collapse_ws (in_run : bool) (s : string) : string :=
  match s with
  | EmptyString => EmptyString
  | String c s' =>
      if isspace c
      then (if in_run then collapse_ws true s' else String " " (collapse_ws true s'))
      else String c (collapse_ws false s')
  end.

(** [s.split()]: the whitespace-separated words of [s]. *)
Fixpoint split_ws (cur : string) (s : string) : list string :=
  match s with
  | EmptyString => if truthy cur then [cur] else []
  | String c s' =>
      if isspace c
      then (if truthy cur then cur :: split_ws EmptyString s' else split_ws EmptyString s')
      else split_ws (cur +:+ String c EmptyString) s'
  end.

(** [s[:n]]: the first [n] characters of [s], or all of [s]. *)
Fixpoint slice_to (n : nat) (s : string) : string :=
  match n, s with
  | S n', String c s' => String c (slice_to n' s')
  | _, _ => EmptyString
  end.

End PyStr.

(** ** The parsed document

    A document is the forest of nodes the HTML parser produced.  [Text]
    stands for the strings that [get_text] returns; comments and doctype
    declarations, which [get_text] skips, are not represented. *)

Module Soup.

#[local] Set Warnings "-register-all".

Inductive node : Type :=
| Text (s : string)
| Tag (name : string) (attrs : list (string * string)) (children : list node).

Definition soup : Type := list node.

(** [dict.get(key)] on an attribute dictionary. *)
Fixpoint lookup_attr (key : string) (attrs : list (string * string)) : option string :=
  match attrs with
  | [] => None
  | (k, v) :: rest => if String.eqb k key then Some v else lookup_attr key rest
  end.

(** [dict.get(key)] on a dictionary of lists. *)
Fixpoint lookup_attr_list (key : string) (d : list (string * list string))
    : option (list string) :=
  match d with
  | [] => None
  | (k, v) :: rest => if String.eqb k key then Some v else lookup_attr_list key rest
  end.

(** [tag.get(key)] *)
Definition get (n : node) (key : string) : option string :=
  match n with
  | Text _ => None
  | Tag _ attrs _ => lookup_attr key attrs
  end.

(** [tag.get(key, '')] *)
Definition get_or_empty (n : node) (key : string) : string :=
  default EmptyString (get n key).

Definition children (n : node) : list node :=
  match n with
  | Text _ => []
  | Tag _ _ cs => cs
  end.

(** [tag.descendants]: every node below [n], in document order. *)
Fixpoint descendants (n : node) : list node :=
  match n with
  | Text _ => []
  | Tag _ _ cs => flat_map (fun c => c :: descendants c) cs
  end.

(** The nodes of a forest in document order. *)
Definition nodes (d : soup) : list node :=
  flat_map (fun c => c :: descendants c) d.

(** The element is a tag whose name is one of [names]. *)
Definition named (names : list string) (n : node) : bool :=
  match n with
  | Text _ => false
  | Tag name _ _ => existsb (String.eqb name) names
  end.

(** [soup.find_all(names)] and [tag.find_all(names)] *)
Definition find_all (names : list string) (d : soup) : list node :=
  List.filter (named names) (nodes d).

(** [soup.find(name)] *)
Definition find (names : list string) (d : soup) : option node :=
  head (find_all names d).

(** The strings below a node, in document order. *)
Fixpoint strings (n : node) : list string :=
  match n with
  | Text s => [s]
  | Tag _ _ cs => flat_map strings cs
  end.

(** [tag.get_text()] *)
Definition get_text (n : node) : string :=
  PyStr.join EmptyString (strings n).

(** [tag.get_text(separator=' ', strip=True)]: every string is stripped,
    the empty ones are dropped and the rest joined by one space. *)
Definition get_text_sep (n : node) : string :=
  PyStr.join " " (List.filter PyStr.truthy (map PyStr.strip (strings n))).

(** [soup.get_text()] and [soup.get_text(separator=' ', strip=True)] on the
    whole document. *)
Definition soup_text (d : soup) : string :=
  PyStr.join EmptyString (flat_map strings d).

Definition soup_text_sep (d : soup) : string :=
  PyStr.join " " (List.filter PyStr.truthy (map PyStr.strip (flat_map strings d))).

(** [for element in soup.find_all(...): element.decompose()] for a test [p]
    on nodes: every matching node is removed with all it contains. *)
Fixpoint prune (p : node -> bool) (n : node) : node :=
  match n with
  | Text s => Text s
  | Tag name attrs cs =>
      Tag name attrs
        ((fix prune_all (l : list node) : list node :=
            match l with
            | [] => []
            | c :: rest => if p c then prune_all rest else prune p c :: prune_all rest
            end) cs)
  end.

Fixpoint prune_all (p : node -> bool) (d : soup) : soup :=
  match d with
  | [] => []
  | c :: rest => if p c then prune_all p rest else prune p c :: prune_all p rest
  end.

(** [for element in soup(names): element.decompose()] *)
Definition decompose_all (names : list string) (d : soup) : soup :=
  prune_all (named names) d.

(** [[link['href'] for link in soup.find_all('a', href=True)]] *)
Definition anchors (d : soup) : list node :=
  List.filter (fun n => bool_decide (is_Some (get n "href"))) (find_all ["a"] d).

Definition href (n : node) : string := get_or_empty n "href".

(** *** CSS selectors

    The selectors that the scrapers pass to [soup.select], as syntax trees:
    a tag name, [.class], [#id], [[attr="value"]], [[attr*="value"]] and the
    descendant combinator [ancestor selector]. *)

Inductive selector : Type :=
| SelTag (name : string)
| SelClass (class : string)
| SelId (id : string)
| SelAttrEq (attr value : string)
| SelAttrSub (attr value : string)
| SelDescendant (ancestor : selector) (sel : selector).

(** The value of an attribute as a selector sees it: the class list is
    joined by single spaces. *)
Definition attr_text (n : node) (attr : string) : option string :=
  match get n attr with
  | None => None
  | Some v =>
      if String.eqb attr "class"
      then Some (PyStr.join " " (PyStr.split_ws EmptyString v))
      else Some v
  end.

Definition has_class (n : node) (class : string) : bool :=
  existsb (String.eqb class) (PyStr.split_ws EmptyString (get_or_empty n "class")).

(** [n], below the tags [ancestors] (nearest first), matches the selector.
    Only tags match. *)
Fixpoint matches (sel : selector) (ancestors : list node) (n : node) : bool :=
  match n with
  | Text _ => false
  | Tag name _ _ =>
      match sel with
      | SelTag t => String.eqb name t
      | SelClass c => has_class n c
      | SelId i => bool_decide (get n "id" = Some i)
      | SelAttrEq a v => bool_decide (attr_text n a = Some v)
      | SelAttrSub a v =>
          match attr_text n a with
          | Some text => PyStr.contains v text
          | None => false
          end
      | SelDescendant anc s =>
          matches s ancestors n && existsb (matches anc []) ancestors
      end
  end.

(** A node with what stands around it: the tags above it (nearest first),
    the siblings after it, and the siblings after its parent. *)
Record located : Type := mkLocated {
  element : node;
  ancestors : list node;
  next_siblings : list node;
  parent_next_siblings : list node
}.

(** The node [n], which has the siblings [next] after it, and the nodes below
    it, in document order. *)
Fixpoint locate (ancs parent_next : list node) (n : node) (next : list node)
    : list located :=
  mkLocated n ancs next parent_next ::
  match n with
  | Text _ => []
  | Tag _ _ cs =>
      (fix forest (l : list node) : list located :=
         match l with
         | [] => []
         | c :: rest => locate (n :: ancs) next c rest ++ forest rest
         end) cs
  end.

Fixpoint locate_forest (ancs parent_next : list node) (l : list node) : list located :=
  match l with
  | [] => []
  | c :: rest => locate ancs parent_next c rest ++ locate_forest ancs parent_next rest
  end.

(** The nodes of the document, and the nodes below a located node. *)
Definition located_nodes (d : soup) : list located := locate_forest [] [] d.

Definition located_below (l : located) : list located :=
  locate_forest (element l :: ancestors l) (next_siblings l) (children (element l)).

(** The selector does not select the located node. *)
Definition unselected (sel : selector) (l : located) : Prop :=
  matches sel (ancestors l) (element l) = false.

(** [soup.select(selector)] *)
Definition select_located (sel : selector) (d : soup) : list located :=
  List.filter (fun l => matches sel (ancestors l) (element l)) (located_nodes d).

Definition select (sel : selector) (d : soup) : list node :=
  map element (select_located sel d).

(** [tag.find_all(names)] on a located tag. *)
Definition find_all_below (names : list string) (l : located) : list located :=
  List.filter (fun q => named names (element q)) (located_below l).

(** [tag.find_next_sibling(names)] and [tag.parent.find_next_sibling(names)] *)
Definition find_next_sibling (names : list string) (l : located) : option node :=
  head (List.filter (named names) (next_siblings l)).

Definition parent_find_next_sibling (names : list string) (l : located) : option node :=
  head (List.filter (named names) (parent_next_siblings l)).

(** [for elem in soup.select(selector): elem.decompose()] *)
Fixpoint prune_selected (sel : selector) (ancs : list node) (n : node) : node :=
  match n with
  | Text s => Text s
  | Tag name attrs cs =>
      Tag name attrs
        ((fix forest (l : list node) : list node :=
            match l with
            | [] => []
            | c :: rest =>
                if matches sel (n :: ancs) c
                then forest rest
                else prune_selected sel (n :: ancs) c :: forest rest
            end) cs)
  end.

Fixpoint decompose_selected (sel : selector) (d : soup) : soup :=
  match d with
  | [] => []
  | c :: rest =>
      if matches sel [] c
      then decompose_selected sel rest
      else prune_selected sel [] c :: decompose_selected sel rest
  end.

End Soup.

(** ** The libraries the scrapers call *)

(** What [session.get] returns when it does not raise. *)
Record Response : Type := mkResponse {
  status_code : nat;
  content : string
}.

(** requests: [session_get w url] performs one request in the state [w] of
    the outside world; [None] stands for a raised exception (connection
    error, timeout).  [raise_for_status r] tells whether
    [response.raise_for_status()] raises. *)
Class Requests (World : Type) : Type := {
  session_get : World -> string -> World * option Response;
  raise_for_status : Response -> bool
}.

(** [Response.raise_for_status] of requests raises [HTTPError] for the
    statuses 400 to 599, and for no other status. *)
Definition http_error (r : Response) : bool :=
  (400 <=? status_code r) && (status_code r <? 600).

(** What is known of [raise_for_status]. *)
Class RequestsLaw {World : Type} `{!Requests World} : Prop :=
  raise_for_status_law : forall r : Response, raise_for_status r = http_error r.

(** urllib.parse: [urljoin base href] and [urlparse(url).netloc]; [None]
    stands for the [ValueError] both raise on a malformed URL. *)
Class UrlLib : Type := {
  urljoin : string -> string -> option string;
  urlparse_netloc : string -> option string
}.

(** [BeautifulSoup(response.content, 'html.parser')] *)
Class HtmlParser : Type := {
  BeautifulSoup : string -> Soup.soup
}.

(** [datetime.now().isoformat()]: reading the clock of the outside world. *)
Class Clock (World : Type) : Type := {
  datetime_now : World -> World * string
}.

(** [re.findall(pattern, text)]: one entry per match, the matched text for a
    pattern without groups and the texts of the groups otherwise. *)
Class Regex : Type := {
  re_findall : string -> string -> list (list string)
}.

(** A Python [set] of strings whose elements are later listed: its
    elements in the order of their first insertion.  [list(s)] lists them in
    the order of the hash table, which [list_of_set] stands for: some
    rearrangement of the elements. *)
Definition pyset : Type := list string.

Definition set_add (x : string) (s : pyset) : pyset :=
  if bool_decide (x ∈ s) then s else s ++ [x].

Class SetOrder : Type := {
  list_of_set : pyset -> list string
}.

(** What is known of the order: the list holds the elements of the set. *)
Class SetOrderLaw `{!SetOrder} : Prop :=
  list_of_set_perm : forall s : pyset, list_of_set s ≡ₚ s.

(** The three ways a call can end: with a value, with an exception that
    leaves the function, or (for the loops, which are run with a bound on
    the number of iterations) with the bound used up. *)
Inductive outcome (A : Type) : Type :=
| Returns (a : A)
| Raises
| OutOfFuel.
Arguments Returns {A} a.
Arguments Raises {A}.
Arguments OutOfFuel {A}.

(** ** The frontier walk shared by both crawlers *)

Definition entry : Type := string * nat.

(** The state of a discovery loop: the three local variables and the
    outside world. *)
Record crawl (World : Type) : Type := mkCrawl {
  to_visit : list entry;
  visited : gset string;
  discovered_urls : pyset;
  world : World
}.
Arguments mkCrawl {World} _ _ _ _.
Arguments to_visit {World} _.
Arguments visited {World} _.
Arguments discovered_urls {World} _.
Arguments world {World} _.

(** What the body of [for link in soup.find_all('a', href=True)] does with
    one anchor: raise (which leaves the loop for the [except] clause), skip
    the anchor, or append its URL to the frontier. *)
Inductive verdict : Type :=
| Raised
| Skipped
| Followed (full_url : string).

(** The [for] loop over the anchors inside the [try]: appends made before an
    exception stay in the frontier. *)
Fixpoint follow_links (judge : string -> verdict) (depth : nat)
    (hrefs : list string) (queue : list entry) : list entry :=
  match hrefs with
  | [] => queue
  | href :: rest =>
      match judge href with
      | Raised => queue
      | Skipped => follow_links judge depth rest queue
      | Followed full_url => follow_links judge depth rest (queue ++ [(full_url, S depth)])
      end
  end.

(** [while cond: body] run for at most [fuel] iterations: [body s] is [None]
    when the loop condition fails at [s]. *)
Fixpoint while {S : Type} (body : S -> option S) (fuel : nat) (s : S) : outcome S :=
  match body s with
  | None => Returns s
  | Some s' =>
      match fuel with
      | O => OutOfFuel
      | S fuel' => while body fuel' s'
      end
  end.

(** The loop halts from [s]: some number of iterations is enough. *)
Definition halts_from {S : Type} (body : S -> option S) (s : S) : Prop :=
  exists fuel s', while body fuel s = Returns s'.

(** The state after [n] iterations, as long as the loop goes on. *)
Fixpoint after {S : Type} (body : S -> option S) (n : nat) (s : S) : S :=
  match n with
  | O => s
  | Datatypes.S n' =>
      match body s with
      | Some s' => after body n' s'
      | None => s
      end
  end.

(** The entries of depth [d] in a frontier, and the number of entries before
    the first of them. *)
Definition at_depth (d : nat) (q : list entry) : nat :=
  length (List.filter (fun e : entry => e.2 =? d) q).

Fixpoint lead (d : nat) (q : list entry) : nat :=
  match q with
  | [] => 0
  | e :: rest => if e.2 =? d then 0 else S (lead d rest)
  end.

(** ** web_scraper.py: [WebScraperForLLM] *)

Module WebScraperForLLM.

(** *** The extractors of [scrape_page] *)

Record link : Type := mkLink {
  link_url : string;
  anchor_text : string
}.

Record faq : Type := mkFaq {
  question : string;
  answer : string
}.

(** The dictionary that [scrape_page] returns. *)
Record page_data : Type := mkPageData {
  data_url : string;
  data_timestamp : string;
  data_title : string;
  data_meta_description : string;
  data_headings : list (string * list string);
  data_main_content : string;
  data_links : list link;
  data_faq_content : list faq;
  data_product_info : list (string * string);
  data_contact_info : list (string * list (list string));
  data_navigation_text : list string;
  data_clean_text : string
}.

Definition _extract_title (soup : Soup.soup) : string :=
  match Soup.find ["title"] soup with
  | Some title_tag => PyStr.strip (Soup.get_text title_tag)
  | None => EmptyString
  end.

(** [soup.find('meta', attrs={'name': 'description'})] *)
Definition find_meta (attr value : string) (soup : Soup.soup) : option Soup.node :=
  head (List.filter (fun n => bool_decide (Soup.get n attr = Some value))
          (Soup.find_all ["meta"] soup)).

Definition _extract_meta_description (soup : Soup.soup) : string :=
  match find_meta "name" "description" soup with
  | Some meta_desc => PyStr.strip (Soup.get_or_empty meta_desc "content")
  | None => EmptyString
  end.

Definition heading_names : list string := ["h1"; "h2"; "h3"; "h4"; "h5"; "h6"].

Definition _extract_headings (soup : Soup.soup) : list (string * list string) :=
  map (fun h => (h, map (fun t => PyStr.strip (Soup.get_text t)) (Soup.find_all [h] soup)))
      heading_names.

(** ['main', 'article', '[role="main"]', '.content', '.main-content',
     '#content', '.post-content', '.entry-content', '.article-body'] *)
Definition content_selectors : list Soup.selector :=
  [ Soup.SelTag "main"; Soup.SelTag "article"; Soup.SelAttrEq "role" "main";
    Soup.SelClass "content"; Soup.SelClass "main-content"; Soup.SelId "content";
    Soup.SelClass "post-content"; Soup.SelClass "entry-content";
    Soup.SelClass "article-body" ].

Definition _extract_main_content (soup : Soup.soup) : string :=
  PyStr.join " "
    (flat_map
       (fun selector =>
          List.filter (fun text => 100 <? String.length text)
            (map Soup.get_text_sep (Soup.select selector soup)))
       content_selectors).

Section Links.
Context `{!UrlLib}.

(** The loop of [_extract_links]; [urljoin] may raise. *)
Fixpoint links_loop (base_url : string) (anchors : list Soup.node) (links : list link)
    : option (list link) :=
  match anchors with
  | [] => Some links
  | a :: rest =>
      let href := Soup.href a in
      let text := PyStr.strip (Soup.get_text a) in
      if PyStr.truthy text && PyStr.truthy href
      then
        match urljoin base_url href with
        | None => None
        | Some full_url => links_loop base_url rest (links ++ [mkLink full_url text])
        end
      else links_loop base_url rest links
  end.

(** The entry [l] was made of the anchor [a]. *)
Definition link_of (base_url : string) (l : link) (a : Soup.node) : Prop :=
  anchor_text l = PyStr.strip (Soup.get_text a) /\
  urljoin base_url (Soup.href a) = Some (link_url l).

(** [_extract_links(soup, base_url)]: [links[:50]]. *)
Definition _extract_links (soup : Soup.soup) (base_url : string) : option (list link) :=
  match links_loop base_url (Soup.anchors soup) [] with
  | Some links => Some (take 50 links)
  | None => None
  end.

End Links.

(** ['.faq', '.faqs', '.qa', '.question-answer', '[class*="faq"]',
     '[class*="question"]'] *)
Definition faq_selectors : list Soup.selector :=
  [ Soup.SelClass "faq"; Soup.SelClass "faqs"; Soup.SelClass "qa";
    Soup.SelClass "question-answer"; Soup.SelAttrSub "class" "faq";
    Soup.SelAttrSub "class" "question" ].

(** The names given to [section.find_all]; the last two are CSS selectors,
    which no tag name equals. *)
Definition question_names : list string :=
  ["h3"; "h4"; "h5"; ".question";
   "[class*=" +:+ PyStr.dquote +:+ "question" +:+ PyStr.dquote +:+ "]"].

(** The question-answer pair of one question element, if it has both. *)
Definition faq_of (q : Soup.located) : list faq :=
  let question_text := PyStr.strip (Soup.get_text (Soup.element q)) in
  if PyStr.truthy question_text
  then
    let answer_element :=
      match Soup.find_next_sibling ["p"; "div"; ".answer"] q with
      | Some a => Some a
      | None => Soup.parent_find_next_sibling ["p"; "div"] q
      end in
    let answer_text :=
      match answer_element with
      | Some a => PyStr.strip (Soup.get_text a)
      | None => EmptyString
      end in
    if PyStr.truthy question_text && PyStr.truthy answer_text
    then [mkFaq question_text answer_text]
    else []
  else [].

Definition _extract_faq_content (soup : Soup.soup) : list faq :=
  flat_map
    (fun selector =>
       flat_map
         (fun section => flat_map faq_of (Soup.find_all_below question_names section))
         (Soup.select_located selector soup))
    faq_selectors.

(** The selector lists of [_extract_product_info], key by key. *)
Definition product_selectors : list (string * list Soup.selector) :=
  [ ("description",
     [Soup.SelClass "product-description"; Soup.SelClass "description";
      Soup.SelClass "summary"]);
    ("features",
     [Soup.SelClass "features"; Soup.SelClass "product-features"; Soup.SelClass "benefits"]);
    ("price", [Soup.SelClass "price"; Soup.SelClass "cost"; Soup.SelClass "pricing"]);
    ("specifications",
     [Soup.SelClass "specs"; Soup.SelClass "specifications"; Soup.SelClass "details"]) ].

(** The inner loop: the text of the first selector that selects elements
    with a text. *)
Fixpoint first_text (soup : Soup.soup) (selector_list : list Soup.selector)
    : option string :=
  match selector_list with
  | [] => None
  | selector :: rest =>
      let elements := Soup.select selector soup in
      let text := PyStr.join " " (map (fun el => PyStr.strip (Soup.get_text el)) elements) in
      if negb (bool_decide (elements = [])) && PyStr.truthy text
      then Some text
      else first_text soup rest
  end.

Definition _extract_product_info (soup : Soup.soup) : list (string * string) :=
  flat_map
    (fun '(key, selector_list) =>
       match first_text soup selector_list with
       | Some text => [(key, text)]
       | None => []
       end)
    product_selectors.

Definition email_pattern : string :=
  "\b[A-Za-z0-9._%+-]+@[A-Za-z0-9.-]+\.[A-Z|a-z]{2,}\b".
Definition phone_pattern : string :=
  "\b(?:\+?1[-.\s]?)?\(?([0-9]{3})\)?[-.\s]?([0-9]{3})[-.\s]?([0-9]{4})\b".

Definition contact_patterns : list (string * string) :=
  [("email", email_pattern); ("phone", phone_pattern)].

Section Contact.
Context `{!Regex}.

Definition _extract_contact_info (soup : Soup.soup) : list (string * list (list string)) :=
  let page_text := Soup.soup_text soup in
  flat_map
    (fun '(info_type, pattern) =>
       let found := re_findall pattern page_text in
       if negb (bool_decide (found = [])) then [(info_type, take 3 found)] else [])
    contact_patterns.

End Contact.

(** ['nav', '.navigation', '.menu', '.navbar', 'header ul'] *)
Definition nav_selectors : list Soup.selector :=
  [ Soup.SelTag "nav"; Soup.SelClass "navigation"; Soup.SelClass "menu";
    Soup.SelClass "navbar"; Soup.SelDescendant (Soup.SelTag "header") (Soup.SelTag "ul") ].

(** [set(l)] *)
Definition set_of_list (l : list string) : pyset :=
  fold_left (fun s x => set_add x s) l [].

Section Navigation.
Context `{!SetOrder}.

Definition _extract_navigation_text (soup : Soup.soup) : list string :=
  let nav_text :=
    flat_map
      (fun selector =>
         flat_map
           (fun nav =>
              List.filter PyStr.truthy
                (map (fun a => PyStr.strip (Soup.get_text a))
                   (Soup.find_all ["a"] (Soup.children nav))))
           (Soup.select selector soup))
      nav_selectors in
  list_of_set (set_of_list nav_text).

End Navigation.

Definition removed_for_clean_text : list string :=
  ["script"; "style"; "nav"; "header"; "footer"; "aside"].

(** [_extract_clean_text] removes elements from the document it is given:
    it returns the text and the document it leaves behind. *)
Definition _extract_clean_text (soup : Soup.soup) : string * Soup.soup :=
  let soup' := Soup.decompose_all removed_for_clean_text soup in
  let text := Soup.soup_text_sep soup' in
  let text := PyStr.collapse_ws false text in
  (PyStr.strip text, soup').

(** *** [scrape_page] and [scrape_multiple_urls] *)

Section Scraping.
Context {World : Type} `{!Requests World} `{!Clock World} `{!UrlLib} `{!HtmlParser}
  `{!SetOrder} `{!Regex}.

(** The extractor calls of the dictionary display of [scrape_page], in the
    order in which they are evaluated, on the one parsed document they
    share.  [None] when [urljoin] raises in [_extract_links]. *)
Definition extract_fields (url timestamp : string) (soup : Soup.soup)
    : option page_data * Soup.soup :=
  let title := _extract_title soup in
  let meta_description := _extract_meta_description soup in
  let headings := _extract_headings soup in
  let main_content := _extract_main_content soup in
  match _extract_links soup url with
  | None => (None, soup)
  | Some links =>
      let faq_content := _extract_faq_content soup in
      let product_info := _extract_product_info soup in
      let contact_info := _extract_contact_info soup in
      let navigation_text := _extract_navigation_text soup in
      let '(clean_text, soup') := _extract_clean_text soup in
      (Some (mkPageData url timestamp title meta_description headings main_content
               links faq_content product_info contact_info navigation_text clean_text),
       soup')
  end.

(** The extractors by name, the values they return, and a call of one of
    them on the shared document. *)
Inductive extractor : Type :=
| ExtractTitle
| ExtractMetaDescription
| ExtractHeadings
| ExtractMainContent
| ExtractLinks
| ExtractFaqContent
| ExtractProductInfo
| ExtractContactInfo
| ExtractNavigationText
| ExtractCleanText.

Inductive value : Type :=
| Str (s : string)
| StrList (l : list string)
| HeadingDict (h : list (string * list string))
| LinkList (l : list link)
| FaqList (l : list faq)
| InfoDict (d : list (string * string))
| ContactDict (d : list (string * list (list string)))
| Raise.

Definition call (e : extractor) (url : string) (soup : Soup.soup) : value * Soup.soup :=
  match e with
  | ExtractTitle => (Str (_extract_title soup), soup)
  | ExtractMetaDescription => (Str (_extract_meta_description soup), soup)
  | ExtractHeadings => (HeadingDict (_extract_headings soup), soup)
  | ExtractMainContent => (Str (_extract_main_content soup), soup)
  | ExtractLinks =>
      (match _extract_links soup url with
       | Some links => LinkList links
       | None => Raise
       end, soup)
  | ExtractFaqContent => (FaqList (_extract_faq_content soup), soup)
  | ExtractProductInfo => (InfoDict (_extract_product_info soup), soup)
  | ExtractContactInfo => (ContactDict (_extract_contact_info soup), soup)
  | ExtractNavigationText => (StrList (_extract_navigation_text soup), soup)
  | ExtractCleanText =>
      let '(text, soup') := _extract_clean_text soup in (Str text, soup')
  end.

(** The calls [es] one after the other on the same parsed document. *)
Fixpoint call_all (es : list extractor) (url : string) (soup : Soup.soup)
    : list value * Soup.soup :=
  match es with
  | [] => ([], soup)
  | e :: rest =>
      let '(v, soup1) := call e url soup in
      let '(vs, soup2) := call_all rest url soup1 in
      (v :: vs, soup2)
  end.

(** The order of the calls in [scrape_page]. *)
Definition scrape_page_order : list extractor :=
  [ ExtractTitle; ExtractMetaDescription; ExtractHeadings; ExtractMainContent;
    ExtractLinks; ExtractFaqContent; ExtractProductInfo; ExtractContactInfo;
    ExtractNavigationText; ExtractCleanText ].

(** [scrape_page(url)]: every exception raised inside the [try] ends in
    [return None]. *)
Definition scrape_page (url : string) (w : World) : option page_data * World :=
  match session_get w url with
  | (w1, None) => (None, w1)
  | (w1, Some response) =>
      if raise_for_status response
      then (None, w1)
      else
        let soup := BeautifulSoup (content response) in
        let '(w2, timestamp) := datetime_now w1 in
        (fst (extract_fields url timestamp soup), w2)
  end.

(** The fetch of [url] in the world [w] fails: [session.get] raises, or
    [raise_for_status] does. *)
Definition fetch_fails (url : string) (w : World) : Prop :=
  match session_get w url with
  | (_, None) => True
  | (_, Some response) => raise_for_status response = true
  end.

(** [scrape_multiple_urls(urls)] on the state [self.scraped_data]. *)
Fixpoint scrape_multiple_urls (urls : list string) (scraped_data : list page_data)
    (w : World) : list page_data * World :=
  match urls with
  | [] => (scraped_data, w)
  | url :: rest =>
      match scrape_page url w with
      | (Some data, w') => scrape_multiple_urls rest (scraped_data ++ [data]) w'
      | (None, w') => scrape_multiple_urls rest scraped_data w'
      end
  end.

End Scraping.

(** The anchors of which [_extract_links] makes an entry. *)
Definition kept_anchor (a : Soup.node) : bool :=
  PyStr.truthy (PyStr.strip (Soup.get_text a)) && PyStr.truthy (Soup.href a).

(** *** [save_to_csv] *)

(** A cell of the data frame. *)
Inductive cell : Type :=
| CStr (s : string)
| CInt (n : nat).

(** What [df.to_csv(filename, index=False)] writes: the header row and one
    row per dictionary of the frame. *)
Record csv_file : Type := mkCsv {
  csv_header : list string;
  csv_rows : list (list cell)
}.

(** [headings.get(key, [])] *)
Definition headings_get (headings : list (string * list string)) (key : string)
    : list string :=
  default [] (Soup.lookup_attr_list key headings).

(** The dictionary [flat_item] of one record, as its items in order. *)
Definition flat_item (item : page_data) : list (string * cell) :=
  [ ("url", CStr (data_url item));
    ("timestamp", CStr (data_timestamp item));
    ("title", CStr (data_title item));
    ("meta_description", CStr (data_meta_description item));
    ("main_content", CStr (data_main_content item));
    ("clean_text", CStr (data_clean_text item));
    ("h1_headings", CStr (PyStr.join "; " (headings_get (data_headings item) "h1")));
    ("h2_headings", CStr (PyStr.join "; " (headings_get (data_headings item) "h2")));
    ("faq_count", CInt (length (data_faq_content item)));
    ("links_count", CInt (length (data_links item))) ].

(** [pd.DataFrame(flattened_data).to_csv(...)]: the columns are the keys of
    the dictionaries, which all have the same. *)
Definition to_csv (flattened_data : list (list (string * cell))) : csv_file :=
  mkCsv (map fst (default [] (head flattened_data))) (map (map snd) flattened_data).

(** [save_to_csv]: nothing is written for an empty [scraped_data]. *)
Definition save_to_csv (scraped_data : list page_data) : option csv_file :=
  match scraped_data with
  | [] => None
  | _ => Some (to_csv (map flat_item scraped_data))
  end.

(** The cell of a row in the column [name]. *)
Fixpoint column (name : string) (header : list string) (row : list cell) : option cell :=
  match header, row with
  | h :: header', c :: row' => if String.eqb h name then Some c else column name header' row'
  | _, _ => None
  end.

(** *** [create_llm_training_format] *)

(** A training example: the dictionary with the keys [input], [output],
    [source_url] and [type]. *)
Record training_example : Type := mkExample {
  ex_input : string;
  ex_output : string;
  ex_source_url : string;
  ex_type : string
}.

(** [main_content[:500] + "..." if len(main_content) > 500 else main_content] *)
Definition summary_output (main_content : string) : string :=
  if 500 <? String.length main_content
  then PyStr.slice_to 500 main_content +:+ "..."
  else main_content.

(** The examples made of one record: its FAQ entries, its page summary
    and its product information. *)
Definition examples_of (item : page_data) : list training_example :=
  map (fun f => mkExample (question f) (answer f) (data_url item) "faq")
      (data_faq_content item) ++
  (if PyStr.truthy (data_title item) && PyStr.truthy (data_main_content item)
   then [mkExample ("What can you tell me about " +:+ data_title item +:+ "?")
           (summary_output (data_main_content item)) (data_url item) "page_summary"]
   else []) ++
  flat_map
    (fun '(key, value) =>
       if PyStr.truthy value
       then [mkExample ("Tell me about the " +:+ key +:+ " of this product/service")
               value (data_url item) "product_info"]
       else [])
    (data_product_info item).

(** The list [training_data] that [create_llm_training_format] builds. *)
Definition training_data (scraped_data : list page_data) : list training_example :=
  flat_map examples_of scraped_data.

Section TrainingFile.

(** [json.dumps(item, ensure_ascii=False)] *)
Variable json_dumps : training_example -> string.

(** The lines that [create_llm_training_format] writes. *)
Definition create_llm_training_format (scraped_data : list page_data) : list string :=
  map (fun item => json_dumps item +:+ String (ascii_of_nat 10) EmptyString)
      (training_data scraped_data).

End TrainingFile.

(** *** [discover_urls] *)

Section Discovery.
Context {World : Type} `{!Requests World} `{!UrlLib} `{!HtmlParser} `{!SetOrder}.

(** [self.base_url] *)
Variable base_url : string.

(** The body of the loop over the anchors of the page at [url]:
    [full_url = urljoin(url, href)], kept when
    [urlparse(full_url).netloc == urlparse(self.base_url).netloc]. *)
Definition internal_link (url href : string) : verdict :=
  match urljoin url href with
  | None => Raised
  | Some full_url =>
      match urlparse_netloc full_url, urlparse_netloc base_url with
      | Some host, Some base_host =>
          if String.eqb host base_host then Followed full_url else Skipped
      | _, _ => Raised
      end
  end.

(** The host of [url] is the host of the base URL. *)
Definition same_host (url : string) : Prop :=
  exists host, urlparse_netloc url = Some host /\ urlparse_netloc base_url = Some host.

(** The [try] block of [discover_urls]: one request for [url] and the walk
    over the anchors of the answer.  No [raise_for_status] here: the page
    of an error status is parsed like any other. *)
Definition fetch_links (url : string) (depth : nat) (queue : list entry) (w : World)
    : list entry * World :=
  match session_get w url with
  | (w', None) => (queue, w')
  | (w', Some response) =>
      let soup := BeautifulSoup (content response) in
      (follow_links (internal_link url) depth (map Soup.href (Soup.anchors soup)) queue, w')
  end.

(** One iteration of [while to_visit]; [None] when the frontier is empty. *)
Definition discover_urls_body (max_depth : nat) (s : crawl World) : option (crawl World) :=
  match to_visit s with
  | [] => None
  | (url, depth) :: rest =>
      if bool_decide (url ∈ visited s) || (max_depth <? depth)
      then Some (mkCrawl rest (visited s) (discovered_urls s) (world s))
      else
        let visited' := {[ url ]} ∪ visited s in
        let discovered' := set_add url (discovered_urls s) in
        if depth <? max_depth
        then
          let '(queue, w') := fetch_links url depth rest (world s) in
          Some (mkCrawl queue visited' discovered' w')
        else Some (mkCrawl rest visited' discovered' (world s))
  end.

Definition discover_urls_init (start_url : string) (w : World) : crawl World :=
  mkCrawl [(start_url, 0)] ∅ [] w.

(** [discover_urls(start_url, max_depth)], with the loop bounded by [fuel]. *)
Definition discover_urls (start_url : string) (max_depth : nat) (fuel : nat) (w : World)
    : outcome (list string) :=
  match while (discover_urls_body max_depth) fuel (discover_urls_init start_url w) with
  | Returns s => Returns (list_of_set (discovered_urls s))
  | Raises => Raises
  | OutOfFuel => OutOfFuel
  end.

(** [discover_urls] with the state in which it leaves the outside world. *)
Definition discover_urls_in (start_url : string) (max_depth : nat) (fuel : nat) (w : World)
    : outcome (list string * World) :=
  match while (discover_urls_body max_depth) fuel (discover_urls_init start_url w) with
  | Returns s => Returns (list_of_set (discovered_urls s), world s)
  | Raises => Raises
  | OutOfFuel => OutOfFuel
  end.

(** The loop with [max_depth] as the Python [int] that it is: the depths
    in the frontier start at 0 and grow by one, the limit may be negative.
    For a limit that is a natural number this is [discover_urls_body]. *)
Definition discover_urls_body_int (max_depth : Z) (s : crawl World)
    : option (crawl World) :=
  match to_visit s with
  | [] => None
  | (url, depth) :: rest =>
      if bool_decide (url ∈ visited s) || (max_depth <? Z.of_nat depth)%Z
      then Some (mkCrawl rest (visited s) (discovered_urls s) (world s))
      else
        let visited' := {[ url ]} ∪ visited s in
        let discovered' := set_add url (discovered_urls s) in
        if (Z.of_nat depth <? max_depth)%Z
        then
          let '(queue, w') := fetch_links url depth rest (world s) in
          Some (mkCrawl queue visited' discovered' w')
        else Some (mkCrawl rest visited' discovered' (world s))
  end.

(** [discover_urls(start_url, max_depth)] for every [int]. *)
Definition discover_urls_int (start_url : string) (max_depth : Z) (fuel : nat) (w : World)
    : outcome (list string) :=
  match while (discover_urls_body_int max_depth) fuel (discover_urls_init start_url w) with
  | Returns s => Returns (list_of_set (discovered_urls s))
  | Raises => Raises
  | OutOfFuel => OutOfFuel
  end.

End Discovery.

End WebScraperForLLM.

(** ** analyze_training_data.py *)

Module AnalyzeTrainingData.

Definition EAGLES_WEBSITE : string := "https://www.teambuilding-paris.com/".

(** The list of f-strings [f"{EAGLES_WEBSITE}/"], [f"{EAGLES_WEBSITE}/about"], ... *)
Definition eagles_pages : list string :=
  map (fun page => EAGLES_WEBSITE +:+ page)
      ["/"; "/about"; "/faq"; "/contact"; "/services"; "/team-building"; "/experiences"].

(** [[url for url in discovered
      if EAGLES_WEBSITE in url and url not in already_scraped]] *)
Definition additional_urls (discovered : list string) : list string :=
  List.filter
    (fun url => PyStr.contains EAGLES_WEBSITE url && negb (bool_decide (url ∈ eagles_pages)))
    discovered.

Section Scrape.
Context {World : Type} `{!Requests World} `{!Clock World} `{!UrlLib} `{!HtmlParser}
  `{!SetOrder} `{!Regex}.

(** [scrape_eagles_team_experiences()]: the records it returns, with a
    fresh scraper for [EAGLES_WEBSITE]. *)
Definition scrape_eagles_team_experiences (fuel : nat) (w : World)
    : outcome (list WebScraperForLLM.page_data * World) :=
  let '(scraped_data, w1) := WebScraperForLLM.scrape_multiple_urls eagles_pages [] w in
  match WebScraperForLLM.discover_urls_in EAGLES_WEBSITE EAGLES_WEBSITE 1 fuel w1 with
  | Returns (discovered, w2) =>
      let eagles_urls := additional_urls discovered in
      match eagles_urls with
      | [] => Returns (scraped_data, w2)
      | _ => Returns (WebScraperForLLM.scrape_multiple_urls (take 10 eagles_urls)
                        scraped_data w2)
      end
  | Raises => Raises
  | OutOfFuel => OutOfFuel
  end.

End Scrape.

End AnalyzeTrainingData.

(** ** complete_web_scraper.py: [CompleteTextWebScraper] *)

Module CompleteTextWebScraper.

(** *** Extractors of [scrape_page]

    The two extractors that delete elements from the parsed document, and
    extractors that [scrape_page] calls after them. *)

Definition _extract_title (soup : Soup.soup) : string :=
  match Soup.find ["title"] soup with
  | Some title_tag => PyStr.strip (Soup.get_text title_tag)
  | None => EmptyString
  end.

(** [text.startswith('<!--')] on the strings of the document. *)
Definition comment_like (n : Soup.node) : bool :=
  match n with
  | Soup.Text s => PyStr.startswith s "<!--"
  | Soup.Tag _ _ _ => false
  end.

Definition removed_for_body_text : list string := ["script"; "style"; "noscript"].

(** [_extract_complete_body_text]: the text and the document it leaves
    behind. *)
Definition _extract_complete_body_text (soup : Soup.soup) : string * Soup.soup :=
  let soup1 := Soup.decompose_all removed_for_body_text soup in
  let soup2 := Soup.prune_all comment_like soup1 in
  let text :=
    match Soup.find ["body"] soup2 with
    | Some body => Soup.get_text_sep body
    | None => Soup.soup_text_sep soup2
    end in
  (PyStr.strip (PyStr.collapse_ws false text), soup2).

Definition _extract_all_paragraphs (soup : Soup.soup) : list string :=
  List.filter (fun text => PyStr.truthy text && (10 <? String.length text))
    (map (fun p => PyStr.strip (Soup.get_text p)) (Soup.find_all ["p"] soup)).

(** ['script', 'style', 'noscript', 'meta', 'link', 'title',
     '[style*="display:none"]', '[style*="visibility:hidden"]',
     '.sr-only', '.visually-hidden', '.screen-reader-text'] *)
Definition invisible_elements : list Soup.selector :=
  [ Soup.SelTag "script"; Soup.SelTag "style"; Soup.SelTag "noscript";
    Soup.SelTag "meta"; Soup.SelTag "link"; Soup.SelTag "title";
    Soup.SelAttrSub "style" "display:none"; Soup.SelAttrSub "style" "visibility:hidden";
    Soup.SelClass "sr-only"; Soup.SelClass "visually-hidden";
    Soup.SelClass "screen-reader-text" ].

(** [_extract_all_visible_text]: the text and the document it leaves
    behind. *)
Definition _extract_all_visible_text (soup : Soup.soup) : string * Soup.soup :=
  let soup' :=
    fold_left (fun d selector => Soup.decompose_selected selector d)
      invisible_elements soup in
  (Soup.soup_text_sep soup', soup').

(** The tags and keys of [_extract_structured_content]. *)
Definition sections : list (string * string) :=
  [ ("nav", "nav_text"); ("header", "header_text"); ("main", "main_text");
    ("aside", "aside_text"); ("footer", "footer_text"); ("article", "article_text");
    ("section", "section_text") ].

Definition _extract_structured_content (soup : Soup.soup) : list (string * list string) :=
  map (fun '(tag, key) =>
         (key,
          List.filter (fun text => PyStr.truthy text && (20 <? String.length text))
            (map Soup.get_text_sep (Soup.find_all [tag] soup))))
      sections.

Record page_statistics : Type := mkStatistics {
  total_characters : nat;
  total_words : nat;
  total_paragraphs : nat;
  total_headings : nat;
  total_links : nat;
  total_images : nat;
  total_lists : nat;
  total_tables : nat
}.

Definition _calculate_page_statistics (soup : Soup.soup) : page_statistics :=
  let text := Soup.soup_text soup in
  mkStatistics
    (String.length text)
    (length (PyStr.split_ws EmptyString text))
    (length (Soup.find_all ["p"] soup))
    (length (Soup.find_all ["h1"; "h2"; "h3"; "h4"; "h5"; "h6"] soup))
    (length (Soup.find_all ["a"] soup))
    (length (Soup.find_all ["img"] soup))
    (length (Soup.find_all ["ul"; "ol"; "dl"] soup))
    (length (Soup.find_all ["table"] soup)).

(** *** [discover_all_pages] *)

Definition skipped_prefixes : list string :=
  ["#"; "javascript:"; "mailto:"; "tel:"].

Definition excluded_extensions : list string :=
  [".pdf"; ".jpg"; ".jpeg"; ".png"; ".gif"; ".zip"; ".doc"; ".docx"; ".xls"; ".xlsx"].

Definition excluded_paths : list string :=
  ["/admin/"; "/wp-admin/"; "/login/"; "/register/"; "/api/"].

(** [not any(full_url.lower().endswith(ext) ...) and
     not any(path in full_url.lower() ...)] *)
Definition not_excluded (full_url : string) : bool :=
  negb (existsb (PyStr.endswith (PyStr.lower full_url)) excluded_extensions) &&
  negb (existsb (fun path => PyStr.contains path (PyStr.lower full_url)) excluded_paths).

Section Discovery.
Context {World : Type} `{!Requests World} `{!UrlLib} `{!HtmlParser} `{!SetOrder}.

(** [self.base_url] *)
Variable base_url : string.

(** The body of the loop over the anchors of the page at [clean_url]. *)
Definition page_link (base_domain clean_url raw_href : string) : verdict :=
  let href := PyStr.strip raw_href in
  if negb (PyStr.truthy href) || PyStr.startswith_any href skipped_prefixes
  then Skipped
  else
    match urljoin clean_url href with
    | None => Raised
    | Some full_url =>
        match urlparse_netloc full_url with
        | None => Raised
        | Some host =>
            if String.eqb host base_domain || String.eqb host EmptyString
            then (if not_excluded full_url then Followed full_url else Skipped)
            else Skipped
        end
    end.

(** What the link filter lets through. *)
Definition on_site (base_domain full_url : string) : Prop :=
  (urlparse_netloc full_url = Some base_domain \/
   urlparse_netloc full_url = Some EmptyString) /\
  not_excluded full_url = true.

(** The [try] block: the request, [raise_for_status], and the walk over the
    anchors. *)
Definition fetch_links (base_domain clean_url : string) (depth : nat)
    (queue : list entry) (w : World) : list entry * World :=
  match session_get w clean_url with
  | (w', None) => (queue, w')
  | (w', Some response) =>
      if raise_for_status response
      then (queue, w')
      else
        let soup := BeautifulSoup (content response) in
        (follow_links (page_link base_domain clean_url) depth
           (map Soup.href (Soup.anchors soup)) queue, w')
  end.

(** One iteration of [while to_visit and len(discovered_urls) < max_pages];
    [None] when the condition fails. *)
Definition discover_all_pages_body (base_domain : string) (max_pages max_depth : nat)
    (s : crawl World) : option (crawl World) :=
  match to_visit s with
  | [] => None
  | (url, depth) :: rest =>
      if negb (length (discovered_urls s) <? max_pages)
      then None
      else if bool_decide (url ∈ visited s) || (max_depth <? depth)
      then Some (mkCrawl rest (visited s) (discovered_urls s) (world s))
      else
        let clean_url := PyStr.before_hash url in
        if bool_decide (clean_url ∈ visited s)
        then Some (mkCrawl rest (visited s) (discovered_urls s) (world s))
        else
          let visited' := {[ clean_url ]} ∪ visited s in
          let discovered' := set_add clean_url (discovered_urls s) in
          if (depth <? max_depth) && (length discovered' <? max_pages)
          then
            let '(queue, w') := fetch_links base_domain clean_url depth rest (world s) in
            Some (mkCrawl queue visited' discovered' w')
          else Some (mkCrawl rest visited' discovered' (world s))
  end.

Definition discover_all_pages_init (start_url : string) (w : World) : crawl World :=
  mkCrawl [(start_url, 0)] ∅ [] w.

(** [discover_all_pages(start_url, max_pages, max_depth)], with the loop
    bounded by [fuel].  [urlparse(self.base_url)] stands before the loop and
    outside any [try]. *)
Definition discover_all_pages (start_url : string) (max_pages max_depth : nat)
    (fuel : nat) (w : World) : outcome (list string) :=
  match urlparse_netloc base_url with
  | None => Raises
  | Some base_domain =>
      match while (discover_all_pages_body base_domain max_pages max_depth) fuel
              (discover_all_pages_init start_url w) with
      | Returns s => Returns (list_of_set (discovered_urls s))
      | Raises => Raises
      | OutOfFuel => OutOfFuel
      end
  end.

(** The loop with [max_pages] and [max_depth] as the Python [int]s that
    they are: lengths and depths are natural numbers, the limits may be
    negative.  For limits that are natural numbers this is
    [discover_all_pages_body]. *)
Definition discover_all_pages_body_int (base_domain : string) (max_pages max_depth : Z)
    (s : crawl World) : option (crawl World) :=
  match to_visit s with
  | [] => None
  | (url, depth) :: rest =>
      if negb (Z.of_nat (length (discovered_urls s)) <? max_pages)%Z
      then None
      else if bool_decide (url ∈ visited s) || (max_depth <? Z.of_nat depth)%Z
      then Some (mkCrawl rest (visited s) (discovered_urls s) (world s))
      else
        let clean_url := PyStr.before_hash url in
        if bool_decide (clean_url ∈ visited s)
        then Some (mkCrawl rest (visited s) (discovered_urls s) (world s))
        else
          let visited' := {[ clean_url ]} ∪ visited s in
          let discovered' := set_add clean_url (discovered_urls s) in
          if (Z.of_nat depth <? max_depth)%Z && (Z.of_nat (length discovered') <? max_pages)%Z
          then
            let '(queue, w') := fetch_links base_domain clean_url depth rest (world s) in
            Some (mkCrawl queue visited' discovered' w')
          else Some (mkCrawl rest visited' discovered' (world s))
  end.

(** [discover_all_pages(start_url, max_pages, max_depth)] for every pair of
    [int]s, with the state in which it leaves the outside world. *)
Definition discover_all_pages_in_int (start_url : string) (max_pages max_depth : Z)
    (fuel : nat) (w : World) : outcome (list string * World) :=
  match urlparse_netloc base_url with
  | None => Raises
  | Some base_domain =>
      match while (discover_all_pages_body_int base_domain max_pages max_depth) fuel
              (discover_all_pages_init start_url w) with
      | Returns s => Returns (list_of_set (discovered_urls s), world s)
      | Raises => Raises
      | OutOfFuel => OutOfFuel
      end
  end.

Definition discover_all_pages_int (start_url : string) (max_pages max_depth : Z)
    (fuel : nat) (w : World) : outcome (list string) :=
  match discover_all_pages_in_int start_url max_pages max_depth fuel w with
  | Returns (final_urls, _) => Returns final_urls
  | Raises => Raises
  | OutOfFuel => OutOfFuel
  end.

End Discovery.

(** *** The other extractors of [scrape_page] *)

(** [tag.get_text().strip()] *)
Definition text_of (n : Soup.node) : string := PyStr.strip (Soup.get_text n).

(** [tag.get(key, '').strip()] *)
Definition attr_of (n : Soup.node) (key : string) : string :=
  PyStr.strip (Soup.get_or_empty n key).

Definition _extract_meta_description (soup : Soup.soup) : string :=
  let meta_desc :=
    match WebScraperForLLM.find_meta "name" "description" soup with
    | Some m => Some m
    | None => WebScraperForLLM.find_meta "property" "og:description" soup
    end in
  match meta_desc with
  | Some m => attr_of m "content"
  | None => EmptyString
  end.

Definition _extract_meta_keywords (soup : Soup.soup) : string :=
  match WebScraperForLLM.find_meta "name" "keywords" soup with
  | Some m => attr_of m "content"
  | None => EmptyString
  end.

(** The headings with their level: level by level, and in document order
    within a level. *)
Definition _extract_all_headings (soup : Soup.soup) : list (string * string) :=
  flat_map
    (fun level =>
       map (fun text => (level, text))
         (List.filter PyStr.truthy (map text_of (Soup.find_all [level] soup))))
    WebScraperForLLM.heading_names.

(** The items of a list: texts for [ul] and [ol], pairs of a term and its
    definition for [dl]. *)
Inductive list_items : Type :=
| Items (items : list string)
| Definitions (terms_and_defs : list (string * string)).

(** The pair of one [dt], if its term is not empty. *)
Definition term_of (dt : Soup.located) : list (string * string) :=
  let term := text_of (Soup.element dt) in
  let definition :=
    match Soup.find_next_sibling ["dd"] dt with
    | Some dd => text_of dd
    | None => EmptyString
    end in
  if PyStr.truthy term then [(term, definition)] else [].

Definition _extract_all_lists (soup : Soup.soup) : list (string * list_items) :=
  flat_map
    (fun list_type =>
       flat_map
         (fun list_elem =>
            let items :=
              List.filter PyStr.truthy
                (map text_of (Soup.find_all ["li"] (Soup.children list_elem))) in
            match items with
            | [] => []
            | _ => [(list_type, Items items)]
            end)
         (Soup.find_all [list_type] soup))
    ["ul"; "ol"] ++
  flat_map
    (fun dl =>
       let terms_and_defs := flat_map term_of (Soup.find_all_below ["dt"] dl) in
       match terms_and_defs with
       | [] => []
       | _ => [("dl", Definitions terms_and_defs)]
       end)
    (Soup.select_located (Soup.SelTag "dl") soup).

Record table_data : Type := mkTable {
  table_headers : list string;
  table_rows : list (list string)
}.

Definition _extract_all_tables (soup : Soup.soup) : list table_data :=
  flat_map
    (fun table =>
       let headers := map text_of (Soup.find_all ["th"] (Soup.children table)) in
       let rows :=
         List.filter (existsb PyStr.truthy)
           (map (fun row => map text_of (Soup.find_all ["td"; "th"] (Soup.children row)))
              (Soup.find_all ["tr"] (Soup.children table))) in
       match headers, rows with
       | [], [] => []
       | _, _ => [mkTable headers rows]
       end)
    (Soup.find_all ["table"] soup).

(** [tag.get('type') in types] *)
Definition type_in (n : Soup.node) (types : list string) : bool :=
  match Soup.get n "type" with
  | Some t => existsb (String.eqb t) types
  | None => false
  end.

(** The texts of one [input]: its placeholder, and its value unless the
    input is a password or hidden. *)
Definition input_text (input_elem : Soup.node) : list string :=
  let placeholder := attr_of input_elem "placeholder" in
  let value := attr_of input_elem "value" in
  (if PyStr.truthy placeholder then ["Placeholder: " +:+ placeholder] else []) ++
  (if PyStr.truthy value && negb (type_in input_elem ["password"; "hidden"])
   then ["Value: " +:+ value]
   else []).

Definition textarea_text (textarea : Soup.node) : list string :=
  let placeholder := attr_of textarea "placeholder" in
  let text := text_of textarea in
  (if PyStr.truthy placeholder then ["Placeholder: " +:+ placeholder] else []) ++
  (if PyStr.truthy text then ["Text: " +:+ text] else []).

Definition _extract_form_text (soup : Soup.soup) : list string :=
  List.filter PyStr.truthy (map text_of (Soup.find_all ["label"] soup)) ++
  flat_map input_text (Soup.find_all ["input"] soup) ++
  flat_map textarea_text (Soup.find_all ["textarea"] soup) ++
  List.filter PyStr.truthy (map text_of (Soup.find_all ["option"] soup)).

Definition button_text (button : Soup.node) : list string :=
  if Soup.named ["input"] button && negb (type_in button ["button"; "submit"; "reset"])
  then []
  else
    let text := text_of button in
    let value := attr_of button "value" in
    if PyStr.truthy text then [text]
    else if PyStr.truthy value then [value]
    else [].

Definition _extract_button_text (soup : Soup.soup) : list string :=
  flat_map button_text (Soup.find_all ["button"; "input"] soup).

Record link_text : Type := mkLinkText {
  lt_url : string;
  lt_text : string;
  lt_title : string
}.

Section LinkText.
Context `{!UrlLib}.

(** The loop of [_extract_all_link_text]; [urljoin] may raise. *)
Fixpoint link_text_loop (base_url : string) (anchors : list Soup.node)
    (links : list link_text) : option (list link_text) :=
  match anchors with
  | [] => Some links
  | a :: rest =>
      let text := text_of a in
      let href := Soup.href a in
      let title := attr_of a "title" in
      if PyStr.truthy text || PyStr.truthy title
      then
        match urljoin base_url href with
        | None => None
        | Some full_url =>
            link_text_loop base_url rest (links ++ [mkLinkText full_url text title])
        end
      else link_text_loop base_url rest links
  end.

(** [_extract_all_link_text(soup)], with [self.base_url]. *)
Definition _extract_all_link_text (base_url : string) (soup : Soup.soup)
    : option (list link_text) :=
  link_text_loop base_url (Soup.anchors soup) [].

End LinkText.

Definition _extract_alt_text (soup : Soup.soup) : list string :=
  List.filter PyStr.truthy
    (map (fun img => attr_of img "alt") (Soup.find_all ["img"] soup)).

Definition is_tag (n : Soup.node) : bool :=
  match n with
  | Soup.Text _ => false
  | Soup.Tag _ _ _ => true
  end.

(** [soup.find_all()]: every tag. *)
Definition all_tags (soup : Soup.soup) : list Soup.node :=
  List.filter is_tag (Soup.nodes soup).

(** [soup.find_all(attrs={'title': True})] *)
Definition _extract_title_attributes (soup : Soup.soup) : list string :=
  List.filter PyStr.truthy
    (map (fun elem => attr_of elem "title")
       (List.filter (fun n => bool_decide (is_Some (Soup.get n "title"))) (all_tags soup))).

(** [elem.attrs.items()] *)
Definition attrs_of (n : Soup.node) : list (string * string) :=
  match n with
  | Soup.Text _ => []
  | Soup.Tag _ attrs _ => attrs
  end.

Definition _extract_data_attributes (soup : Soup.soup) : list (string * string) :=
  flat_map
    (fun elem =>
       flat_map
         (fun '(attr_name, attr_value) =>
            if PyStr.startswith attr_name "data-" &&
               (3 <? String.length (PyStr.strip attr_value))
            then [(attr_name, PyStr.strip attr_value)]
            else [])
         (attrs_of elem))
    (all_tags soup).

(** *** [scrape_page], [scrape_multiple_urls] and [scrape_entire_website] *)

(** The dictionary that [scrape_page] returns. *)
Record page_data : Type := mkPageData {
  data_url : string;
  data_timestamp : string;
  data_title : string;
  data_meta_description : string;
  data_meta_keywords : string;
  data_all_headings : list (string * string);
  data_complete_body_text : string;
  data_all_paragraph_text : list string;
  data_all_list_items : list (string * list_items);
  data_all_table_text : list table_data;
  data_all_form_labels : list string;
  data_all_button_text : list string;
  data_all_link_text : list link_text;
  data_alt_text : list string;
  data_title_attributes : list string;
  data_data_attributes : list (string * string);
  data_complete_visible_text : string;
  data_structured_content : list (string * list string);
  data_page_statistics : page_statistics
}.

Section Scraping.
Context {World : Type} `{!Requests World} `{!Clock World} `{!UrlLib} `{!HtmlParser}
  `{!SetOrder}.

(** [self.base_url] *)
Variable base_url : string.

(** The extractor calls of the dictionary display of [scrape_page], in the
    order in which they are evaluated, on the one parsed document they
    share.  [None] when [urljoin] raises in [_extract_all_link_text]. *)
Definition extract_fields (url timestamp : string) (soup : Soup.soup) : option page_data :=
  let title := _extract_title soup in
  let meta_description := _extract_meta_description soup in
  let meta_keywords := _extract_meta_keywords soup in
  let all_headings := _extract_all_headings soup in
  let '(complete_body_text, soup1) := _extract_complete_body_text soup in
  let all_paragraph_text := _extract_all_paragraphs soup1 in
  let all_list_items := _extract_all_lists soup1 in
  let all_table_text := _extract_all_tables soup1 in
  let all_form_labels := _extract_form_text soup1 in
  let all_button_text := _extract_button_text soup1 in
  match _extract_all_link_text base_url soup1 with
  | None => None
  | Some all_link_text =>
      let alt_text := _extract_alt_text soup1 in
      let title_attributes := _extract_title_attributes soup1 in
      let data_attributes := _extract_data_attributes soup1 in
      let '(complete_visible_text, soup2) := _extract_all_visible_text soup1 in
      let structured_content := _extract_structured_content soup2 in
      let statistics := _calculate_page_statistics soup2 in
      Some (mkPageData url timestamp title meta_description meta_keywords all_headings
              complete_body_text all_paragraph_text all_list_items all_table_text
              all_form_labels all_button_text all_link_text alt_text title_attributes
              data_attributes complete_visible_text structured_content statistics)
  end.

(** [scrape_page(url)] *)
Definition scrape_page (url : string) (w : World) : option page_data * World :=
  match session_get w url with
  | (w1, None) => (None, w1)
  | (w1, Some response) =>
      if raise_for_status response
      then (None, w1)
      else
        let soup := BeautifulSoup (content response) in
        let '(w2, timestamp) := datetime_now w1 in
        (extract_fields url timestamp soup, w2)
  end.

(** [scrape_multiple_urls(urls)] and the second phase of
    [scrape_entire_website]: the loop over the URLs, on the state
    [self.scraped_data]. *)
Fixpoint scrape_multiple_urls (urls : list string) (scraped_data : list page_data)
    (w : World) : list page_data * World :=
  match urls with
  | [] => (scraped_data, w)
  | url :: rest =>
      match scrape_page url w with
      | (Some data, w') => scrape_multiple_urls rest (scraped_data ++ [data]) w'
      | (None, w') => scrape_multiple_urls rest scraped_data w'
      end
  end.

(** [discover_all_pages] with the state in which it leaves the outside
    world. *)
Definition discover_all_pages_in (start_url : string) (max_pages max_depth : nat)
    (fuel : nat) (w : World) : outcome (list string * World) :=
  match urlparse_netloc base_url with
  | None => Raises
  | Some base_domain =>
      match while (discover_all_pages_body base_domain max_pages max_depth) fuel
              (discover_all_pages_init start_url w) with
      | Returns s => Returns (list_of_set (discovered_urls s), world s)
      | Raises => Raises
      | OutOfFuel => OutOfFuel
      end
  end.

(** What [scrape_entire_website] leaves: the list it returns, and
    [self.scraped_data]. *)
Record website_result : Type := mkWebsiteResult {
  returned : list page_data;
  scraped_after : list page_data
}.

(** [scrape_entire_website(start_url, max_pages, max_depth)] on the state
    [self.scraped_data]. *)
Definition scrape_entire_website (start_url : string) (max_pages max_depth : nat)
    (fuel : nat) (scraped_data : list page_data) (w : World)
    : outcome (website_result * World) :=
  match discover_all_pages_in start_url max_pages max_depth fuel w with
  | Returns (all_urls, w1) =>
      match all_urls with
      | [] => Returns (mkWebsiteResult [] scraped_data, w1)
      | _ =>
          let '(scraped_data', w2) := scrape_multiple_urls all_urls scraped_data w1 in
          Returns (mkWebsiteResult scraped_data' scraped_data', w2)
      end
  | Raises => Raises
  | OutOfFuel => OutOfFuel
  end.

(** [scrape_entire_website(start_url, max_pages, max_depth)] for every
    pair of [int]s. *)
Definition scrape_entire_website_int (start_url : string) (max_pages max_depth : Z)
    (fuel : nat) (scraped_data : list page_data) (w : World)
    : outcome (website_result * World) :=
  match discover_all_pages_in_int base_url start_url max_pages max_depth fuel w with
  | Returns (all_urls, w1) =>
      match all_urls with
      | [] => Returns (mkWebsiteResult [] scraped_data, w1)
      | _ =>
          let '(scraped_data', w2) := scrape_multiple_urls all_urls scraped_data w1 in
          Returns (mkWebsiteResult scraped_data' scraped_data', w2)
      end
  | Raises => Raises
  | OutOfFuel => OutOfFuel
  end.

End Scraping.

(** *** [get_summary_stats] *)

Record summary_stats : Type := mkSummary {
  total_pages : nat;
  summary_total_words : nat;
  summary_total_characters : nat;
  summary_total_links : nat;
  average_words_per_page : nat;
  urls_scraped : list string
}.

(** [sum(item['page_statistics'][key] for item in self.scraped_data)] *)
Definition sum_of (key : page_statistics -> nat) (scraped_data : list page_data) : nat :=
  list_sum (map (fun item => key (data_page_statistics item)) scraped_data).

(** [get_summary_stats()]: [None] stands for the empty dictionary. *)
Definition get_summary_stats (scraped_data : list page_data) : option summary_stats :=
  match scraped_data with
  | [] => None
  | _ =>
      let words := sum_of total_words scraped_data in
      Some (mkSummary (length scraped_data) words
              (sum_of total_characters scraped_data)
              (sum_of total_links scraped_data)
              (words / length scraped_data)
              (map data_url scraped_data))
  end.

End CompleteTextWebScraper.

(** ** Whitespace-normalised strings

    [single_spaced prev s]: the only whitespace in [s] is the space, and no
    space follows a space, nor the start of [s] when [prev] says that a
    space stands before it. *)

Fixpoint single_spaced (prev : bool) (s : string) : bool :=
  match s with
  | EmptyString => true
  | String c s' =>
      if PyStr.isspace c
      then Ascii.eqb c " " && negb prev && single_spaced true s'
      else single_spaced false s'
  end.

(** ** Counting the requests

    The library [R] with a counter of the calls of [session.get] beside the
    state of the outside world. *)

Definition counting {World : Type} (R : Requests World) : Requests (World * nat) :=
  {| session_get := fun wn url =>
       let '(w', response) := @session_get World R (fst wn) url in
       ((w', S (snd wn)), response);
     raise_for_status := @raise_for_status World R |}.

(** The clock of the outside world beside the counter. *)
Definition counting_clock {World : Type} (C : Clock World) : Clock (World * nat) :=
  {| datetime_now := fun wn =>
       let '(w', timestamp) := @datetime_now World C (fst wn) in
       ((w', snd wn), timestamp) |}.

(** A state of the counted crawl without its counter. *)
Definition forget {World : Type} (s : crawl (World * nat)) : crawl World :=
  mkCrawl (to_visit s) (visited s) (discovered_urls s) (fst (world s)).

(** The requests counted so far. *)
Definition requests {World : Type} (s : crawl (World * nat)) : nat := snd (world s).

(** ** Sample instances of the libraries

    Small, fully explicit instances on which the model is run: a site is a
    table from URLs to responses that never changes, the parser is a table
    from the HTML text of the sample pages to their parse trees, and the
    URLs of the sample pages are absolute, so that [urljoin] returns the
    [href] it is given. *)

Module Sample.

(** The part of [s] before the first of ['/'], ['?'] and ['#']: where
    [urlsplit] ends the network location. *)
Fixpoint until_delim (s : string) : string :=
  match s with
  | EmptyString => EmptyString
  | String c s' =>
      if Ascii.eqb c "/"%char || Ascii.eqb c "?"%char || Ascii.eqb c "#"%char
      then EmptyString
      else String c (until_delim s')
  end.

(** The part of [s] after its first [':']. *)
Fixpoint after_colon (s : string) : string :=
  match s with
  | EmptyString => EmptyString
  | String c s' => if Ascii.eqb c ":"%char then s' else after_colon s'
  end.

(** [urlparse(url).netloc] for a URL of the form [scheme:rest]: what stands
    between a leading [//] of [rest] and the next delimiter, and the empty
    string when [rest] does not start with [//]. *)
Definition netloc (url : string) : string :=
  match after_colon url with
  | String "/" (String "/" rest) => until_delim rest
  | _ => EmptyString
  end.

Definition absolute_urls : UrlLib :=
  {| urljoin := fun _ href => Some href;
     urlparse_netloc := fun url => Some (netloc url) |}.

Fixpoint lookup {A : Type} (key : string) (table : list (string * A)) : option A :=
  match table with
  | [] => None
  | (k, v) :: rest => if String.eqb k key then Some v else lookup key rest
  end.

(** A site that answers every request from a fixed table; a URL that is not
    in the table cannot be reached ([session.get] raises).
    [raise_for_status] raises on the 4xx and 5xx statuses. *)
Definition static_site (pages : list (string * Response)) : Requests unit :=
  {| session_get := fun w url => (w, lookup url pages);
     raise_for_status := fun r => (400 <=? status_code r) && (status_code r <? 600) |}.

Definition table_parser (trees : list (string * Soup.soup)) : HtmlParser :=
  {| BeautifulSoup := fun html => default [] (lookup html trees) |}.

(** Two orders in which a set may list its elements. *)
Definition insertion_order : SetOrder := {| list_of_set := fun s => s |}.
Definition reverse_order : SetOrder := {| list_of_set := fun s => rev s |}.

Definition link (url text : string) : Soup.node :=
  Soup.Tag "a" [("href", url)] [Soup.Text text].

(** A home page with two anchors that differ in their fragment only, and
    the page both lead to. *)
Definition home_html : string :=
  "<a href='https://x/a#foo'>Foo</a><a href='https://x/a#bar'>Bar</a>".
Definition page_a_html : string := "<p>page a</p>".

Definition fragment_trees : list (string * Soup.soup) :=
  [ (home_html, [link "https://x/a#foo" "Foo"; link "https://x/a#bar" "Bar"]);
    (page_a_html, [Soup.Tag "p" [] [Soup.Text "page a"]]) ].

Definition fragment_site : list (string * Response) :=
  [ ("https://x/", mkResponse 200 home_html);
    ("https://x/a", mkResponse 200 page_a_html);
    ("https://x/a#foo", mkResponse 200 page_a_html);
    ("https://x/a#bar", mkResponse 200 page_a_html) ].

(** A home page whose two anchors lead to the same page. *)
Definition twice_html : string :=
  "<a href='https://x/a'>One</a><a href='https://x/a'>Again</a>".

Definition twice_trees : list (string * Soup.soup) :=
  [ (twice_html, [link "https://x/a" "One"; link "https://x/a" "Again"]);
    (page_a_html, [Soup.Tag "p" [] [Soup.Text "page a"]]) ].

Definition twice_site : list (string * Response) :=
  [ ("https://x/", mkResponse 200 twice_html);
    ("https://x/a", mkResponse 200 page_a_html) ].

(** A home page that links to a document behind a fragment. *)
Definition manual_html : string :=
  "<a href='https://site/doc.pdf#page=2'>Manual</a>".

Definition manual_trees : list (string * Soup.soup) :=
  [ (manual_html, [link "https://site/doc.pdf#page=2" "Manual"]) ].

Definition manual_site : list (string * Response) :=
  [ ("https://site/", mkResponse 200 manual_html) ].

(** The sample pages hold no e-mail address and no phone number. *)
Definition nothing_to_find : Regex := {| re_findall := fun _ _ => [] |}.

(** A clock that stands still. *)
Definition fixed_clock (timestamp : string) : Clock unit :=
  {| datetime_now := fun w => (w, timestamp) |}.

(** [<header><h1>Hello</h1></header><p>World domination plan.</p>] *)
Definition header_doc : Soup.soup :=
  [ Soup.Tag "header" [] [Soup.Tag "h1" [] [Soup.Text "Hello"]];
    Soup.Tag "p" [] [Soup.Text "World domination plan."] ].

(** [<noscript><p>Please enable JavaScript.</p></noscript>] *)
Definition noscript_doc : Soup.soup :=
  [ Soup.Tag "noscript" [] [Soup.Tag "p" [] [Soup.Text "Please enable JavaScript."]] ].

(** [<title>Home</title><p>Hello world, welcome.</p>] *)
Definition title_doc : Soup.soup :=
  [ Soup.Tag "title" [] [Soup.Text "Home"];
    Soup.Tag "p" [] [Soup.Text "Hello world, welcome."] ].

(** [<p>Hello world, welcome.</p>]: nothing that an extractor deletes. *)
Definition plain_doc : Soup.soup :=
  [ Soup.Tag "p" [] [Soup.Text "Hello world, welcome."] ].

(** Four anchors: one with a text, one without a text, one with an empty
    [href], and one more with a text. *)
Definition anchors_doc : Soup.soup :=
  [ link "https://x/a" " First ";
    Soup.Tag "a" [("href", "https://x/b")] [Soup.Tag "img" [("src", "b.png")] []];
    link "" "Nowhere";
    Soup.Tag "p" [] [link "https://x/c" "Third"] ].

(** An anchor with a text, a [div] with an [href] and a text, an anchor
    without [href], an anchor with an empty [href], an anchor without a
    text, and an anchor with a text two levels down. *)
Definition links_doc : Soup.soup :=
  [ link "https://x/a" " First ";
    Soup.Tag "div" [("href", "https://x/d")] [Soup.Text "Not an anchor"];
    Soup.Tag "a" [("name", "top")] [Soup.Text "No href"];
    link "" "Empty href";
    link "https://x/b" "   ";
    Soup.Tag "p" [] [Soup.Tag "span" [] [link "https://x/c" "Third"]] ].

(** Sixty anchors with a text. *)
Definition sixty_anchors : Soup.soup :=
  map (fun _ => link "https://x/a" "A") (seq 0 60).

(** [<div class='qa'><h3>Q1</h3><p>A1</p><h3>Q2</h3><p>A2</p><h3>Q3</h3>
     <p>A3</p></div>] with a link below it. *)
Definition faq_html : string :=
  "<div class='qa'><h3>Q1</h3><p>A1</p><h3>Q2</h3><p>A2</p><h3>Q3</h3><p>A3</p></div><a href='https://x/a'>More</a>".

Definition faq_doc : Soup.soup :=
  [ Soup.Tag "div" [("class", "qa")]
      [ Soup.Tag "h3" [] [Soup.Text "Q1"]; Soup.Tag "p" [] [Soup.Text "A1"];
        Soup.Tag "h3" [] [Soup.Text "Q2"]; Soup.Tag "p" [] [Soup.Text "A2"];
        Soup.Tag "h3" [] [Soup.Text "Q3"]; Soup.Tag "p" [] [Soup.Text "A3"] ];
    link "https://x/a" "More" ].

Definition not_found_html : string := "<h1>Not Found</h1>".

(** A site with a page of questions and a page that answers 404. *)
Definition faq_site : list (string * Response) :=
  [ ("https://x/faq", mkResponse 200 faq_html);
    ("https://x/gone", mkResponse 404 not_found_html) ].

Definition faq_trees : list (string * Soup.soup) :=
  [ (faq_html, faq_doc);
    (not_found_html, [Soup.Tag "h1" [] [Soup.Text "Not Found"]]) ].

(** A site that answers 304 Not Modified, with the page it has sent
    before as the body. *)
Definition cached_site : list (string * Response) :=
  [ ("https://x/cached", mkResponse 304 page_a_html) ].

(** A site of which no page can be reached. *)
Definition unreachable_site : list (string * Response) := [].

(** [urlparse(url).path] for a URL of the form [scheme://host/path?query#fragment]. *)
Fixpoint from_slash (s : string) : string :=
  match s with
  | EmptyString => EmptyString
  | String c s' => if Ascii.eqb c "/"%char then s else from_slash s'
  end.

Fixpoint until_query (s : string) : string :=
  match s with
  | EmptyString => EmptyString
  | String c s' =>
      if Ascii.eqb c "?"%char || Ascii.eqb c "#"%char
      then EmptyString
      else String c (until_query s')
  end.

Definition path (url : string) : string :=
  match after_colon url with
  | String "/" (String "/" rest) => until_query (from_slash rest)
  | rest => until_query rest
  end.

(** [<nav><a href='https://x/'>Home</a><a href='https://x/a'>About</a>
     <a href='https://x/b'>Home</a></nav>]: two anchors with the same text. *)
Definition nav_doc : Soup.soup :=
  [ Soup.Tag "nav" []
      [ link "https://x/" "Home"; link "https://x/a" "About"; link "https://x/b" "Home" ] ].

(** A page with a heading, a list, a table, a form and a data attribute. *)
Definition shop_html : string :=
  "<h2>Prices</h2><h1>Shop</h1><ul><li>Tea</li><li> </li></ul><table><tr><th>Item</th></tr><tr><td>Tea</td></tr><tr><td></td></tr></table><input type='password' value='secret'><input type='text' value='tea' placeholder='Search'><p data-sku='tea-001'>Our tea is picked by hand.</p>".

Definition shop_doc : Soup.soup :=
  [ Soup.Tag "h2" [] [Soup.Text "Prices"];
    Soup.Tag "h1" [] [Soup.Text "Shop"];
    Soup.Tag "ul" [] [Soup.Tag "li" [] [Soup.Text "Tea"]; Soup.Tag "li" [] [Soup.Text " "]];
    Soup.Tag "table" []
      [ Soup.Tag "tr" [] [Soup.Tag "th" [] [Soup.Text "Item"]];
        Soup.Tag "tr" [] [Soup.Tag "td" [] [Soup.Text "Tea"]];
        Soup.Tag "tr" [] [Soup.Tag "td" [] []] ];
    Soup.Tag "input" [("type", "password"); ("value", "secret")] [];
    Soup.Tag "input" [("type", "text"); ("value", "tea"); ("placeholder", "Search")] [];
    Soup.Tag "p" [("data-sku", "tea-001")] [Soup.Text "Our tea is picked by hand."] ].

Definition shop_site : list (string * Response) :=
  [ ("https://x/", mkResponse 200 home_html);
    ("https://x/a", mkResponse 200 shop_html) ].

Definition shop_trees : list (string * Soup.soup) :=
  [ (home_html, [link "https://x/a#foo" "Foo"; link "https://x/a#bar" "Bar"]);
    (shop_html, shop_doc) ].

(** A site for the caller in analyze_training_data.py: the home page, which
    links to one more page, and the page of questions. *)
Definition eagles_home_html : string :=
  "<a href='https://www.teambuilding-paris.com/paris'>Paris</a>".

Definition eagles_site : list (string * Response) :=
  [ (AnalyzeTrainingData.EAGLES_WEBSITE, mkResponse 200 eagles_home_html);
    (AnalyzeTrainingData.EAGLES_WEBSITE +:+ "/faq", mkResponse 200 faq_html);
    ("https://www.teambuilding-paris.com/paris", mkResponse 200 page_a_html) ].

Definition eagles_trees : list (string * Soup.soup) :=
  [ (eagles_home_html, [link "https://www.teambuilding-paris.com/paris" "Paris"]);
    (faq_html, faq_doc);
    (page_a_html, [Soup.Tag "p" [] [Soup.Text "page a"]]) ].


End Sample.

(** ** Runs of a discovery loop *)

(** One iteration of a loop with body [body]. *)
Definition step {S : Type} (body : S -> option S) (s s' : S) : Prop :=
  body s = Some s'.

(** The states a loop passes through from [s]. *)
Definition reaches {S : Type} (body : S -> option S) (s s' : S) : Prop :=
  rtc (step body) s s'.

(** The iteration from [s] to [s'] admits the frontier entry it pops: the
    discovered set grows by [key], the form of the popped URL under which
    the crawler records it. *)
Definition admits {World : Type} (key_of : string -> string)
    (s s' : crawl World) (key : string) (depth : nat) : Prop :=
  exists url rest,
    to_visit s = (url, depth) :: rest /\
    key_of url = key /\
    discovered_urls s' <> discovered_urls s.

(** * Properties *)

Section WhileFacts.
Context {S : Type} (body : S -> option S).

Lemma while_returns fuel s s' :
  while body fuel s = Returns s' -> reaches body s s' /\ body s' = None.
Proof.
  revert s. induction fuel as [|fuel IH]; intros s; simpl.
  - destruct (body s) eqn:E; [discriminate|].
    intros [= <-]. split; [apply rtc_refl | done].
  - destruct (body s) as [s1|] eqn:E.
    + intros Hw. destruct (IH _ Hw) as [Hr Hn]. split; [|done].
      eapply rtc_l; [exact E | exact Hr].
    + intros [= <-]. split; [apply rtc_refl | done].
Qed.

Lemma while_not_raises fuel s : while body fuel s <> Raises.
Proof.
  revert s. induction fuel as [|fuel IH]; intros s; simpl;
    destruct (body s); try done.
Qed.

Lemma while_more_fuel fuel fuel' s s' :
  while body fuel s = Returns s' -> fuel <= fuel' -> while body fuel' s = Returns s'.
Proof.
  revert fuel' s. induction fuel as [|fuel IH]; intros fuel' s; simpl.
  - destruct (body s) eqn:E; [discriminate|].
    intros [= <-] _. destruct fuel'; simpl; by rewrite E.
  - destruct (body s) as [s1|] eqn:E.
    + intros Hw Hle. destruct fuel' as [|fuel']; [lia|].
      simpl. rewrite E. apply IH; [done | lia].
    + intros [= <-] _. destruct fuel'; simpl; by rewrite E.
Qed.

(** A property kept by every iteration holds in every state of a run. *)
Lemma reaches_invariant (P : S -> Prop) s s' :
  (forall a b, P a -> step body a b -> P b) ->
  reaches body s s' -> P s -> P s'.
Proof.
  intros Hstep Hr. induction Hr as [|a b c Hab _ IH]; [done|].
  intros Ha. apply IH. by eapply Hstep.
Qed.

(** A step from a state and a finished run from its successor make a
    finished run. *)
Lemma while_step fuel s s1 s' :
  body s = Some s1 -> while body fuel s1 = Returns s' ->
  while body (Datatypes.S fuel) s = Returns s'.
Proof. intros E Hw. simpl. by rewrite E. Qed.

End WhileFacts.

(** ** The walk over the anchors *)

Lemma follow_links_appends judge depth hrefs queue :
  exists pushed,
    follow_links judge depth hrefs queue = queue ++ pushed /\
    Forall (fun e : entry =>
              e.2 = S depth /\ exists href, href ∈ hrefs /\ judge href = Followed e.1)
           pushed.
Proof.
  revert queue. induction hrefs as [|href rest IH]; intros queue; simpl.
  - exists []. by rewrite app_nil_r.
  - destruct (judge href) as [| |full_url] eqn:E.
    + exists []. by rewrite app_nil_r.
    + destruct (IH queue) as (pushed & -> & Hall). exists pushed. split; [done|].
      eapply Forall_impl; [exact Hall|]. intros e (? & h & ? & ?).
      split; [done|]. exists h. split; [by right | done].
    + destruct (IH (queue ++ [(full_url, S depth)])) as (pushed & -> & Hall).
      exists ((full_url, S depth) :: pushed). split; [by rewrite <- app_assoc|].
      constructor.
      * split; [done|]. exists href. split; [by left | done].
      * eapply Forall_impl; [exact Hall|]. intros e (? & h & ? & ?).
        split; [done|]. exists h. split; [by right | done].
Qed.

(** ** The set of discovered URLs *)

Lemma set_add_elem x y (s : pyset) : y ∈ set_add x s <-> y = x \/ y ∈ s.
Proof.
  unfold set_add. case_bool_decide as Hin.
  - split; [by right | intros [->|]; done].
  - rewrite elem_of_app, list_elem_of_singleton. tauto.
Qed.

Lemma set_add_length x (s : pyset) : length (set_add x s) <= S (length s).
Proof.
  unfold set_add. case_bool_decide; [lia|]. rewrite length_app. simpl. lia.
Qed.

Lemma set_add_NoDup x (s : pyset) : NoDup s -> NoDup (set_add x s).
Proof.
  unfold set_add. case_bool_decide as Hin; [done|].
  intros Hnd. apply NoDup_app. split; [done|]. split.
  - intros y Hy ->%list_elem_of_singleton. done.
  - apply NoDup_singleton.
Qed.

Lemma set_add_new x (s : pyset) : x ∉ s -> set_add x s = s ++ [x].
Proof. intros Hx. unfold set_add. by rewrite bool_decide_eq_false_2. Qed.


(** ** The frontier walk of [discover_all_pages] *)

Section AllPagesFacts.
Context {World : Type} `{!Requests World} `{!UrlLib} `{!HtmlParser}.
Variables (base_domain : string) (max_pages max_depth : nat).

Local Abbreviation body :=
  (CompleteTextWebScraper.discover_all_pages_body base_domain max_pages max_depth).
Local Abbreviation init := CompleteTextWebScraper.discover_all_pages_init.

Local Abbreviation on_site := (CompleteTextWebScraper.on_site base_domain).

Lemma page_link_followed clean_url raw_href full_url :
  CompleteTextWebScraper.page_link base_domain clean_url raw_href = Followed full_url ->
  on_site full_url /\
  PyStr.strip raw_href <> EmptyString /\
  PyStr.startswith_any (PyStr.strip raw_href) CompleteTextWebScraper.skipped_prefixes = false /\
  urljoin clean_url (PyStr.strip raw_href) = Some full_url.
Proof.
  unfold CompleteTextWebScraper.page_link, CompleteTextWebScraper.on_site.
  destruct (PyStr.truthy (PyStr.strip raw_href)) eqn:Ht; cbn [negb orb]; [|discriminate].
  destruct (PyStr.startswith_any (PyStr.strip raw_href) _) eqn:Hp; [discriminate|].
  destruct (urljoin clean_url _) as [u|] eqn:Hj; [|discriminate].
  destruct (urlparse_netloc u) as [host|] eqn:Hn; [|discriminate].
  destruct (String.eqb host base_domain || String.eqb host EmptyString) eqn:Hh;
    [|discriminate].
  destruct (CompleteTextWebScraper.not_excluded u) eqn:Hx; [|discriminate].
  intros [= <-]. repeat split; try done.
  - apply orb_true_iff in Hh as [Hh|Hh]; apply String.eqb_eq in Hh; subst; auto.
  - intros Hs. unfold PyStr.truthy in Ht. rewrite Hs in Ht. done.
Qed.

(** The two things an iteration does with the entry it pops. *)
Lemma all_pages_body_cases s s' :
  body s = Some s' ->
  exists url depth rest,
    to_visit s = (url, depth) :: rest /\
    length (discovered_urls s) < max_pages /\
    ((s' = mkCrawl rest (visited s) (discovered_urls s) (world s)) \/
     ((url ∉ visited s) /\ depth <= max_depth /\
      (PyStr.before_hash url ∉ visited s) /\
      visited s' = {[ PyStr.before_hash url ]} ∪ visited s /\
      discovered_urls s' = set_add (PyStr.before_hash url) (discovered_urls s) /\
      exists pushed,
        to_visit s' = rest ++ pushed /\
        Forall (fun e : entry =>
                  e.2 = S depth /\ depth < max_depth /\
                  exists href,
                    CompleteTextWebScraper.page_link base_domain
                      (PyStr.before_hash url) href = Followed e.1)
               pushed)).
Proof.
  unfold CompleteTextWebScraper.discover_all_pages_body.
  destruct (to_visit s) as [|[url depth] rest] eqn:Hq; [discriminate|].
  destruct (length (discovered_urls s) <? max_pages) eqn:Hlen; simpl; [|discriminate].
  apply Nat.ltb_lt in Hlen.
  intros Hb. exists url, depth, rest. split; [done|]. split; [done|].
  destruct (bool_decide (url ∈ visited s)) eqn:Hv; simpl in Hb.
  { left. by injection Hb as <-. }
  destruct (max_depth <? depth) eqn:Hd; simpl in Hb.
  { left. by injection Hb as <-. }
  destruct (bool_decide (PyStr.before_hash url ∈ visited s)) eqn:Hc.
  { left. by injection Hb as <-. }
  right.
  apply bool_decide_eq_false in Hv. apply bool_decide_eq_false in Hc.
  apply Nat.ltb_ge in Hd.
  destruct ((depth <? max_depth) &&
            (length (set_add (PyStr.before_hash url) (discovered_urls s)) <? max_pages))
    eqn:Hfollow.
  - apply andb_true_iff in Hfollow as [Hlt _]. apply Nat.ltb_lt in Hlt.
    unfold CompleteTextWebScraper.fetch_links in Hb.
    destruct (session_get (world s) (PyStr.before_hash url)) as [w' [response|]].
    + destruct (raise_for_status response).
      * injection Hb as <-. simpl. repeat split; try done.
        exists []. by rewrite app_nil_r.
      * injection Hb as <-. simpl. repeat split; try done.
        destruct (follow_links_appends
                    (CompleteTextWebScraper.page_link base_domain (PyStr.before_hash url))
                    depth (map Soup.href (Soup.anchors (BeautifulSoup (content response))))
                    rest) as (pushed & -> & Hall).
        exists pushed. split; [done|].
        eapply Forall_impl; [exact Hall|]. intros e (? & h & _ & ?). eauto.
    + injection Hb as <-. simpl. repeat split; try done.
      exists []. by rewrite app_nil_r.
  - injection Hb as <-. simpl. repeat split; try done.
    exists []. by rewrite app_nil_r.
Qed.

Lemma all_pages_size start w s :
  reaches body (init start w) s -> length (discovered_urls s) <= max_pages.
Proof.
  intros Hr.
  eapply (reaches_invariant body (fun x => length (discovered_urls x) <= max_pages));
    [|exact Hr|simpl; lia].
  intros a b Ha Hab.
  destruct (all_pages_body_cases _ _ Hab)
    as (url & depth & rest & _ & Hlen & [->|(_ & _ & _ & _ & -> & _)]); simpl.
  - lia.
  - pose proof (set_add_length (PyStr.before_hash url) (discovered_urls a)). lia.
Qed.

Lemma all_pages_frontier_depth start w s :
  reaches body (init start w) s -> Forall (fun e : entry => e.2 <= max_depth) (to_visit s).
Proof.
  intros Hr.
  eapply (reaches_invariant body
            (fun x => Forall (fun e : entry => e.2 <= max_depth) (to_visit x)));
    [|exact Hr|].
  - intros a b Ha Hab.
    destruct (all_pages_body_cases _ _ Hab)
      as (url & depth & rest & Hq & _ & [->|(_ & _ & _ & _ & _ & pushed & -> & Hp)]);
      rewrite Hq in Ha; apply Forall_cons in Ha as [_ Ha]; simpl; [done|].
    apply Forall_app. split; [done|].
    eapply Forall_impl; [exact Hp|]. intros e (-> & ? & _). lia.
  - simpl. repeat constructor. simpl. lia.
Qed.

Lemma all_pages_discovered_visited start w s :
  reaches body (init start w) s ->
  forall u, u ∈ discovered_urls s <-> u ∈ visited s.
Proof.
  intros Hr.
  eapply (reaches_invariant body
            (fun x => forall u, u ∈ discovered_urls x <-> u ∈ visited x));
    [|exact Hr|].
  - intros a b Ha Hab u.
    destruct (all_pages_body_cases _ _ Hab)
      as (url & depth & rest & _ & _ & [->|(_ & _ & _ & -> & -> & _)]); simpl; [done|].
    rewrite set_add_elem, elem_of_union, elem_of_singleton, Ha. done.
  - intros u. simpl. rewrite elem_of_nil. set_solver.
Qed.

Lemma all_pages_NoDup start w s :
  reaches body (init start w) s -> NoDup (discovered_urls s).
Proof.
  intros Hr.
  eapply (reaches_invariant body (fun x => NoDup (discovered_urls x)));
    [|exact Hr|apply NoDup_nil_2].
  intros a b Ha Hab.
  destruct (all_pages_body_cases _ _ Hab)
    as (url & depth & rest & _ & _ & [->|(_ & _ & _ & _ & -> & _)]); simpl; [done|].
  by apply set_add_NoDup.
Qed.

(** Where the entries of the frontier and the discovered URLs come from. *)
Lemma all_pages_provenance start w s :
  reaches body (init start w) s ->
  Forall (fun e : entry => e.1 = start \/ on_site e.1) (to_visit s) /\
  Forall (fun u => u = PyStr.before_hash start \/
                   exists full_url, u = PyStr.before_hash full_url /\ on_site full_url)
         (discovered_urls s).
Proof.
  intros Hr.
  eapply (reaches_invariant body
            (fun x =>
               Forall (fun e : entry => e.1 = start \/ on_site e.1) (to_visit x) /\
               Forall (fun u => u = PyStr.before_hash start \/
                                exists full_url,
                                  u = PyStr.before_hash full_url /\ on_site full_url)
                      (discovered_urls x)));
    [|exact Hr|].
  - intros a b [Hq Hd] Hab.
    destruct (all_pages_body_cases _ _ Hab)
      as (url & depth & rest & Ea & _ & [->|(_ & _ & _ & _ & -> & pushed & -> & Hp)]);
      rewrite Ea in Hq; apply Forall_cons in Hq as [Hurl Hq]; simpl; [done|].
    split.
    + apply Forall_app. split; [done|].
      eapply Forall_impl; [exact Hp|]. intros e (_ & _ & href & Hl).
      right. by apply page_link_followed in Hl as [? _].
    + apply Forall_forall. intros u [->|Hu]%set_add_elem.
      * simpl in Hurl. destruct Hurl as [->|Hs]; [by left|]. right. eauto.
      * rewrite Forall_forall in Hd. auto.
  - simpl. split; [|constructor]. constructor; [by left|constructor].
Qed.

Lemma all_pages_visited_grows s s' :
  reaches body s s' -> visited s ⊆ visited s'.
Proof.
  intros Hr. induction Hr as [|a b c Hab _ IH]; [done|].
  etrans; [|exact IH].
  destruct (all_pages_body_cases _ _ Hab)
    as (url & depth & rest & _ & _ & [->|(_ & _ & _ & -> & _)]); simpl; set_solver.
Qed.

(** An iteration admits only a URL that is not yet visited, and marks it. *)
Lemma all_pages_admits_fresh s s' key depth :
  step body s s' -> admits PyStr.before_hash s s' key depth ->
  (key ∉ visited s) /\ (key ∈ visited s') /\ depth <= max_depth.
Proof.
  intros Hab (url & rest & Hq & <- & Hne).
  destruct (all_pages_body_cases _ _ Hab)
    as (url' & depth' & rest' & Hq' & _ & [->|(_ & ? & ? & -> & _)]).
  - done.
  - rewrite Hq in Hq'. injection Hq' as <- <- <-. split; [done|]. split; [set_solver|done].
Qed.

End AllPagesFacts.

(** ** The frontier walk of [discover_urls] *)

Section UrlsFacts.
Context {World : Type} `{!Requests World} `{!UrlLib} `{!HtmlParser}.
Variables (base_url : string) (max_depth : nat).

Local Abbreviation body := (WebScraperForLLM.discover_urls_body base_url max_depth).
Local Abbreviation init := WebScraperForLLM.discover_urls_init.

Local Abbreviation same_host := (WebScraperForLLM.same_host base_url).

Lemma internal_link_followed url href full_url :
  WebScraperForLLM.internal_link base_url url href = Followed full_url ->
  same_host full_url /\ urljoin url href = Some full_url.
Proof.
  unfold WebScraperForLLM.internal_link, WebScraperForLLM.same_host.
  destruct (urljoin url href) as [u|] eqn:Hj; [|discriminate].
  destruct (urlparse_netloc u) as [host|] eqn:Hn; [|discriminate].
  destruct (urlparse_netloc base_url) as [base_host|] eqn:Hb; [|discriminate].
  destruct (String.eqb host base_host) eqn:Hh; [|discriminate].
  apply String.eqb_eq in Hh as ->. intros [= <-]. eauto.
Qed.

Lemma urls_body_cases s s' :
  body s = Some s' ->
  exists url depth rest,
    to_visit s = (url, depth) :: rest /\
    ((s' = mkCrawl rest (visited s) (discovered_urls s) (world s)) \/
     ((url ∉ visited s) /\ depth <= max_depth /\
      visited s' = {[ url ]} ∪ visited s /\
      discovered_urls s' = set_add url (discovered_urls s) /\
      exists pushed,
        to_visit s' = rest ++ pushed /\
        Forall (fun e : entry =>
                  e.2 = S depth /\ depth < max_depth /\
                  exists href,
                    WebScraperForLLM.internal_link base_url url href = Followed e.1)
               pushed)).
Proof.
  unfold WebScraperForLLM.discover_urls_body.
  destruct (to_visit s) as [|[url depth] rest] eqn:Hq; [discriminate|].
  intros Hb. exists url, depth, rest. split; [done|].
  destruct (bool_decide (url ∈ visited s)) eqn:Hv; simpl in Hb.
  { left. by injection Hb as <-. }
  destruct (max_depth <? depth) eqn:Hd; simpl in Hb.
  { left. by injection Hb as <-. }
  right. apply bool_decide_eq_false in Hv. apply Nat.ltb_ge in Hd.
  destruct (depth <? max_depth) eqn:Hlt.
  - apply Nat.ltb_lt in Hlt. unfold WebScraperForLLM.fetch_links in Hb.
    destruct (session_get (world s) url) as [w' [response|]].
    + injection Hb as <-. simpl. repeat split; try done.
      destruct (follow_links_appends (WebScraperForLLM.internal_link base_url url)
                  depth (map Soup.href (Soup.anchors (BeautifulSoup (content response))))
                  rest) as (pushed & -> & Hall).
      exists pushed. split; [done|].
      eapply Forall_impl; [exact Hall|]. intros e (? & h & _ & ?). eauto.
    + injection Hb as <-. simpl. repeat split; try done.
      exists []. by rewrite app_nil_r.
  - injection Hb as <-. simpl. repeat split; try done.
    exists []. by rewrite app_nil_r.
Qed.

Lemma urls_frontier_depth start w s :
  reaches body (init start w) s -> Forall (fun e : entry => e.2 <= max_depth) (to_visit s).
Proof.
  intros Hr.
  eapply (reaches_invariant body
            (fun x => Forall (fun e : entry => e.2 <= max_depth) (to_visit x)));
    [|exact Hr|].
  - intros a b Ha Hab.
    destruct (urls_body_cases _ _ Hab)
      as (url & depth & rest & Hq & [->|(_ & _ & _ & _ & pushed & -> & Hp)]);
      rewrite Hq in Ha; apply Forall_cons in Ha as [_ Ha]; simpl; [done|].
    apply Forall_app. split; [done|].
    eapply Forall_impl; [exact Hp|]. intros e (-> & ? & _). lia.
  - simpl. repeat constructor. simpl. lia.
Qed.

Lemma urls_discovered_visited start w s :
  reaches body (init start w) s ->
  forall u, u ∈ discovered_urls s <-> u ∈ visited s.
Proof.
  intros Hr.
  eapply (reaches_invariant body
            (fun x => forall u, u ∈ discovered_urls x <-> u ∈ visited x));
    [|exact Hr|].
  - intros a b Ha Hab u.
    destruct (urls_body_cases _ _ Hab)
      as (url & depth & rest & _ & [->|(_ & _ & -> & -> & _)]); simpl; [done|].
    rewrite set_add_elem, elem_of_union, elem_of_singleton, Ha. done.
  - intros u. simpl. rewrite elem_of_nil. set_solver.
Qed.

Lemma urls_NoDup start w s :
  reaches body (init start w) s -> NoDup (discovered_urls s).
Proof.
  intros Hr.
  eapply (reaches_invariant body (fun x => NoDup (discovered_urls x)));
    [|exact Hr|apply NoDup_nil_2].
  intros a b Ha Hab.
  destruct (urls_body_cases _ _ Hab)
    as (url & depth & rest & _ & [->|(_ & _ & _ & -> & _)]); simpl; [done|].
  by apply set_add_NoDup.
Qed.

Lemma urls_provenance start w s :
  reaches body (init start w) s ->
  Forall (fun e : entry => e.1 = start \/ same_host e.1) (to_visit s) /\
  Forall (fun u => u = start \/ same_host u) (discovered_urls s).
Proof.
  intros Hr.
  eapply (reaches_invariant body
            (fun x =>
               Forall (fun e : entry => e.1 = start \/ same_host e.1) (to_visit x) /\
               Forall (fun u => u = start \/ same_host u) (discovered_urls x)));
    [|exact Hr|].
  - intros a b [Hq Hd] Hab.
    destruct (urls_body_cases _ _ Hab)
      as (url & depth & rest & Ea & [->|(_ & _ & _ & -> & pushed & -> & Hp)]);
      rewrite Ea in Hq; apply Forall_cons in Hq as [Hurl Hq]; simpl; [done|].
    split.
    + apply Forall_app. split; [done|].
      eapply Forall_impl; [exact Hp|]. intros e (_ & _ & href & Hl).
      right. by apply internal_link_followed in Hl as [? _].
    + apply Forall_forall. intros u [->|Hu]%set_add_elem.
      * exact Hurl.
      * rewrite Forall_forall in Hd. auto.
  - simpl. split; [|constructor]. constructor; [by left|constructor].
Qed.

Lemma urls_visited_grows s s' :
  reaches body s s' -> visited s ⊆ visited s'.
Proof.
  intros Hr. induction Hr as [|a b c Hab _ IH]; [done|].
  etrans; [|exact IH].
  destruct (urls_body_cases _ _ Hab)
    as (url & depth & rest & _ & [->|(_ & _ & -> & _)]); simpl; set_solver.
Qed.

Lemma urls_admits_fresh s s' key depth :
  step body s s' -> admits (fun url => url) s s' key depth ->
  (key ∉ visited s) /\ (key ∈ visited s') /\ depth <= max_depth.
Proof.
  intros Hab (url & rest & Hq & <- & Hne).
  destruct (urls_body_cases _ _ Hab)
    as (url' & depth' & rest' & Hq' & [->|(? & ? & -> & _)]).
  - done.
  - rewrite Hq in Hq'. injection Hq' as <- <- <-. split; [done|]. split; [set_solver|done].
Qed.

End UrlsFacts.

(** ** Termination of the frontier walks

    Every iteration pops one entry and appends entries one level deeper,
    and only below the depth limit; so the entries of the least depth in the
    frontier are used up one after the other, whatever the pages hold. *)

Section Termination.
Context {World : Type} (body : crawl World -> option (crawl World)) (max_depth : nat).

Hypothesis body_pops : forall s s',
  body s = Some s' ->
  exists url depth rest pushed,
    to_visit s = (url, depth) :: rest /\
    to_visit s' = rest ++ pushed /\
    Forall (fun e : entry => e.2 = S depth /\ depth < max_depth) pushed.

Local Abbreviation halts := (halts_from body).

Lemma halts_stop s : body s = None -> halts s.
Proof. intros E. exists 0, s. simpl. by rewrite E. Qed.

Lemma halts_step s s1 : body s = Some s1 -> halts s1 -> halts s.
Proof. intros E (fuel & s' & Hw). exists (S fuel), s'. by eapply while_step. Qed.

Lemma at_depth_app d q1 q2 : at_depth d (q1 ++ q2) = at_depth d q1 + at_depth d q2.
Proof. unfold at_depth. by rewrite List.filter_app, length_app. Qed.

Lemma at_depth_none d q : Forall (fun e : entry => e.2 <> d) q -> at_depth d q = 0.
Proof.
  unfold at_depth. induction 1 as [|e q He _ IH]; [done|]. simpl.
  destruct (e.2 =? d) eqn:E; [by apply Nat.eqb_eq in E|done].
Qed.

Lemma lead_app d q1 q2 : 0 < at_depth d q1 -> lead d (q1 ++ q2) = lead d q1.
Proof.
  unfold at_depth. induction q1 as [|e q1 IH]; simpl; [lia|].
  destruct (e.2 =? d); [done|]. intros H. by rewrite IH.
Qed.

(** No entry can be followed: the frontier only shrinks. *)
Lemma halts_at_limit s :
  Forall (fun e : entry => max_depth <= e.2) (to_visit s) -> halts s.
Proof.
  remember (length (to_visit s)) as n eqn:Hn. revert s Hn.
  induction n as [|n IH]; intros s Hn Hall.
  - apply halts_stop. destruct (body s) as [s'|] eqn:E; [|done].
    destruct (body_pops _ _ E) as (? & ? & ? & ? & Hq & _).
    rewrite Hq in Hn. done.
  - destruct (body s) as [s'|] eqn:E; [|by apply halts_stop].
    eapply halts_step; [exact E|].
    destruct (body_pops _ _ E) as (url & depth & rest & pushed & Hq & Hq' & Hp).
    rewrite Hq in Hn, Hall. apply Forall_cons in Hall as [Hd Hall]. simpl in Hd.
    destruct pushed as [|e pushed].
    + rewrite app_nil_r in Hq'. apply IH; rewrite Hq'; [simpl in Hn; lia | done].
    + apply Forall_cons in Hp as [[_ Hlt] _]. lia.
Qed.

(** The walk halts from frontiers at depth [d + 1] and more: then also from
    those at depth [d] and more. *)
Lemma halts_one_level d :
  (forall s, Forall (fun e : entry => S d <= e.2) (to_visit s) -> halts s) ->
  forall s, Forall (fun e : entry => d <= e.2) (to_visit s) -> halts s.
Proof.
  intros Hdeep s Hall.
  remember (at_depth d (to_visit s)) as n eqn:Hn. revert s Hn Hall.
  induction n as [|n IHn]; intros s Hn Hall.
  { apply Hdeep. rewrite Forall_forall in Hall |- *. intros e He.
    specialize (Hall e He).
    destruct (decide (e.2 = d)) as [Heq|]; [|lia].
    exfalso. unfold at_depth in Hn.
    assert (e ∈ List.filter (fun e : entry => e.2 =? d) (to_visit s)) as Hin.
    { apply list_elem_of_In, filter_In. split; [by apply list_elem_of_In|].
      by apply Nat.eqb_eq. }
    destruct (List.filter _ (to_visit s)); [by apply elem_of_nil in Hin | done]. }
  remember (lead d (to_visit s)) as p eqn:Hp. revert s Hn Hp Hall.
  induction p as [|p IHp]; intros s Hn Hp Hall.
  - destruct (body s) as [s'|] eqn:E; [|by apply halts_stop].
    eapply halts_step; [exact E|].
    destruct (body_pops _ _ E) as (url & depth & rest & pushed & Hq & Hq' & Hpu).
    rewrite Hq in Hn, Hp, Hall. simpl in Hp. unfold at_depth in Hn. simpl in Hn.
    destruct (depth =? d) eqn:Ed; [|done]. apply Nat.eqb_eq in Ed as ->.
    apply Forall_cons in Hall as [_ Hall].
    apply IHn.
    + rewrite Hq', at_depth_app, (at_depth_none d pushed).
      * simpl in Hn. unfold at_depth. lia.
      * eapply Forall_impl; [exact Hpu|]. intros e [-> _]. lia.
    + rewrite Hq'. apply Forall_app. split; [done|].
      eapply Forall_impl; [exact Hpu|]. intros e [-> _]. lia.
  - destruct (body s) as [s'|] eqn:E; [|by apply halts_stop].
    eapply halts_step; [exact E|].
    destruct (body_pops _ _ E) as (url & depth & rest & pushed & Hq & Hq' & Hpu).
    rewrite Hq in Hn, Hp, Hall. simpl in Hp. unfold at_depth in Hn. simpl in Hn.
    destruct (depth =? d) eqn:Ed; [done|]. apply Nat.eqb_neq in Ed.
    apply Forall_cons in Hall as [Hd Hall]. simpl in Hd.
    assert (at_depth d pushed = 0) as Hnone.
    { apply at_depth_none. eapply Forall_impl; [exact Hpu|]. intros e [-> _]. lia. }
    apply IHp.
    + rewrite Hq', at_depth_app, Hnone. unfold at_depth. lia.
    + rewrite Hq', lead_app; [lia|]. unfold at_depth. lia.
    + rewrite Hq'. apply Forall_app. split; [done|].
      eapply Forall_impl; [exact Hpu|]. intros e [-> _]. lia.
Qed.

Lemma halts_from_depth k s :
  Forall (fun e : entry => max_depth - k <= e.2) (to_visit s) -> halts s.
Proof.
  revert s. induction k as [|k IH]; intros s Hall.
  - apply halts_at_limit. eapply Forall_impl; [exact Hall|]. intros e ?; simpl in *; lia.
  - destruct (decide (max_depth <= k)) as [Hle|Hgt].
    + apply IH. eapply Forall_impl; [exact Hall|]. intros e ?; simpl in *; lia.
    + apply (halts_one_level (max_depth - S k)); [|done].
      intros s' Hs'. apply IH. eapply Forall_impl; [exact Hs'|]. intros e ?; simpl in *; lia.
Qed.

(** The walk halts from every state. *)
Lemma walk_halts s : halts s.
Proof.
  apply (halts_from_depth max_depth).
  apply Forall_forall. intros e _; simpl; lia.
Qed.

End Termination.

(** ** Facts on the string operations *)

Lemma append_cons c s t : String c s +:+ t = String c (s +:+ t).
Proof. reflexivity. Qed.

Lemma append_empty t : EmptyString +:+ t = t.
Proof. reflexivity. Qed.

Lemma before_hash_prefix s : exists t, s = PyStr.before_hash s +:+ t.
Proof.
  induction s as [|c s [t IH]]; simpl.
  - by exists EmptyString.
  - destruct (Ascii.eqb c "#"); [by eexists|].
    exists t. rewrite append_cons. by rewrite <- IH.
Qed.

Lemma before_hash_without_hash s :
  PyStr.contains "#" s = false -> PyStr.before_hash s = s.
Proof.
  induction s as [|c s IH]; [done|]. cbn [PyStr.contains PyStr.before_hash].
  intros [Hp Hc]%orb_false_iff. cbn [String.prefix] in Hp.
  destruct (Ascii.eqb c "#") eqn:E.
  - apply Ascii.eqb_eq in E as ->. destruct (ascii_dec "#" "#"); [|done].
    by destruct s.
  - by rewrite IH.
Qed.

Lemma before_hash_idem s : PyStr.before_hash (PyStr.before_hash s) = PyStr.before_hash s.
Proof.
  induction s as [|c s IH]; simpl; [done|].
  destruct (Ascii.eqb c "#") eqn:E; simpl; [done|]. by rewrite E, IH.
Qed.

Lemma lower_app s t : PyStr.lower (s +:+ t) = PyStr.lower s +:+ PyStr.lower t.
Proof.
  induction s as [|c s IH]; [done|].
  rewrite append_cons. simpl. by rewrite IH, append_cons.
Qed.

Lemma prefix_app p s t : String.prefix p s = true -> String.prefix p (s +:+ t) = true.
Proof.
  revert p. induction s as [|b s IH]; intros [|a p]; simpl; try done.
  - by destruct t.
  - destruct (ascii_dec a b); [apply IH|done].
Qed.

Lemma contains_app sub s t :
  PyStr.contains sub s = true -> PyStr.contains sub (s +:+ t) = true.
Proof.
  induction s as [|c s IH].
  - simpl. rewrite orb_false_r. intros Hp. destruct sub; [|done].
    rewrite append_empty. destruct t; done.
  - rewrite append_cons. simpl.
    intros [Hp|Hc]%orb_true_iff; apply orb_true_iff.
    + left. by apply (prefix_app sub (String c s) t).
    + right. by apply IH.
Qed.

(** A segment found in the fragment-stripped URL is found in the URL. *)
Lemma contains_before_hash sub url :
  PyStr.contains sub (PyStr.lower (PyStr.before_hash url)) = true ->
  PyStr.contains sub (PyStr.lower url) = true.
Proof.
  intros Hc. destruct (before_hash_prefix url) as [t Ht].
  rewrite Ht at 1. rewrite lower_app. by apply contains_app.
Qed.

Lemma not_excluded_spec full_url :
  CompleteTextWebScraper.not_excluded full_url = true <->
  (forall ext, ext ∈ CompleteTextWebScraper.excluded_extensions ->
               PyStr.endswith (PyStr.lower full_url) ext = false) /\
  (forall path, path ∈ CompleteTextWebScraper.excluded_paths ->
                PyStr.contains path (PyStr.lower full_url) = false).
Proof.
  unfold CompleteTextWebScraper.not_excluded.
  rewrite andb_true_iff, !negb_true_iff.
  rewrite <- !not_true_iff_false, !existsb_exists.
  split.
  - intros [He Hp]. split.
    + intros ext Hin. apply not_true_iff_false. intros Ht. apply He.
      exists ext. split; [by apply list_elem_of_In | done].
    + intros path Hin. apply not_true_iff_false. intros Ht. apply Hp.
      exists path. split; [by apply list_elem_of_In | done].
  - intros [He Hp]. split.
    + intros (ext & Hin & Ht). rewrite He in Ht; [done | by apply list_elem_of_In].
    + intros (path & Hin & Ht). rewrite Hp in Ht; [done | by apply list_elem_of_In].
Qed.

(** ** The discovery functions as a whole *)

Section DiscoveryResults.
Context {World : Type} `{!Requests World} `{!UrlLib} `{!HtmlParser} `{!SetOrder}.

Lemma discover_urls_result base_url start max_depth fuel w l :
  WebScraperForLLM.discover_urls base_url start max_depth fuel w = Returns l ->
  exists s,
    reaches (WebScraperForLLM.discover_urls_body base_url max_depth)
      (WebScraperForLLM.discover_urls_init start w) s /\
    WebScraperForLLM.discover_urls_body base_url max_depth s = None /\
    l = list_of_set (discovered_urls s).
Proof.
  unfold WebScraperForLLM.discover_urls.
  destruct (while _ fuel _) as [s| |] eqn:Hw; [|done..].
  intros [= <-]. apply while_returns in Hw as [Hr Hn]. eauto.
Qed.

Lemma discover_all_pages_result base_url start max_pages max_depth fuel w l :
  CompleteTextWebScraper.discover_all_pages base_url start max_pages max_depth fuel w
    = Returns l ->
  exists base_domain s,
    urlparse_netloc base_url = Some base_domain /\
    reaches (CompleteTextWebScraper.discover_all_pages_body base_domain max_pages max_depth)
      (CompleteTextWebScraper.discover_all_pages_init start w) s /\
    CompleteTextWebScraper.discover_all_pages_body base_domain max_pages max_depth s = None /\
    l = list_of_set (discovered_urls s).
Proof.
  unfold CompleteTextWebScraper.discover_all_pages.
  destruct (urlparse_netloc base_url) as [base_domain|]; [|done].
  destruct (while _ fuel _) as [s| |] eqn:Hw; [|done..].
  intros [= <-]. apply while_returns in Hw as [Hr Hn]. eauto 10.
Qed.

(** [discover_urls] returns, whatever the pages hold. *)
Lemma discover_urls_halts base_url start max_depth w :
  exists fuel l,
    WebScraperForLLM.discover_urls base_url start max_depth fuel w = Returns l.
Proof.
  destruct (walk_halts (WebScraperForLLM.discover_urls_body base_url max_depth) max_depth)
    with (s := WebScraperForLLM.discover_urls_init start w) as (fuel & s' & Hw).
  - intros s s' Hb.
    destruct (urls_body_cases _ _ _ _ Hb)
      as (url & depth & rest & Hq & [->|(_ & _ & _ & _ & pushed & Hq' & Hp)]).
    + exists url, depth, rest, []. simpl. rewrite app_nil_r. done.
    + exists url, depth, rest, pushed. split; [done|]. split; [done|].
      eapply Forall_impl; [exact Hp|]. intros e (? & ? & _). done.
  - exists fuel, (list_of_set (discovered_urls s')).
    unfold WebScraperForLLM.discover_urls. by rewrite Hw.
Qed.


End DiscoveryResults.

(** ** The orders of the sample sets *)

Lemma insertion_order_law : @SetOrderLaw Sample.insertion_order.
Proof. intros s. done. Qed.

Lemma static_site_law pages : @RequestsLaw unit (Sample.static_site pages).
Proof. intros r. reflexivity. Qed.

Lemma reverse_order_law : @SetOrderLaw Sample.reverse_order.
Proof. intros s. simpl. symmetry. apply Permutation_rev. Qed.

(** ** The claims on the crawl scheduler *)

Section CrawlClaims.
Context {World : Type} `{!Requests World} `{!UrlLib} `{!HtmlParser} `{!SetOrder}.

(** C1, as amended.  Every URL that [discover_urls] returns is the start
    URL or has the host of the base URL; every URL that
    [discover_all_pages] returns is the fragment-stripped start URL or the
    fragment-stripped form of a resolved link whose host is the base domain
    or is empty.  The start URL itself is never compared with the base
    URL. *)
Theorem discovered_hosts (law : SetOrderLaw) base_url start max_pages max_depth :
  (forall fuel w l u,
     WebScraperForLLM.discover_urls base_url start max_depth fuel w = Returns l ->
     u ∈ l ->
     u = start \/ WebScraperForLLM.same_host base_url u) /\
  (forall fuel w l u,
     CompleteTextWebScraper.discover_all_pages base_url start max_pages max_depth fuel w
       = Returns l ->
     u ∈ l ->
     u = PyStr.before_hash start \/
     exists full_url host,
       u = PyStr.before_hash full_url /\
       urlparse_netloc full_url = Some host /\
       (urlparse_netloc base_url = Some host \/ host = EmptyString)).
Proof.
  split.
  - intros fuel w l u Hrun Hu.
    apply discover_urls_result in Hrun as (s & Hr & _ & ->).
    rewrite (law (discovered_urls s)) in Hu.
    apply urls_provenance in Hr as [_ Hd].
    rewrite Forall_forall in Hd. auto.
  - intros fuel w l u Hrun Hu.
    apply discover_all_pages_result in Hrun as (base_domain & s & Hb & Hr & _ & ->).
    rewrite (law (discovered_urls s)) in Hu.
    apply all_pages_provenance in Hr as [_ Hd].
    rewrite Forall_forall in Hd.
    destruct (Hd u Hu) as [->|(full_url & -> & [[Hh|Hh] _])]; [by left|right..].
    + exists full_url, base_domain. rewrite Hb. auto.
    + exists full_url, EmptyString. auto.
Qed.

(** C2.  The list that [discover_all_pages] returns has at most
    [max_pages] elements; in every state of the crawl the discovered set has
    at most [max_pages] elements and every entry of the frontier has a depth
    of at most [max_depth], so every entry that an iteration admits has. *)
Theorem discover_all_pages_limits (law : SetOrderLaw)
    base_url start max_pages max_depth fuel w l :
  CompleteTextWebScraper.discover_all_pages base_url start max_pages max_depth fuel w
    = Returns l ->
  length l <= max_pages /\
  forall base_domain s,
    urlparse_netloc base_url = Some base_domain ->
    reaches (CompleteTextWebScraper.discover_all_pages_body base_domain max_pages max_depth)
      (CompleteTextWebScraper.discover_all_pages_init start w) s ->
    length (discovered_urls s) <= max_pages /\
    Forall (fun e : entry => e.2 <= max_depth) (to_visit s) /\
    forall s' key depth,
      step (CompleteTextWebScraper.discover_all_pages_body base_domain max_pages max_depth)
        s s' ->
      admits PyStr.before_hash s s' key depth ->
      depth <= max_depth.
Proof.
  intros Hrun. split.
  - apply discover_all_pages_result in Hrun as (base_domain & s & _ & Hr & _ & ->).
    rewrite (law (discovered_urls s)). by eapply all_pages_size.
  - intros base_domain s _ Hr. split; [by eapply all_pages_size|].
    split; [by eapply all_pages_frontier_depth|].
    intros s' key depth Hstep Hadm.
    by destruct (all_pages_admits_fresh _ _ _ _ _ _ _ Hstep Hadm) as (_ & _ & ?).
Qed.

(** The discovered set grows at its end: its elements stand in the order
    in which they were added. *)
Lemma all_pages_discovery_order base_domain max_pages max_depth start w a b :
  reaches (CompleteTextWebScraper.discover_all_pages_body base_domain max_pages max_depth)
    (CompleteTextWebScraper.discover_all_pages_init start w) a ->
  step (CompleteTextWebScraper.discover_all_pages_body base_domain max_pages max_depth) a b ->
  discovered_urls b = discovered_urls a \/
  exists key, (key ∉ discovered_urls a) /\ discovered_urls b = discovered_urls a ++ [key].
Proof.
  intros Hr Hab.
  destruct (all_pages_body_cases _ _ _ _ _ Hab)
    as (url & depth & rest & _ & _ & [->|(_ & _ & Hnew & _ & -> & _)]); [by left|].
  right. exists (PyStr.before_hash url).
  assert (PyStr.before_hash url ∉ discovered_urls a) as Hnot.
  { by rewrite (all_pages_discovered_visited _ _ _ _ _ _ Hr). }
  split; [done|]. by apply set_add_new.
Qed.

Lemma urls_discovery_order base_url max_depth start w a b :
  reaches (WebScraperForLLM.discover_urls_body base_url max_depth)
    (WebScraperForLLM.discover_urls_init start w) a ->
  step (WebScraperForLLM.discover_urls_body base_url max_depth) a b ->
  discovered_urls b = discovered_urls a \/
  exists key, (key ∉ discovered_urls a) /\ discovered_urls b = discovered_urls a ++ [key].
Proof.
  intros Hr Hab.
  destruct (urls_body_cases _ _ _ _ Hab)
    as (url & depth & rest & _ & [->|(Hnew & _ & _ & -> & _)]); [by left|].
  right. exists url.
  assert (url ∉ discovered_urls a) as Hnot.
  { by rewrite (urls_discovered_visited _ _ _ _ _ Hr). }
  split; [done|]. by apply set_add_new.
Qed.

(** C3, as amended.  The list returned by either crawler holds the URLs of
    the discovered set, each once: it is a rearrangement of the sequence in
    which the URLs were added, in the order in which the set lists its
    elements. *)
Theorem discovered_list_rearranged (law : SetOrderLaw)
    base_url start max_pages max_depth :
  (forall fuel w l,
     WebScraperForLLM.discover_urls base_url start max_depth fuel w = Returns l ->
     exists s,
       while (WebScraperForLLM.discover_urls_body base_url max_depth) fuel
         (WebScraperForLLM.discover_urls_init start w) = Returns s /\
       l ≡ₚ discovered_urls s /\ NoDup l) /\
  (forall fuel w l,
     CompleteTextWebScraper.discover_all_pages base_url start max_pages max_depth fuel w
       = Returns l ->
     exists base_domain s,
       urlparse_netloc base_url = Some base_domain /\
       while (CompleteTextWebScraper.discover_all_pages_body base_domain max_pages max_depth)
         fuel (CompleteTextWebScraper.discover_all_pages_init start w) = Returns s /\
       l ≡ₚ discovered_urls s /\ NoDup l).
Proof.
  split.
  - intros fuel w l. unfold WebScraperForLLM.discover_urls.
    destruct (while _ fuel _) as [s| |] eqn:Hw; [|done..].
    intros [= <-]. exists s. split; [done|]. split; [apply law|].
    rewrite (law (discovered_urls s)).
    apply while_returns in Hw as [Hr _]. by eapply urls_NoDup.
  - intros fuel w l. unfold CompleteTextWebScraper.discover_all_pages.
    destruct (urlparse_netloc base_url) as [base_domain|]; [|done].
    destruct (while _ fuel _) as [s| |] eqn:Hw; [|done..].
    intros [= <-]. exists base_domain, s. split; [done|]. split; [done|].
    split; [apply law|].
    rewrite (law (discovered_urls s)).
    apply while_returns in Hw as [Hr _]. by eapply all_pages_NoDup.
Qed.

(** What the link filter of [discover_all_pages] does ensure.  An anchor is
    followed only if its stripped [href] is not empty and starts with none
    of [#], [javascript:], [mailto:] and [tel:], and if the resolved URL, in
    lower case, ends with no excluded extension and contains no excluded
    segment.  Every URL that [discover_all_pages] returns, the
    fragment-stripped start URL apart, contains no excluded segment and is
    the fragment-stripped form of a URL that passed this filter. *)
Theorem link_filter (law : SetOrderLaw) base_url start max_pages max_depth :
  (forall base_domain clean_url raw_href full_url,
     CompleteTextWebScraper.page_link base_domain clean_url raw_href = Followed full_url ->
     PyStr.strip raw_href <> EmptyString /\
     (forall p, p ∈ CompleteTextWebScraper.skipped_prefixes ->
                PyStr.startswith (PyStr.strip raw_href) p = false) /\
     (forall ext, ext ∈ CompleteTextWebScraper.excluded_extensions ->
                  PyStr.endswith (PyStr.lower full_url) ext = false) /\
     (forall path, path ∈ CompleteTextWebScraper.excluded_paths ->
                   PyStr.contains path (PyStr.lower full_url) = false)) /\
  (forall fuel w l u,
     CompleteTextWebScraper.discover_all_pages base_url start max_pages max_depth fuel w
       = Returns l ->
     u ∈ l ->
     u = PyStr.before_hash start \/
     ((forall path, path ∈ CompleteTextWebScraper.excluded_paths ->
                    PyStr.contains path (PyStr.lower u) = false) /\
      exists full_url,
        u = PyStr.before_hash full_url /\
        CompleteTextWebScraper.not_excluded full_url = true)).
Proof.
  split.
  - intros base_domain clean_url raw_href full_url Hl.
    apply page_link_followed in Hl as ([_ Hx] & Hne & Hp & _).
    apply not_excluded_spec in Hx as [He Hs].
    repeat split; try done.
    intros p Hin. apply not_true_iff_false. intros Ht.
    unfold PyStr.startswith_any in Hp.
    apply not_true_iff_false in Hp. apply Hp, existsb_exists.
    exists p. split; [by apply list_elem_of_In | done].
  - intros fuel w l u Hrun Hu.
    apply discover_all_pages_result in Hrun as (base_domain & s & Hb & Hr & _ & ->).
    rewrite (law (discovered_urls s)) in Hu.
    apply all_pages_provenance in Hr as [_ Hd].
    rewrite Forall_forall in Hd.
    destruct (Hd u Hu) as [->|(full_url & -> & [_ Hx])]; [by left|right].
    split; [|eauto].
    apply not_excluded_spec in Hx as [_ Hs].
    intros path Hin. apply not_true_iff_false. intros Ht.
    apply contains_before_hash in Ht. rewrite (Hs path Hin) in Ht. done.
Qed.

(** C7, as amended.  No fragment-stripped URL is admitted twice: once an
    iteration of [discover_all_pages] has admitted an entry, no later
    iteration admits an entry with the same fragment-stripped URL; and the
    same holds of [discover_urls] when the two popped entries carry no
    fragment.  (An entry may well be appended to the frontier more than
    once; the later copies are dropped when they are popped.) *)
Theorem admitted_once base_url base_domain max_pages max_depth :
  (forall s1 s2 s3 key depth,
     step (CompleteTextWebScraper.discover_all_pages_body base_domain max_pages max_depth)
       s1 s2 ->
     admits PyStr.before_hash s1 s2 key depth ->
     reaches (CompleteTextWebScraper.discover_all_pages_body base_domain max_pages max_depth)
       s2 s3 ->
     forall s4 depth',
       step (CompleteTextWebScraper.discover_all_pages_body base_domain max_pages max_depth)
         s3 s4 ->
       ~ admits PyStr.before_hash s3 s4 key depth') /\
  (forall s1 s2 s3 key depth,
     step (WebScraperForLLM.discover_urls_body base_url max_depth) s1 s2 ->
     admits PyStr.before_hash s1 s2 key depth ->
     reaches (WebScraperForLLM.discover_urls_body base_url max_depth) s2 s3 ->
     forall s4 depth',
       step (WebScraperForLLM.discover_urls_body base_url max_depth) s3 s4 ->
       (forall e : entry,
          head (to_visit s1) = Some e \/ head (to_visit s3) = Some e ->
          PyStr.contains "#" e.1 = false) ->
       ~ admits PyStr.before_hash s3 s4 key depth').
Proof.
  split.
  - intros s1 s2 s3 key depth H12 Ha12 H23 s4 depth' H34 Ha34.
    destruct (all_pages_admits_fresh _ _ _ _ _ _ _ H12 Ha12) as (_ & Hin & _).
    destruct (all_pages_admits_fresh _ _ _ _ _ _ _ H34 Ha34) as (Hnot & _).
    apply Hnot. by apply (all_pages_visited_grows _ _ _ _ _ H23).
  - intros s1 s2 s3 key depth H12 Ha12 H23 s4 depth' H34 Hfree Ha34.
    assert (forall (s s' : crawl World) d,
              (forall e : entry, head (to_visit s) = Some e ->
                                 PyStr.contains "#" e.1 = false) ->
              admits PyStr.before_hash s s' key d ->
              admits (fun url => url) s s' key d) as Hkey.
    { intros s s' d Hs (url & rest & Hq & Hk & Hne).
      exists url, rest. split; [done|]. split; [|done].
      rewrite <- Hk. symmetry. apply before_hash_without_hash.
      apply (Hs (url, d)). by rewrite Hq. }
    apply Hkey in Ha12; [|intros e He; apply Hfree; by left].
    apply Hkey in Ha34; [|intros e He; apply Hfree; by right].
    destruct (urls_admits_fresh _ _ _ _ _ _ H12 Ha12) as (_ & Hin & _).
    destruct (urls_admits_fresh _ _ _ _ _ _ H34 Ha34) as (Hnot & _).
    apply Hnot. by apply (urls_visited_grows _ _ _ _ H23).
Qed.

End CrawlClaims.

(** ** The crawlers on the sample sites *)

Section SampleCrawls.
Import Sample.

(** [discover_urls] and [discover_all_pages] on a static site with absolute
    URLs. *)
Local Abbreviation discover_urls site trees order :=
  (@WebScraperForLLM.discover_urls unit (static_site site) absolute_urls
     (table_parser trees) order).
Local Abbreviation discover_all_pages site trees order :=
  (@CompleteTextWebScraper.discover_all_pages unit (static_site site) absolute_urls
     (table_parser trees) order).
Local Abbreviation urls_body site trees :=
  (@WebScraperForLLM.discover_urls_body unit (static_site site) absolute_urls
     (table_parser trees)).
Local Abbreviation all_pages_body site trees :=
  (@CompleteTextWebScraper.discover_all_pages_body unit (static_site site) absolute_urls
     (table_parser trees)).

(** C1, counterexample.  With the base URL and the start URL of the usage
    example of web_scraper.py, and no page of the start site within reach,
    both crawlers return the start URL, whose host is not the base host. *)
Lemma foreign_start_is_discovered :
  discover_urls unreachable_site [] insertion_order
    "https://www.teambuilding-paris.com/" "https://your-website.com" 2 1 tt
    = Returns ["https://your-website.com"] /\
  discover_all_pages unreachable_site [] insertion_order
    "https://www.teambuilding-paris.com/" "https://your-website.com" 50 3 1 tt
    = Returns ["https://your-website.com"] /\
  netloc "https://your-website.com" = "your-website.com" /\
  netloc "https://www.teambuilding-paris.com/" = "www.teambuilding-paris.com" /\
  netloc "https://your-website.com" <> netloc "https://www.teambuilding-paris.com/".
Proof. repeat split; try (vm_compute; reflexivity). vm_compute. discriminate. Qed.

Lemma discovered_hosts_witness :
  (forall u,
     u ∈ ["https://x/"; "https://x/a#foo"; "https://x/a#bar"] ->
     u = "https://x/" \/ @WebScraperForLLM.same_host absolute_urls "https://x/" u) /\
  (forall u,
     u ∈ ["https://x/"; "https://x/a"] ->
     u = PyStr.before_hash "https://x/" \/
     exists full_url host,
       u = PyStr.before_hash full_url /\
       netloc full_url = host /\
       (netloc "https://x/" = host \/ host = EmptyString)).
Proof.
  destruct (@discovered_hosts unit (static_site fragment_site) absolute_urls
              (table_parser fragment_trees) insertion_order insertion_order_law
              "https://x/" "https://x/" 50 3) as [Hurls Hpages].
  split; intros u Hu.
  - apply (Hurls 10 tt ["https://x/"; "https://x/a#foo"; "https://x/a#bar"] u);
      [vm_compute; reflexivity | exact Hu].
  - destruct (Hpages 10 tt ["https://x/"; "https://x/a"] u)
      as [->|(full_url & host & -> & Hh & Hb)];
      [vm_compute; reflexivity | exact Hu | by left | right].
    exists full_url, host. simpl in Hh, Hb. split; [done|].
    split; [congruence|]. destruct Hb as [Hb| ->]; [left; congruence | by right].
Defined.

Lemma discover_all_pages_limits_witness :
  length ["https://x/"; "https://x/a"] <= 50.
Proof.
  apply (proj1 (@discover_all_pages_limits unit (static_site fragment_site) absolute_urls
                  (table_parser fragment_trees) insertion_order insertion_order_law
                  "https://x/" "https://x/" 50 3 10 tt ["https://x/"; "https://x/a"]
                  ltac:(vm_compute; reflexivity))).
Defined.

(** C3, counterexample.  A set may list its elements in the reverse of the
    order in which they were added; then both crawlers return the URLs of
    the sample site in an order that is not the order of discovery. *)
Lemma listing_not_in_discovery_order :
  @SetOrderLaw reverse_order /\
  (exists s,
     while (urls_body fragment_site fragment_trees "https://x/" 2) 10
       (WebScraperForLLM.discover_urls_init "https://x/" tt) = Returns s /\
     discovered_urls s = ["https://x/"; "https://x/a#foo"; "https://x/a#bar"] /\
     discover_urls fragment_site fragment_trees reverse_order "https://x/" "https://x/" 2 10 tt
       = Returns ["https://x/a#bar"; "https://x/a#foo"; "https://x/"]) /\
  (exists s,
     while (all_pages_body fragment_site fragment_trees "x" 50 3) 10
       (CompleteTextWebScraper.discover_all_pages_init "https://x/" tt) = Returns s /\
     discovered_urls s = ["https://x/"; "https://x/a"] /\
     discover_all_pages fragment_site fragment_trees reverse_order
       "https://x/" "https://x/" 50 3 10 tt
       = Returns ["https://x/a"; "https://x/"]).
Proof.
  split; [exact reverse_order_law|].
  split; eexists; (split; [vm_compute; reflexivity|]); split; vm_compute; reflexivity.
Qed.

Lemma discovered_list_rearranged_witness :
  (exists s,
     while (urls_body fragment_site fragment_trees "https://x/" 2) 10
       (WebScraperForLLM.discover_urls_init "https://x/" tt) = Returns s /\
     ["https://x/a#bar"; "https://x/a#foo"; "https://x/"] ≡ₚ discovered_urls s /\
     NoDup ["https://x/a#bar"; "https://x/a#foo"; "https://x/"]) /\
  (exists base_domain s,
     Some (netloc "https://x/") = Some base_domain /\
     while (all_pages_body fragment_site fragment_trees base_domain 50 3) 10
       (CompleteTextWebScraper.discover_all_pages_init "https://x/" tt) = Returns s /\
     ["https://x/a"; "https://x/"] ≡ₚ discovered_urls s /\
     NoDup ["https://x/a"; "https://x/"]).
Proof.
  destruct (@discovered_list_rearranged unit (static_site fragment_site) absolute_urls
              (table_parser fragment_trees) reverse_order reverse_order_law
              "https://x/" "https://x/" 50 3) as [Hurls Hpages].
  split.
  - apply (Hurls 10 tt). vm_compute. reflexivity.
  - apply (Hpages 10 tt). vm_compute. reflexivity.
Defined.

(** C5, at the failing input.  On a home page whose two anchors differ in
    their fragment only, [discover_urls] records both URLs, in the visited
    set and in the discovered set; [discover_all_pages] records one. *)
Lemma discover_urls_keeps_fragments :
  (exists s,
     while (urls_body fragment_site fragment_trees "https://x/" 2) 10
       (WebScraperForLLM.discover_urls_init "https://x/" tt) = Returns s /\
     discovered_urls s = ["https://x/"; "https://x/a#foo"; "https://x/a#bar"] /\
     "https://x/a#foo" ∈ visited s /\ "https://x/a#bar" ∈ visited s /\
     size (visited s) = 3) /\
  PyStr.before_hash "https://x/a#foo" = PyStr.before_hash "https://x/a#bar" /\
  discover_urls fragment_site fragment_trees insertion_order "https://x/" "https://x/" 2 10 tt
    = Returns ["https://x/"; "https://x/a#foo"; "https://x/a#bar"] /\
  discover_all_pages fragment_site fragment_trees insertion_order
    "https://x/" "https://x/" 50 3 10 tt
    = Returns ["https://x/"; "https://x/a"].
Proof.
  split.
  { eexists. split; [vm_compute; reflexivity|]. split; [vm_compute; reflexivity|].
    split; [|split].
    - apply (bool_decide_unpack _). vm_compute. exact I.
    - apply (bool_decide_unpack _). vm_compute. exact I.
    - vm_compute. reflexivity. }
  repeat split; vm_compute; reflexivity.
Qed.

(** The filter is applied to links only: a start URL whose path ends with
    an excluded extension, or holds an excluded segment, is discovered like
    any other. *)
Lemma excluded_start_is_discovered :
  discover_all_pages unreachable_site [] insertion_order
    "https://site/" "https://site/doc.pdf" 50 3 1 tt
    = Returns ["https://site/doc.pdf"] /\
  path "https://site/doc.pdf" = "/doc.pdf" /\
  PyStr.endswith (path "https://site/doc.pdf") ".pdf" = true /\
  discover_all_pages unreachable_site [] insertion_order
    "https://site/" "https://site/admin/users" 50 3 1 tt
    = Returns ["https://site/admin/users"] /\
  PyStr.contains "/admin/" (path "https://site/admin/users") = true.
Proof. repeat split; vm_compute; reflexivity. Qed.

(** C6, at the failing input.  The extension is looked for at the end of
    the whole URL, not of its path.  The link [https://site/doc.pdf] is
    skipped, but the same document linked with a fragment or with a query
    passes the filter; [discover_all_pages] then strips the fragment and
    returns [https://site/doc.pdf], a URL that is not the start URL and
    whose path ends with [.pdf]. *)
Lemma document_behind_fragment :
  @CompleteTextWebScraper.page_link absolute_urls "site" "https://site/"
    "https://site/doc.pdf" = Skipped /\
  @CompleteTextWebScraper.page_link absolute_urls "site" "https://site/"
    "https://site/doc.pdf#page=2" = Followed "https://site/doc.pdf#page=2" /\
  @CompleteTextWebScraper.page_link absolute_urls "site" "https://site/"
    "https://site/doc.pdf?download=1" = Followed "https://site/doc.pdf?download=1" /\
  discover_all_pages manual_site manual_trees insertion_order
    "https://site/" "https://site/" 50 3 10 tt
    = Returns ["https://site/"; "https://site/doc.pdf"] /\
  "https://site/doc.pdf" <> PyStr.before_hash "https://site/" /\
  path "https://site/doc.pdf" = "/doc.pdf" /\
  path "https://site/doc.pdf?download=1" = "/doc.pdf" /\
  PyStr.endswith "/doc.pdf" ".pdf" = true.
Proof. repeat split; try (vm_compute; reflexivity). vm_compute. discriminate. Qed.

Lemma link_filter_witness :
  (PyStr.strip "  https://x/a " <> EmptyString /\
   forall path, path ∈ CompleteTextWebScraper.excluded_paths ->
                PyStr.contains path (PyStr.lower "https://x/a") = false) /\
  (forall u,
     u ∈ ["https://x/"; "https://x/a"] ->
     u = PyStr.before_hash "https://x/" \/
     (forall path, path ∈ CompleteTextWebScraper.excluded_paths ->
                   PyStr.contains path (PyStr.lower u) = false)).
Proof.
  destruct (@link_filter unit (static_site fragment_site) absolute_urls
              (table_parser fragment_trees) insertion_order insertion_order_law
              "https://x/" "https://x/" 50 3) as [Hlink Hpages].
  split.
  - destruct (Hlink "x" "https://x/" "  https://x/a " "https://x/a")
      as (Hne & _ & _ & Hseg); [vm_compute; reflexivity|]. by split.
  - intros u Hu.
    destruct (Hpages 10 tt ["https://x/"; "https://x/a"] u) as [->|[Hseg _]];
      [vm_compute; reflexivity | exact Hu | by left | by right].
Defined.

(** C7, counterexample.  The two anchors of the sample home page lead to
    the same URL; after the first iteration of either crawler the frontier
    holds that URL twice. *)
Lemma entry_enqueued_twice :
  (exists s,
     reaches (all_pages_body twice_site twice_trees "x" 50 3)
       (CompleteTextWebScraper.discover_all_pages_init "https://x/" tt) s /\
     to_visit s = [("https://x/a", 1); ("https://x/a", 1)]) /\
  (exists s,
     reaches (urls_body twice_site twice_trees "https://x/" 2)
       (WebScraperForLLM.discover_urls_init "https://x/" tt) s /\
     to_visit s = [("https://x/a", 1); ("https://x/a", 1)]).
Proof.
  split; eexists; (split; [eapply rtc_l; [|apply rtc_refl]; vm_compute; reflexivity|]);
    reflexivity.
Qed.

(** On the sample home page, the second iteration of [discover_all_pages]
    admits [https://x/a] (popped with the fragment [#foo]); the third pops
    the same URL with the fragment [#bar] and does not admit it.  On the home
    page that links twice to [https://x/a], the second iteration of
    [discover_urls] admits that URL, and the third, which pops its second
    copy, does not. *)
Lemma admitted_once_witness :
  (let body := all_pages_body fragment_site fragment_trees "x" 50 3 in
   let s1 := after body 1 (CompleteTextWebScraper.discover_all_pages_init "https://x/" tt) in
   let s2 := after body 2 (CompleteTextWebScraper.discover_all_pages_init "https://x/" tt) in
   to_visit s1 = [("https://x/a#foo", 1); ("https://x/a#bar", 1)] /\
   to_visit s2 = [("https://x/a#bar", 1)] /\
   forall s4 depth', step body s2 s4 -> ~ admits PyStr.before_hash s2 s4 "https://x/a" depth') /\
  (let body := urls_body twice_site twice_trees "https://x/" 2 in
   let s1 := after body 1 (WebScraperForLLM.discover_urls_init "https://x/" tt) in
   let s2 := after body 2 (WebScraperForLLM.discover_urls_init "https://x/" tt) in
   to_visit s1 = [("https://x/a", 1); ("https://x/a", 1)] /\
   to_visit s2 = [("https://x/a", 1)] /\
   forall s4 depth', step body s2 s4 -> ~ admits PyStr.before_hash s2 s4 "https://x/a" depth').
Proof.
  split.
  - intros body s1 s2.
    split; [vm_compute; reflexivity|]. split; [vm_compute; reflexivity|].
    apply (proj1 (@admitted_once unit (static_site fragment_site) absolute_urls
                    (table_parser fragment_trees) "https://x/" "x" 50 3)
             s1 s2 s2 "https://x/a" 1).
    + vm_compute. reflexivity.
    + exists "https://x/a#foo", [("https://x/a#bar", 1)].
      split; [vm_compute; reflexivity|]. split; [vm_compute; reflexivity|].
      vm_compute. discriminate.
    + apply rtc_refl.
  - intros body s1 s2.
    split; [vm_compute; reflexivity|]. split; [vm_compute; reflexivity|].
    intros s4 depth' Hstep.
    apply (proj2 (@admitted_once unit (static_site twice_site) absolute_urls
                    (table_parser twice_trees) "https://x/" "x" 50 2)
             s1 s2 s2 "https://x/a" 1); [| | apply rtc_refl | exact Hstep |].
    + vm_compute. reflexivity.
    + exists "https://x/a", [("https://x/a", 1)].
      split; [vm_compute; reflexivity|]. split; [vm_compute; reflexivity|].
      vm_compute. discriminate.
    + intros e [He|He]; vm_compute in He; injection He as <-; vm_compute; reflexivity.
Defined.

End SampleCrawls.

(** ** Facts on the parsed document *)

(** Induction on a node, with the property for the children of a tag. *)
Lemma node_induction (P : Soup.node -> Prop) :
  (forall s, P (Soup.Text s)) ->
  (forall name attrs cs, Forall P cs -> P (Soup.Tag name attrs cs)) ->
  forall n, P n.
Proof.
  intros text_case tag_case. fix IH 1. intros [s|name attrs cs]; [apply text_case|].
  apply tag_case. induction cs as [|c cs IHcs]; constructor; [apply IH | apply IHcs].
Qed.

Lemma prune_tag p name attrs cs :
  Soup.prune p (Soup.Tag name attrs cs) = Soup.Tag name attrs (Soup.prune_all p cs).
Proof.
  simpl. f_equal. induction cs as [|c cs IH]; simpl; [done|].
  destruct (p c); by rewrite IH.
Qed.

Lemma nodes_cons c d : Soup.nodes (c :: d) = c :: Soup.descendants c ++ Soup.nodes d.
Proof. reflexivity. Qed.

Lemma descendants_tag name attrs cs :
  Soup.descendants (Soup.Tag name attrs cs) = Soup.nodes cs.
Proof. reflexivity. Qed.

(** Nothing is removed from a document none of whose nodes passes the
    test. *)
Lemma prune_all_nothing p d :
  Forall (fun n => p n = false) (Soup.nodes d) -> Soup.prune_all p d = d.
Proof.
  assert (forall n, Forall (fun x => p x = false) (Soup.descendants n) -> Soup.prune p n = n)
    as Hnode.
  { intros n. induction n as [s|name attrs cs IH] using node_induction; [done|].
    rewrite descendants_tag, prune_tag. intros Hall. f_equal.
    induction cs as [|c cs IHcs]; [done|].
    rewrite nodes_cons in Hall. apply Forall_cons in Hall as [Hc Hall].
    apply Forall_app in Hall as [Hdesc Hrest].
    apply Forall_cons in IH as [IHc IH].
    simpl. rewrite Hc, (IHc Hdesc), (IHcs IH Hrest). done. }
  induction d as [|c d IH]; [done|].
  rewrite nodes_cons. intros Hall.
  apply Forall_cons in Hall as [Hc Hall].
  apply Forall_app in Hall as [Hdesc Hrest].
  simpl. rewrite Hc, (Hnode c Hdesc), (IH Hrest). done.
Qed.

(** Removing twice removes nothing more, for a test that a node passes or
    fails whatever is removed below it. *)
Lemma prune_all_twice p d :
  (forall n, p (Soup.prune p n) = p n) ->
  Soup.prune_all p (Soup.prune_all p d) = Soup.prune_all p d.
Proof.
  intros Hp.
  assert (forall n, Soup.prune p (Soup.prune p n) = Soup.prune p n) as Hnode.
  { intros n. induction n as [s|name attrs cs IH] using node_induction; [done|].
    rewrite !prune_tag. f_equal.
    induction cs as [|c cs IHcs]; [done|].
    apply Forall_cons in IH as [IHc IH].
    simpl. destruct (p c) eqn:Hc; [by apply IHcs|].
    simpl. rewrite Hp, Hc, IHc, (IHcs IH). done. }
  induction d as [|c d IH]; [done|].
  simpl. destruct (p c) eqn:Hc; [done|].
  simpl. rewrite Hp, Hc, Hnode, IH. done.
Qed.

Lemma named_prune names p n : Soup.named names (Soup.prune p n) = Soup.named names n.
Proof. by destruct n. Qed.

Lemma decompose_all_nothing names d :
  Forall (fun n => Soup.named names n = false) (Soup.nodes d) ->
  Soup.decompose_all names d = d.
Proof. apply prune_all_nothing. Qed.

Lemma decompose_all_twice names d :
  Soup.decompose_all names (Soup.decompose_all names d) = Soup.decompose_all names d.
Proof. apply prune_all_twice. intros n. apply named_prune. Qed.

(** The same for the removal of what a selector selects. *)
Lemma locate_forest_cons ancs parent_next c rest :
  Soup.locate_forest ancs parent_next (c :: rest) =
  Soup.locate ancs parent_next c rest ++ Soup.locate_forest ancs parent_next rest.
Proof. reflexivity. Qed.

Lemma locate_tag ancs parent_next name attrs cs next :
  Soup.locate ancs parent_next (Soup.Tag name attrs cs) next =
  Soup.mkLocated (Soup.Tag name attrs cs) ancs next parent_next ::
  Soup.locate_forest (Soup.Tag name attrs cs :: ancs) next cs.
Proof.
  simpl. f_equal. generalize (Soup.Tag name attrs cs :: ancs) as up. intros up.
  induction cs as [|c cs IH]; simpl; [done|]. by rewrite IH.
Qed.

Lemma prune_selected_nothing sel n :
  forall ancs parent_next next,
    Forall (Soup.unselected sel) (Soup.locate ancs parent_next n next) ->
    Soup.prune_selected sel ancs n = n.
Proof.
  induction n as [s|name attrs cs IH] using node_induction; [done|].
  intros ancs parent_next next. rewrite locate_tag.
  intros Hall. apply Forall_cons in Hall as [_ Hall].
  simpl. f_equal. revert Hall.
  generalize (Soup.Tag name attrs cs :: ancs) as up. intros up Hall.
  induction cs as [|c cs IHcs]; [done|].
  rewrite locate_forest_cons in Hall. apply Forall_app in Hall as [Hc Hrest].
  apply Forall_cons in IH as [IHc IH].
  assert (Soup.matches sel up c = false) as Hm.
  { destruct c; [by destruct sel|].
    rewrite locate_tag in Hc. by apply Forall_cons in Hc as [Hc _]. }
  rewrite Hm, (IHc _ _ _ Hc), (IHcs IH Hrest). done.
Qed.

Lemma decompose_selected_nothing sel d :
  Forall (Soup.unselected sel) (Soup.located_nodes d) -> Soup.decompose_selected sel d = d.
Proof.
  unfold Soup.located_nodes.
  induction d as [|c d IH]; [done|].
  rewrite locate_forest_cons. intros Hall. apply Forall_app in Hall as [Hc Hrest].
  assert (Soup.matches sel [] c = false) as Hm.
  { destruct c; [by destruct sel|].
    rewrite locate_tag in Hc. by apply Forall_cons in Hc as [Hc _]. }
  simpl. rewrite Hm, (prune_selected_nothing _ _ _ _ _ Hc), (IH Hrest). done.
Qed.

(** ** The claims on the extractors and the exporter *)

Section LinkClaims.
Context `{!UrlLib}.

Lemma links_loop_spec base_url anchors acc links :
  WebScraperForLLM.links_loop base_url anchors acc = Some links ->
  exists new,
    links = acc ++ new /\
    Forall2 (WebScraperForLLM.link_of base_url) new (List.filter WebScraperForLLM.kept_anchor anchors).
Proof.
  revert acc. induction anchors as [|a anchors IH]; intros acc; simpl.
  - intros [= <-]. exists []. by rewrite app_nil_r.
  - unfold WebScraperForLLM.kept_anchor at 1.
    destruct (PyStr.truthy (PyStr.strip (Soup.get_text a)) && PyStr.truthy (Soup.href a)).
    + destruct (urljoin base_url (Soup.href a)) as [full_url|] eqn:Hj; [|done].
      intros Hl. destruct (IH _ Hl) as (new & -> & Hall).
      exists (WebScraperForLLM.mkLink full_url (PyStr.strip (Soup.get_text a)) :: new).
      split; [by rewrite <- app_assoc|]. constructor; [by split|done].
    + apply IH.
Qed.

Lemma filter_sublist {A : Type} (f : A -> bool) (l : list A) : sublist (List.filter f l) l.
Proof.
  induction l as [|x l IH]; simpl; [constructor|].
  destruct (f x); by constructor.
Qed.

Lemma kept_anchor_text base_url links anchors :
  Forall2 (WebScraperForLLM.link_of base_url) links anchors ->
  Forall (fun a => WebScraperForLLM.kept_anchor a = true) anchors ->
  Forall (fun l => WebScraperForLLM.anchor_text l <> EmptyString) links.
Proof.
  induction 1 as [|l a links anchors [Ht _] _ IH]; intros Hk; [constructor|].
  apply Forall_cons in Hk as [Ha Hk]. constructor; [|by apply IH].
  unfold WebScraperForLLM.kept_anchor in Ha. apply andb_true_iff in Ha as [Ha _].
  rewrite Ht. intros Hs. unfold PyStr.truthy in Ha. rewrite Hs in Ha. done.
Qed.

Lemma filter_filter_and {A : Type} (f g : A -> bool) (l : list A) :
  List.filter f (List.filter g l) = List.filter (fun x => g x && f x) l.
Proof.
  induction l as [|x l IH]; [done|]. simpl.
  destruct (g x); simpl; [destruct (f x)|]; by rewrite IH.
Qed.

(** The anchors of which an entry is made, among the nodes of the
    document. *)
Lemma kept_anchors_of_nodes soup :
  List.filter WebScraperForLLM.kept_anchor (Soup.anchors soup) =
  List.filter
    (fun n => match n with
              | Soup.Tag name attrs _ =>
                  String.eqb name "a" &&
                  bool_decide (is_Some (Soup.lookup_attr "href" attrs)) &&
                  PyStr.truthy (PyStr.strip (Soup.get_text n)) &&
                  PyStr.truthy (default EmptyString (Soup.lookup_attr "href" attrs))
              | Soup.Text _ => false
              end)
    (Soup.nodes soup).
Proof.
  unfold Soup.anchors, Soup.find_all. rewrite !filter_filter_and.
  apply filter_ext. intros [text|name attrs cs]; [done|].
  unfold WebScraperForLLM.kept_anchor, Soup.href, Soup.get_or_empty. simpl.
  by rewrite orb_false_r, !andb_assoc.
Qed.

(** C10.  The list that [_extract_links] returns has at most 50 entries;
    every entry has a non-empty anchor text; and the entries are made, one
    by one and in this order, of the first 50 nodes of the document, in
    document order and at any depth, that are [a] tags with an [href]
    attribute, a text that is not empty once stripped, and a non-empty
    [href].  Document order: a tag stands before the nodes it contains, and
    these before the nodes that follow the tag. *)
Theorem extract_links_first_fifty soup base_url links :
  WebScraperForLLM._extract_links soup base_url = Some links ->
  length links <= 50 /\
  Forall (fun l => WebScraperForLLM.anchor_text l <> EmptyString) links /\
  Forall2 (WebScraperForLLM.link_of base_url) links
    (take 50
       (List.filter
          (fun n => match n with
                    | Soup.Tag name attrs _ =>
                        String.eqb name "a" &&
                        bool_decide (is_Some (Soup.lookup_attr "href" attrs)) &&
                        PyStr.truthy (PyStr.strip (Soup.get_text n)) &&
                        PyStr.truthy (default EmptyString (Soup.lookup_attr "href" attrs))
                    | Soup.Text _ => false
                    end)
          (Soup.nodes soup))) /\
  Forall2 (WebScraperForLLM.link_of base_url) links
    (take 50 (List.filter WebScraperForLLM.kept_anchor (Soup.anchors soup))) /\
  (Soup.nodes [] = [] /\
   (forall text rest, Soup.nodes (Soup.Text text :: rest) = Soup.Text text :: Soup.nodes rest) /\
   (forall name attrs cs rest,
      Soup.nodes (Soup.Tag name attrs cs :: rest)
      = Soup.Tag name attrs cs :: Soup.nodes cs ++ Soup.nodes rest)).
Proof.
  unfold WebScraperForLLM._extract_links.
  destruct (WebScraperForLLM.links_loop base_url (Soup.anchors soup) []) as [all|] eqn:Hl;
    [|done].
  intros [= <-]. apply links_loop_spec in Hl as (new & -> & Hall). simpl in *.
  assert (Forall2 (WebScraperForLLM.link_of base_url) (take 50 new)
            (take 50 (List.filter WebScraperForLLM.kept_anchor (Soup.anchors soup))))
    as Htake by by apply Forall2_take.
  split; [rewrite length_take; lia|]. split; [|split; [|split; [done|]]].
  - eapply kept_anchor_text; [exact Htake|].
    apply Forall_take, Forall_forall. intros a Ha.
    apply list_elem_of_In, filter_In in Ha as [_ Ha]. done.
  - by rewrite <- kept_anchors_of_nodes.
  - split; [done|]. split; [done|]. intros name attrs cs rest. reflexivity.
Qed.

(** [_extract_links] returns a list unless [urljoin] raises. *)
Lemma extract_links_returns soup base_url :
  (forall href, urljoin base_url href <> None) ->
  exists links, WebScraperForLLM._extract_links soup base_url = Some links.
Proof.
  intros Hj. unfold WebScraperForLLM._extract_links.
  assert (forall anchors acc,
            exists links, WebScraperForLLM.links_loop base_url anchors acc = Some links)
    as Hloop.
  { induction anchors as [|a anchors IH]; intros acc; simpl; [eauto|].
    destruct (_ && _); [|apply IH].
    destruct (urljoin base_url (Soup.href a)) eqn:E; [apply IH | by apply Hj in E]. }
  destruct (Hloop (Soup.anchors soup) []) as [links ->]. eauto.
Qed.

End LinkClaims.

(** C9.  For a non-empty record list [save_to_csv] writes a file with one
    row per record, in the order of the records, and the cell of a row in
    the column [faq_count] is the number of FAQ entries of its record. *)
Theorem csv_rows_and_faq_count (scraped_data : list WebScraperForLLM.page_data) :
  scraped_data <> [] ->
  exists csv,
    WebScraperForLLM.save_to_csv scraped_data = Some csv /\
    length (WebScraperForLLM.csv_rows csv) = length scraped_data /\
    forall i item,
      scraped_data !! i = Some item ->
      exists row,
        WebScraperForLLM.csv_rows csv !! i = Some row /\
        WebScraperForLLM.column "faq_count" (WebScraperForLLM.csv_header csv) row
          = Some (WebScraperForLLM.CInt (length (WebScraperForLLM.data_faq_content item))).
Proof.
  destruct scraped_data as [|first rest]; [done|]. intros _.
  eexists. split; [reflexivity|]. split.
  - simpl. by rewrite !length_map.
  - intros i item Hi.
    exists (map snd (WebScraperForLLM.flat_item item)). split.
    + change (WebScraperForLLM.csv_rows _)
        with (map (map snd) (map WebScraperForLLM.flat_item (first :: rest))).
      by rewrite !list_lookup_fmap, Hi.
    + reflexivity.
Qed.

Section ScrapeClaims.
Context {World : Type} `{!Requests World} `{!Clock World} `{!UrlLib} `{!HtmlParser}
  `{!SetOrder} `{!Regex}.

Lemma scrape_page_fails url w :
  WebScraperForLLM.fetch_fails url w ->
  WebScraperForLLM.scrape_page url w = (None, fst (session_get w url)).
Proof.
  unfold WebScraperForLLM.fetch_fails, WebScraperForLLM.scrape_page.
  destruct (session_get w url) as [w1 [response|]]; [|done].
  by intros ->.
Qed.

(** The records that [scrape_multiple_urls] adds stand after the records
    it found; there is at most one per URL, and each is the record of a URL
    of the list. *)
Lemma scrape_multiple_urls_appends urls scraped_data w :
  exists added,
    fst (WebScraperForLLM.scrape_multiple_urls urls scraped_data w) = scraped_data ++ added /\
    length added <= length urls /\
    Forall (fun data => WebScraperForLLM.data_url data ∈ urls) added.
Proof.
  revert scraped_data w. induction urls as [|url urls IH]; intros scraped_data w; simpl.
  - exists []. by rewrite app_nil_r.
  - destruct (WebScraperForLLM.scrape_page url w) as [[data|] w'] eqn:Hp.
    + destruct (IH (scraped_data ++ [data]) w') as (added & -> & Hlen & Hall).
      exists (data :: added). split; [by rewrite <- app_assoc|]. split; [simpl; lia|].
      constructor.
      * unfold WebScraperForLLM.scrape_page in Hp.
        destruct (session_get w url) as [w1 [response|]]; [|done].
        destruct (raise_for_status response); [done|].
        destruct (datetime_now w1) as [w2 timestamp].
        unfold WebScraperForLLM.extract_fields in Hp.
        destruct (WebScraperForLLM._extract_links _ url); [|done].
        injection Hp as <- _. simpl. by left.
      * eapply Forall_impl; [exact Hall|]. intros d ?. by right.
    + destruct (IH scraped_data w') as (added & -> & Hlen & Hall).
      exists added. split; [done|]. split; [lia|].
      eapply Forall_impl; [exact Hall|]. intros d ?. by right.
Qed.

(** C4, as amended.  When [session.get] raises, or when the answer has a
    status from 400 to 599, [scrape_page] returns [None],
    [scrape_multiple_urls] adds no record for the URL and goes on with the
    remaining URLs; a list whose only URL fails in this way leaves an empty
    record list empty.  An answer with any other status, be it 2xx or not,
    is parsed, and [scrape_page] returns what the extractors make of its
    content.  [scrape_multiple_urls] is a total function: no exception
    leaves [scrape_page]. *)
Theorem failed_fetch_adds_no_record (law : RequestsLaw) url w :
  ((forall response,
      snd (session_get w url) = Some response -> 400 <= status_code response < 600) ->
   fst (WebScraperForLLM.scrape_page url w) = None /\
   (forall rest scraped_data,
      WebScraperForLLM.scrape_multiple_urls (url :: rest) scraped_data w =
      WebScraperForLLM.scrape_multiple_urls rest scraped_data (fst (session_get w url))) /\
   fst (WebScraperForLLM.scrape_multiple_urls [url] [] w) = []) /\
  (forall response,
     snd (session_get w url) = Some response ->
     ~ 400 <= status_code response < 600 ->
     let w1 := fst (session_get w url) in
     WebScraperForLLM.scrape_page url w =
     (fst (WebScraperForLLM.extract_fields url (snd (datetime_now w1))
             (BeautifulSoup (content response))),
      fst (datetime_now w1))).
Proof.
  split.
  - intros Hstatus.
    assert (WebScraperForLLM.fetch_fails url w) as Hf.
    { unfold WebScraperForLLM.fetch_fails.
      destruct (session_get w url) as [w1 [response|]]; [|done].
      rewrite (law response). unfold http_error.
      specialize (Hstatus response eq_refl).
      apply andb_true_iff. split; [apply Nat.leb_le | apply Nat.ltb_lt]; lia. }
    apply scrape_page_fails in Hf.
    split; [by rewrite Hf|]. split.
    + intros rest scraped_data. simpl. by rewrite Hf.
    + simpl. by rewrite Hf.
  - intros response Hget Hstatus. cbv zeta.
    unfold WebScraperForLLM.scrape_page.
    destruct (session_get w url) as [w1 [r|]]; simpl in Hget; [|done].
    injection Hget as ->. rewrite (law response). unfold http_error.
    destruct ((400 <=? status_code response) && (status_code response <? 600)) eqn:E.
    { exfalso. apply Hstatus. apply andb_true_iff in E as [E1 E2].
      apply Nat.leb_le in E1. apply Nat.ltb_lt in E2. lia. }
    cbn [fst snd]. by destruct (datetime_now w1) as [w2 timestamp].
Qed.

Lemma call_all_readers es url soup :
  WebScraperForLLM.ExtractCleanText ∉ es ->
  WebScraperForLLM.call_all es url soup =
  (map (fun e => fst (WebScraperForLLM.call e url soup)) es, soup).
Proof.
  induction es as [|e es IH]; [done|].
  intros Hnot. apply not_elem_of_cons in Hnot as [He Hes].
  simpl. destruct e; try done; simpl; by rewrite (IH Hes).
Qed.

Lemma clean_text_nothing soup :
  Forall (fun n => Soup.named WebScraperForLLM.removed_for_clean_text n = false)
    (Soup.nodes soup) ->
  snd (WebScraperForLLM._extract_clean_text soup) = soup.
Proof. intros Hall. simpl. by apply decompose_all_nothing. Qed.

Lemma call_all_nothing_to_delete es url soup :
  Forall (fun n => Soup.named WebScraperForLLM.removed_for_clean_text n = false)
    (Soup.nodes soup) ->
  WebScraperForLLM.call_all es url soup =
  (map (fun e => fst (WebScraperForLLM.call e url soup)) es, soup).
Proof.
  intros Hall. induction es as [|e es IH]; [done|].
  simpl. destruct e; simpl; rewrite ?(decompose_all_nothing _ _ Hall), IH; done.
Qed.

Lemma fold_decompose_selected_nothing sels soup :
  (forall sel, sel ∈ sels -> Forall (Soup.unselected sel) (Soup.located_nodes soup)) ->
  fold_left (fun d selector => Soup.decompose_selected selector d) sels soup = soup.
Proof.
  induction sels as [|sel sels IH]; [done|].
  intros Hall. simpl. rewrite decompose_selected_nothing.
  - apply IH. intros s Hs. apply Hall. by right.
  - apply Hall. by left.
Qed.

(** C8, as amended.  The extractors of a page share one parsed document,
    and [_extract_clean_text] deletes elements from it.  Calls of the other
    extractors leave the document as it is, so each returns what it returns
    on the freshly parsed document, in any order; [scrape_page] calls
    [_extract_clean_text] last, so all its fields are those of the freshly
    parsed document; on a document without [script], [style], [nav],
    [header], [footer] and [aside] elements nothing is deleted, and every
    sequence of calls returns the values of the fresh document; and
    [_extract_clean_text] returns the same text when it is called again.
    In [CompleteTextWebScraper], [_extract_complete_body_text] and
    [_extract_all_visible_text] leave a document unchanged that has nothing
    for them to delete; in its [scrape_page] the headings are those of the
    fresh document, the fields from the paragraphs to the data attributes
    are taken after the first of the two has deleted elements, and the
    structured content and the statistics after the second has.  The values
    depend on nothing else but the order in which a set lists its elements:
    under two such orders every extractor but [_extract_navigation_text]
    returns the same value, and [_extract_navigation_text] returns the same
    texts, in some order. *)
Theorem extraction_order url soup :
  (forall es,
     WebScraperForLLM.ExtractCleanText ∉ es ->
     WebScraperForLLM.call_all es url soup =
     (map (fun e => fst (WebScraperForLLM.call e url soup)) es, soup)) /\
  WebScraperForLLM.call_all WebScraperForLLM.scrape_page_order url soup =
    (map (fun e => fst (WebScraperForLLM.call e url soup)) WebScraperForLLM.scrape_page_order,
     Soup.decompose_all WebScraperForLLM.removed_for_clean_text soup) /\
  (forall timestamp data soup',
     WebScraperForLLM.extract_fields url timestamp soup = (Some data, soup') ->
     WebScraperForLLM.call_all WebScraperForLLM.scrape_page_order url soup =
     ([ WebScraperForLLM.Str (WebScraperForLLM.data_title data);
        WebScraperForLLM.Str (WebScraperForLLM.data_meta_description data);
        WebScraperForLLM.HeadingDict (WebScraperForLLM.data_headings data);
        WebScraperForLLM.Str (WebScraperForLLM.data_main_content data);
        WebScraperForLLM.LinkList (WebScraperForLLM.data_links data);
        WebScraperForLLM.FaqList (WebScraperForLLM.data_faq_content data);
        WebScraperForLLM.InfoDict (WebScraperForLLM.data_product_info data);
        WebScraperForLLM.ContactDict (WebScraperForLLM.data_contact_info data);
        WebScraperForLLM.StrList (WebScraperForLLM.data_navigation_text data);
        WebScraperForLLM.Str (WebScraperForLLM.data_clean_text data) ], soup')) /\
  (Forall (fun n => Soup.named WebScraperForLLM.removed_for_clean_text n = false)
     (Soup.nodes soup) ->
   forall es,
     WebScraperForLLM.call_all es url soup =
     (map (fun e => fst (WebScraperForLLM.call e url soup)) es, soup)) /\
  WebScraperForLLM._extract_clean_text (snd (WebScraperForLLM._extract_clean_text soup)) =
    WebScraperForLLM._extract_clean_text soup /\
  (Forall (fun n => Soup.named CompleteTextWebScraper.removed_for_body_text n = false /\
                    CompleteTextWebScraper.comment_like n = false)
     (Soup.nodes soup) ->
   snd (CompleteTextWebScraper._extract_complete_body_text soup) = soup) /\
  ((forall sel, sel ∈ CompleteTextWebScraper.invisible_elements ->
                Forall (Soup.unselected sel) (Soup.located_nodes soup)) ->
   snd (CompleteTextWebScraper._extract_all_visible_text soup) = soup) /\
  (forall base_url timestamp data,
     CompleteTextWebScraper.extract_fields base_url url timestamp soup = Some data ->
     let soup1 := snd (CompleteTextWebScraper._extract_complete_body_text soup) in
     let soup2 := snd (CompleteTextWebScraper._extract_all_visible_text soup1) in
     CompleteTextWebScraper.data_all_headings data
       = CompleteTextWebScraper._extract_all_headings soup /\
     CompleteTextWebScraper.data_all_paragraph_text data
       = CompleteTextWebScraper._extract_all_paragraphs soup1 /\
     CompleteTextWebScraper.data_all_list_items data
       = CompleteTextWebScraper._extract_all_lists soup1 /\
     CompleteTextWebScraper.data_all_table_text data
       = CompleteTextWebScraper._extract_all_tables soup1 /\
     CompleteTextWebScraper.data_all_form_labels data
       = CompleteTextWebScraper._extract_form_text soup1 /\
     CompleteTextWebScraper.data_all_button_text data
       = CompleteTextWebScraper._extract_button_text soup1 /\
     CompleteTextWebScraper._extract_all_link_text base_url soup1
       = Some (CompleteTextWebScraper.data_all_link_text data) /\
     CompleteTextWebScraper.data_alt_text data
       = CompleteTextWebScraper._extract_alt_text soup1 /\
     CompleteTextWebScraper.data_title_attributes data
       = CompleteTextWebScraper._extract_title_attributes soup1 /\
     CompleteTextWebScraper.data_data_attributes data
       = CompleteTextWebScraper._extract_data_attributes soup1 /\
     CompleteTextWebScraper.data_structured_content data
       = CompleteTextWebScraper._extract_structured_content soup2 /\
     CompleteTextWebScraper.data_page_statistics data
       = CompleteTextWebScraper._calculate_page_statistics soup2) /\
  (forall order1 order2 : SetOrder,
     @SetOrderLaw order1 -> @SetOrderLaw order2 ->
     (forall e,
        e <> WebScraperForLLM.ExtractNavigationText ->
        @WebScraperForLLM.call _ order1 _ e url soup
        = @WebScraperForLLM.call _ order2 _ e url soup) /\
     @WebScraperForLLM._extract_navigation_text order1 soup
       ≡ₚ @WebScraperForLLM._extract_navigation_text order2 soup).
Proof.
  split; [intros es; apply call_all_readers|].
  split; [reflexivity|].
  split.
  { intros timestamp data soup'. unfold WebScraperForLLM.extract_fields.
    destruct (WebScraperForLLM._extract_links soup url) as [links|] eqn:Hl; [|done].
    intros [= <- <-]. unfold WebScraperForLLM.scrape_page_order. simpl.
    by rewrite Hl. }
  split; [intros Hall es; by apply call_all_nothing_to_delete|].
  split.
  { unfold WebScraperForLLM._extract_clean_text. simpl.
    by rewrite decompose_all_twice. }
  split.
  { intros Hall. simpl.
    rewrite (decompose_all_nothing CompleteTextWebScraper.removed_for_body_text soup).
    + apply prune_all_nothing. eapply Forall_impl; [exact Hall|]. by intros n [_ ?].
    + eapply Forall_impl; [exact Hall|]. by intros n [? _]. }
  split.
  { intros Hall. unfold CompleteTextWebScraper._extract_all_visible_text.
    cbn [snd]. by apply fold_decompose_selected_nothing. }
  split.
  - intros base_url timestamp data. cbv zeta.
    unfold CompleteTextWebScraper.extract_fields.
    destruct (CompleteTextWebScraper._extract_complete_body_text soup) as [body soup1].
    destruct (CompleteTextWebScraper._extract_all_link_text base_url soup1)
      as [links|] eqn:Hl; [|done].
    destruct (CompleteTextWebScraper._extract_all_visible_text soup1) as [visible soup2]
      eqn:Hv.
    intros [= <-]. cbn [snd]. rewrite Hv. cbn [snd]. by repeat split.
  - intros order1 order2 law1 law2. split.
    + intros e He. by destruct e.
    + unfold WebScraperForLLM._extract_navigation_text.
      etrans; [apply law1|]. symmetry. apply law2.
Qed.

End ScrapeClaims.

(** ** The extractors and the exporter on the sample pages *)

Section SampleExtraction.
Import Sample.

Local Abbreviation scrape_multiple_urls :=
  (@WebScraperForLLM.scrape_multiple_urls unit (static_site faq_site) (fixed_clock "T")
     absolute_urls (table_parser faq_trees) insertion_order nothing_to_find).
Local Abbreviation call :=
  (@WebScraperForLLM.call absolute_urls insertion_order nothing_to_find).
Local Abbreviation call_all :=
  (@WebScraperForLLM.call_all absolute_urls insertion_order nothing_to_find).
Local Abbreviation extract_fields :=
  (@WebScraperForLLM.extract_fields absolute_urls insertion_order nothing_to_find).

(** On a document with an anchor at the top, an anchor two levels down,
    and five elements that are not anchors with a text and an [href], the
    entries are those of the two anchors. *)
Lemma extract_links_first_fifty_witness :
  @WebScraperForLLM._extract_links absolute_urls links_doc "https://x/"
    = Some [ WebScraperForLLM.mkLink "https://x/a" "First";
             WebScraperForLLM.mkLink "https://x/c" "Third" ] /\
  length [ WebScraperForLLM.mkLink "https://x/a" "First";
           WebScraperForLLM.mkLink "https://x/c" "Third" ] <= 50 /\
  Forall (fun l => WebScraperForLLM.anchor_text l <> EmptyString)
    [ WebScraperForLLM.mkLink "https://x/a" "First";
      WebScraperForLLM.mkLink "https://x/c" "Third" ] /\
  Forall2 (@WebScraperForLLM.link_of absolute_urls "https://x/")
    [ WebScraperForLLM.mkLink "https://x/a" "First";
      WebScraperForLLM.mkLink "https://x/c" "Third" ]
    [ link "https://x/a" " First "; link "https://x/c" "Third" ].
Proof.
  assert (@WebScraperForLLM._extract_links absolute_urls links_doc "https://x/"
            = Some [ WebScraperForLLM.mkLink "https://x/a" "First";
                     WebScraperForLLM.mkLink "https://x/c" "Third" ]) as Hlinks
    by (vm_compute; reflexivity).
  destruct (@extract_links_first_fifty absolute_urls links_doc "https://x/" _ Hlinks)
    as (Hlen & Htext & Hnodes & _).
  split; [exact Hlinks|]. split; [exact Hlen|]. split; [exact Htext|]. exact Hnodes.
Defined.

(** Of sixty anchors with a text, fifty are kept. *)
Example sixty_anchors_cut :
  length <$> @WebScraperForLLM._extract_links absolute_urls sixty_anchors "https://x/"
    = Some 50.
Proof. vm_compute. reflexivity. Qed.

Lemma csv_rows_and_faq_count_witness :
  let scraped_data := fst (scrape_multiple_urls ["https://x/faq"] [] tt) in
  exists csv,
    WebScraperForLLM.save_to_csv scraped_data = Some csv /\
    length (WebScraperForLLM.csv_rows csv) = length scraped_data /\
    forall i item,
      scraped_data !! i = Some item ->
      exists row,
        WebScraperForLLM.csv_rows csv !! i = Some row /\
        WebScraperForLLM.column "faq_count" (WebScraperForLLM.csv_header csv) row
          = Some (WebScraperForLLM.CInt (length (WebScraperForLLM.data_faq_content item))).
Proof.
  intros scraped_data. apply csv_rows_and_faq_count.
  vm_compute. discriminate.
Defined.

(** The page with three questions gives one row, with [faq_count] 3. *)
Example three_questions_counted :
  exists csv row,
    WebScraperForLLM.save_to_csv (fst (scrape_multiple_urls ["https://x/faq"] [] tt))
      = Some csv /\
    WebScraperForLLM.csv_rows csv = [row] /\
    WebScraperForLLM.column "faq_count" (WebScraperForLLM.csv_header csv) row
      = Some (WebScraperForLLM.CInt 3).
Proof. do 2 eexists. repeat split; vm_compute; reflexivity. Qed.

(** C4, counterexample.  A site answers 304 Not Modified, a status that is
    not 2xx, and [raise_for_status] does not raise for it: the answer is
    parsed and [scrape_multiple_urls] adds its record. *)
Lemma not_modified_is_recorded :
  @session_get unit (static_site cached_site) tt "https://x/cached"
    = (tt, Some (mkResponse 304 page_a_html)) /\
  ~ 200 <= 304 < 300 /\
  http_error (mkResponse 304 page_a_html) = false /\
  map (fun data => (WebScraperForLLM.data_url data, WebScraperForLLM.data_clean_text data))
    (fst (@WebScraperForLLM.scrape_multiple_urls unit (static_site cached_site)
            (fixed_clock "T") absolute_urls (table_parser fragment_trees) insertion_order
            nothing_to_find ["https://x/cached"] [] tt))
    = [("https://x/cached", "page a")].
Proof. repeat split; try (vm_compute; reflexivity). lia. Qed.

(** The page [https://x/gone] answers 404, so it leaves no record; the
    page [https://x/cached] answers 304, so it is scraped like a page that
    answers 200. *)
Lemma failed_fetch_adds_no_record_witness :
  (fst (@WebScraperForLLM.scrape_page unit (static_site faq_site) (fixed_clock "T")
          absolute_urls (table_parser faq_trees) insertion_order nothing_to_find
          "https://x/gone" tt) = None /\
   (forall rest scraped_data,
      scrape_multiple_urls ("https://x/gone" :: rest) scraped_data tt =
      scrape_multiple_urls rest scraped_data tt) /\
   fst (scrape_multiple_urls ["https://x/gone"] [] tt) = []) /\
  @WebScraperForLLM.scrape_page unit (static_site cached_site) (fixed_clock "T")
    absolute_urls (table_parser fragment_trees) insertion_order nothing_to_find
    "https://x/cached" tt
  = (fst (@WebScraperForLLM.extract_fields absolute_urls insertion_order nothing_to_find
            "https://x/cached" "T" [Soup.Tag "p" [] [Soup.Text "page a"]]), tt).
Proof.
  split.
  - apply (proj1 (@failed_fetch_adds_no_record unit (static_site faq_site) (fixed_clock "T")
                    absolute_urls (table_parser faq_trees) insertion_order nothing_to_find
                    (static_site_law faq_site) "https://x/gone" tt)).
    intros response [= <-]. simpl. lia.
  - apply (proj2 (@failed_fetch_adds_no_record unit (static_site cached_site)
                    (fixed_clock "T") absolute_urls (table_parser fragment_trees)
                    insertion_order nothing_to_find (static_site_law cached_site)
                    "https://x/cached" tt) (mkResponse 304 page_a_html)).
    + reflexivity.
    + simpl. lia.
Defined.

(** A list with a failing URL before and after a page that can be
    scraped: one record, that of the page. *)
Example crawl_goes_on_after_failure :
  map WebScraperForLLM.data_url
    (fst (scrape_multiple_urls ["https://x/gone"; "https://x/faq"; "https://x/none"] [] tt))
  = ["https://x/faq"].
Proof. vm_compute. reflexivity. Qed.

(** C8, counterexample.  On the document
    [<header><h1>Hello</h1></header><p>World domination plan.</p>]
    [_extract_headings] finds the heading; called after
    [_extract_clean_text], on the same parsed document, it finds none, and a
    second extraction of all fields differs from the first.  In
    [CompleteTextWebScraper], [_extract_all_paragraphs] loses the paragraph
    inside [noscript] once [_extract_complete_body_text] has run, and
    [_calculate_page_statistics] counts fewer characters once
    [_extract_all_visible_text] has removed the title.  And the navigation
    texts of one document come in another order when the set lists its
    elements in another order. *)
Lemma extraction_depends_on_order :
  fst (call WebScraperForLLM.ExtractHeadings "https://x/" header_doc)
    = WebScraperForLLM.HeadingDict
        [("h1", ["Hello"]); ("h2", []); ("h3", []); ("h4", []); ("h5", []); ("h6", [])] /\
  fst (call WebScraperForLLM.ExtractHeadings "https://x/"
         (snd (call WebScraperForLLM.ExtractCleanText "https://x/" header_doc)))
    = WebScraperForLLM.HeadingDict
        [("h1", []); ("h2", []); ("h3", []); ("h4", []); ("h5", []); ("h6", [])] /\
  fst (extract_fields "https://x/" "T" (snd (extract_fields "https://x/" "T" header_doc)))
    <> fst (extract_fields "https://x/" "T" header_doc) /\
  CompleteTextWebScraper._extract_all_paragraphs noscript_doc
    = ["Please enable JavaScript."] /\
  CompleteTextWebScraper._extract_all_paragraphs
    (snd (CompleteTextWebScraper._extract_complete_body_text noscript_doc)) = [] /\
  CompleteTextWebScraper.total_characters
    (CompleteTextWebScraper._calculate_page_statistics title_doc) = 25 /\
  CompleteTextWebScraper.total_characters
    (CompleteTextWebScraper._calculate_page_statistics
       (snd (CompleteTextWebScraper._extract_all_visible_text title_doc))) = 21 /\
  @WebScraperForLLM._extract_navigation_text insertion_order nav_doc = ["Home"; "About"] /\
  @WebScraperForLLM._extract_navigation_text reverse_order nav_doc = ["About"; "Home"].
Proof.
  repeat split; try (vm_compute; reflexivity).
  vm_compute. discriminate.
Qed.

(** On a document with nothing to delete the calls can be made in any
    order, here with [_extract_clean_text] first; and the navigation texts
    under two orders of the set are the same texts. *)
Lemma extraction_order_witness :
  call_all [WebScraperForLLM.ExtractCleanText; WebScraperForLLM.ExtractHeadings]
    "https://x/" plain_doc
  = (map (fun e => fst (call e "https://x/" plain_doc))
       [WebScraperForLLM.ExtractCleanText; WebScraperForLLM.ExtractHeadings],
     plain_doc) /\
  snd (CompleteTextWebScraper._extract_complete_body_text plain_doc) = plain_doc /\
  snd (CompleteTextWebScraper._extract_all_visible_text plain_doc) = plain_doc /\
  @WebScraperForLLM._extract_navigation_text insertion_order nav_doc
    ≡ₚ @WebScraperForLLM._extract_navigation_text reverse_order nav_doc.
Proof.
  destruct (@extraction_order absolute_urls insertion_order nothing_to_find
              "https://x/" plain_doc)
    as (_ & _ & _ & Hany & _ & Hbody & Hvisible & _).
  destruct (@extraction_order absolute_urls insertion_order nothing_to_find
              "https://x/" nav_doc)
    as (_ & _ & _ & _ & _ & _ & _ & _ & Horder).
  split; [|split; [|split]].
  - apply Hany. repeat constructor.
  - apply Hbody. repeat constructor.
  - apply Hvisible. intros sel Hsel.
    repeat (apply elem_of_cons in Hsel as [->|Hsel]; [repeat constructor|]).
    by apply elem_of_nil in Hsel.
  - apply (Horder insertion_order reverse_order insertion_order_law reverse_order_law).
Defined.

End SampleExtraction.

(** * Further properties *)

(** ** What the crawlers return, and the requests they make *)

Lemma hash_not_in_before_hash s : PyStr.contains "#" (PyStr.before_hash s) = false.
Proof.
  induction s as [|c s IH]; [done|]. cbn [PyStr.before_hash].
  destruct (Ascii.eqb c "#") eqn:E; [done|].
  cbn [PyStr.contains]. rewrite IH, orb_false_r.
  cbn [String.prefix]. destruct (ascii_dec "#" c) as [<-|]; [|done].
  by rewrite Ascii.eqb_refl in E.
Qed.

Lemma reaches_first_step {S : Type} (body : S -> option S) s s' :
  reaches body s s' -> body s' = None -> body s <> None ->
  exists s1, step body s s1 /\ reaches body s1 s'.
Proof.
  intros Hr Hn Hs. destruct Hr as [|s s1 s' Hfirst Hr]; [done|]. eauto.
Qed.

Section MoreOnCrawls.
Context {World : Type} `{!Requests World} `{!UrlLib} `{!HtmlParser} `{!SetOrder}.

(** The three things an iteration of [discover_urls] does: drop the entry,
    admit it without a request, or admit it and make one request. *)
Lemma urls_body_world base_url max_depth s s' :
  WebScraperForLLM.discover_urls_body base_url max_depth s = Some s' ->
  exists url depth rest,
    to_visit s = (url, depth) :: rest /\
    ((discovered_urls s' = discovered_urls s /\ world s' = world s) \/
     ((url ∉ visited s) /\ discovered_urls s' = set_add url (discovered_urls s) /\
      ((world s' = world s) \/
       (depth < max_depth /\ world s' = fst (session_get (world s) url))))).
Proof.
  unfold WebScraperForLLM.discover_urls_body.
  destruct (to_visit s) as [|[url depth] rest] eqn:Hq; [discriminate|].
  intros Hb. exists url, depth, rest. split; [done|].
  destruct (bool_decide (url ∈ visited s)) eqn:Hv; simpl in Hb.
  { left. by injection Hb as <-. }
  destruct (max_depth <? depth) eqn:Hd; simpl in Hb.
  { left. by injection Hb as <-. }
  right. apply bool_decide_eq_false in Hv. split; [done|].
  destruct (depth <? max_depth) eqn:Hlt.
  - apply Nat.ltb_lt in Hlt. unfold WebScraperForLLM.fetch_links in Hb.
    destruct (session_get (world s) url) as [w' [response|]];
      injection Hb as <-; simpl; auto.
  - injection Hb as <-. simpl. auto.
Qed.

Lemma all_pages_body_world base_domain max_pages max_depth s s' :
  CompleteTextWebScraper.discover_all_pages_body base_domain max_pages max_depth s
    = Some s' ->
  exists url depth rest,
    to_visit s = (url, depth) :: rest /\
    ((discovered_urls s' = discovered_urls s /\ world s' = world s) \/
     ((PyStr.before_hash url ∉ visited s) /\
      discovered_urls s' = set_add (PyStr.before_hash url) (discovered_urls s) /\
      ((world s' = world s) \/
       (depth < max_depth /\ length (discovered_urls s') < max_pages /\
        world s' = fst (session_get (world s) (PyStr.before_hash url)))))).
Proof.
  unfold CompleteTextWebScraper.discover_all_pages_body.
  destruct (to_visit s) as [|[url depth] rest] eqn:Hq; [discriminate|].
  destruct (length (discovered_urls s) <? max_pages) eqn:Hlen; simpl; [|discriminate].
  intros Hb. exists url, depth, rest. split; [done|].
  destruct (bool_decide (url ∈ visited s)) eqn:Hv; simpl in Hb.
  { left. by injection Hb as <-. }
  destruct (max_depth <? depth) eqn:Hd; simpl in Hb.
  { left. by injection Hb as <-. }
  destruct (bool_decide (PyStr.before_hash url ∈ visited s)) eqn:Hc.
  { left. by injection Hb as <-. }
  right. apply bool_decide_eq_false in Hc. split; [done|].
  destruct ((depth <? max_depth) &&
            (length (set_add (PyStr.before_hash url) (discovered_urls s)) <? max_pages))
    eqn:Hfollow.
  - apply andb_true_iff in Hfollow as [Hlt Hcap].
    apply Nat.ltb_lt in Hlt. apply Nat.ltb_lt in Hcap.
    unfold CompleteTextWebScraper.fetch_links in Hb.
    destruct (session_get (world s) (PyStr.before_hash url)) as [w' [response|]].
    + destruct (raise_for_status response); injection Hb as <-; simpl; auto.
    + injection Hb as <-; simpl; auto.
  - injection Hb as <-. simpl. auto.
Qed.

Lemma urls_discovered_grows base_url max_depth s s' u :
  reaches (WebScraperForLLM.discover_urls_body base_url max_depth) s s' ->
  u ∈ discovered_urls s -> u ∈ discovered_urls s'.
Proof.
  intros Hr. induction Hr as [|a b c Hab _ IH]; [done|].
  intros Hu. apply IH.
  destruct (urls_body_world _ _ _ _ Hab) as (url & depth & rest & _ & [[-> _]|(_ & -> & _)]);
    [done|]. apply set_add_elem. by right.
Qed.

Lemma all_pages_discovered_grows base_domain max_pages max_depth s s' u :
  reaches (CompleteTextWebScraper.discover_all_pages_body base_domain max_pages max_depth)
    s s' ->
  u ∈ discovered_urls s -> u ∈ discovered_urls s'.
Proof.
  intros Hr. induction Hr as [|a b c Hab _ IH]; [done|].
  intros Hu. apply IH.
  destruct (all_pages_body_world _ _ _ _ _ Hab)
    as (url & depth & rest & _ & [[-> _]|(_ & -> & _)]); [done|].
  apply set_add_elem. by right.
Qed.

Lemma discover_urls_start_returned (law : SetOrderLaw)
    base_url start max_depth fuel w l :
  WebScraperForLLM.discover_urls base_url start max_depth fuel w = Returns l ->
  start ∈ l.
Proof.
  intros Hrun. apply discover_urls_result in Hrun as (s & Hr & Hn & ->).
  rewrite (law (discovered_urls s)).
  assert (forall s1,
            step (WebScraperForLLM.discover_urls_body base_url max_depth)
              (WebScraperForLLM.discover_urls_init start w) s1 ->
            start ∈ discovered_urls s1) as Hfirst.
  { intros s1. unfold step, WebScraperForLLM.discover_urls_body. simpl.
    rewrite bool_decide_eq_false_2 by set_solver. simpl.
    destruct (0 <? max_depth).
    - destruct (WebScraperForLLM.fetch_links _ _ _ _ _) as [queue w'].
      intros [= <-]. simpl. set_solver.
    - intros [= <-]. simpl. set_solver. }
  destruct (reaches_first_step _ _ _ Hr Hn) as (s1 & Hs1 & Hr1).
  - unfold WebScraperForLLM.discover_urls_body. simpl.
    rewrite bool_decide_eq_false_2 by set_solver. simpl.
    destruct (0 <? max_depth); [|done].
    by destruct (WebScraperForLLM.fetch_links _ _ _ _ _).
  - eapply urls_discovered_grows; [exact Hr1|]. by apply Hfirst.
Qed.

(** For limits that are natural numbers the loops with [int] limits are the
    loops with natural limits. *)
Lemma of_nat_ltb a b : (Z.of_nat a <? Z.of_nat b)%Z = (a <? b).
Proof. destruct (Nat.ltb_spec a b), (Z.ltb_spec (Z.of_nat a) (Z.of_nat b)); (done || lia). Qed.

Lemma while_ext {S : Type} (body1 body2 : S -> option S) :
  (forall s, body1 s = body2 s) ->
  forall fuel s, while body1 fuel s = while body2 fuel s.
Proof.
  intros Hb fuel. induction fuel as [|fuel IH]; intros s; simpl; rewrite Hb;
    destruct (body2 s); auto.
Qed.

Lemma urls_body_int_nat base_url max_depth s :
  WebScraperForLLM.discover_urls_body_int base_url (Z.of_nat max_depth) s
  = WebScraperForLLM.discover_urls_body base_url max_depth s.
Proof.
  unfold WebScraperForLLM.discover_urls_body_int, WebScraperForLLM.discover_urls_body.
  destruct (to_visit s) as [|[url depth] rest]; [done|]. by rewrite !of_nat_ltb.
Qed.

Lemma discover_urls_int_nat base_url start max_depth fuel w :
  WebScraperForLLM.discover_urls_int base_url start (Z.of_nat max_depth) fuel w
  = WebScraperForLLM.discover_urls base_url start max_depth fuel w.
Proof.
  unfold WebScraperForLLM.discover_urls_int, WebScraperForLLM.discover_urls.
  by rewrite (while_ext _ _ (urls_body_int_nat base_url max_depth)).
Qed.

Lemma all_pages_body_int_nat base_domain max_pages max_depth s :
  CompleteTextWebScraper.discover_all_pages_body_int base_domain
    (Z.of_nat max_pages) (Z.of_nat max_depth) s
  = CompleteTextWebScraper.discover_all_pages_body base_domain max_pages max_depth s.
Proof.
  unfold CompleteTextWebScraper.discover_all_pages_body_int,
    CompleteTextWebScraper.discover_all_pages_body.
  destruct (to_visit s) as [|[url depth] rest]; [done|]. by rewrite !of_nat_ltb.
Qed.

Lemma discover_all_pages_int_nat base_url start max_pages max_depth fuel w :
  CompleteTextWebScraper.discover_all_pages_int base_url start
    (Z.of_nat max_pages) (Z.of_nat max_depth) fuel w
  = CompleteTextWebScraper.discover_all_pages base_url start max_pages max_depth fuel w.
Proof.
  unfold CompleteTextWebScraper.discover_all_pages_int,
    CompleteTextWebScraper.discover_all_pages_in_int,
    CompleteTextWebScraper.discover_all_pages.
  destruct (urlparse_netloc base_url) as [base_domain|]; [|done].
  rewrite (while_ext _ _ (all_pages_body_int_nat base_domain max_pages max_depth)).
  by destruct (while _ fuel _).
Qed.

(** With a negative depth limit the start entry is dropped, and nothing is
    discovered. *)
Lemma urls_int_nothing base_url start (max_depth : Z) fuel w s :
  (max_depth < 0)%Z ->
  while (WebScraperForLLM.discover_urls_body_int base_url max_depth) fuel
    (WebScraperForLLM.discover_urls_init start w) = Returns s ->
  discovered_urls s = [] /\ world s = w.
Proof.
  intros Hneg.
  assert (WebScraperForLLM.discover_urls_body_int base_url max_depth
            (WebScraperForLLM.discover_urls_init start w)
          = Some (mkCrawl [] ∅ [] w)) as Hfirst.
  { unfold WebScraperForLLM.discover_urls_body_int. simpl.
    change (Z.of_nat 0) with 0%Z.
    replace (max_depth <? 0)%Z with true by (symmetry; apply Z.ltb_lt; lia).
    by rewrite orb_true_r. }
  destruct fuel as [|fuel]; simpl; rewrite Hfirst; [done|].
  destruct fuel; simpl; by intros [= <-].
Qed.

(** With a page limit that is not positive the loop is not entered; with a
    negative depth limit the start entry is dropped.  Nothing is discovered
    either way. *)
Lemma all_pages_int_nothing base_domain start (max_pages max_depth : Z) fuel w s :
  (max_pages <= 0)%Z \/ (max_depth < 0)%Z ->
  while (CompleteTextWebScraper.discover_all_pages_body_int base_domain max_pages max_depth)
    fuel (CompleteTextWebScraper.discover_all_pages_init start w) = Returns s ->
  discovered_urls s = [] /\ world s = w.
Proof.
  intros Hneg.
  destruct (Z.ltb_spec 0 max_pages) as [Hpages|Hpages].
  - destruct Hneg as [Hneg|Hneg]; [lia|].
    assert (CompleteTextWebScraper.discover_all_pages_body_int base_domain max_pages
              max_depth (CompleteTextWebScraper.discover_all_pages_init start w)
            = Some (mkCrawl [] ∅ [] w)) as Hfirst.
    { unfold CompleteTextWebScraper.discover_all_pages_body_int. simpl.
      change (Z.of_nat 0) with 0%Z.
      replace (0 <? max_pages)%Z with true by (symmetry; apply Z.ltb_lt; lia).
      replace (max_depth <? 0)%Z with true by (symmetry; apply Z.ltb_lt; lia).
      simpl. by rewrite orb_true_r. }
    destruct fuel as [|fuel]; simpl; rewrite Hfirst; [done|].
    destruct fuel; simpl; by intros [= <-].
  - assert (CompleteTextWebScraper.discover_all_pages_body_int base_domain max_pages
              max_depth (CompleteTextWebScraper.discover_all_pages_init start w)
            = None) as Hfirst.
    { unfold CompleteTextWebScraper.discover_all_pages_body_int. simpl.
      change (Z.of_nat 0) with 0%Z.
      by replace (0 <? max_pages)%Z with false by (symmetry; apply Z.ltb_ge; lia). }
    destruct fuel; simpl; rewrite Hfirst; by intros [= <-].
Qed.

(** [discover_urls] returns the start URL whenever the depth limit is not
    negative, whatever the site answers; with a negative depth limit it
    returns the empty list. *)
Theorem discover_urls_returns_start (law : SetOrderLaw)
    base_url start (max_depth : Z) fuel w l :
  WebScraperForLLM.discover_urls_int base_url start max_depth fuel w = Returns l ->
  ((0 <= max_depth)%Z -> start ∈ l) /\
  ((max_depth < 0)%Z -> l = []).
Proof.
  intros Hrun. split.
  - intros Hpos. rewrite <- (Z2Nat.id max_depth Hpos) in Hrun.
    rewrite discover_urls_int_nat in Hrun.
    by eapply discover_urls_start_returned.
  - intros Hneg. unfold WebScraperForLLM.discover_urls_int in Hrun.
    destruct (while _ fuel _) as [s| |] eqn:Hw; [|done..].
    injection Hrun as <-.
    apply (urls_int_nothing _ _ _ _ _ _ Hneg) in Hw as [-> _].
    apply Permutation_nil. symmetry. apply (law []).
Qed.

Lemma all_pages_fragment_free base_domain max_pages max_depth start w s :
  reaches (CompleteTextWebScraper.discover_all_pages_body base_domain max_pages max_depth)
    (CompleteTextWebScraper.discover_all_pages_init start w) s ->
  Forall (fun u => PyStr.contains "#" u = false) (discovered_urls s).
Proof.
  intros Hr.
  eapply (reaches_invariant _
            (fun x => Forall (fun u => PyStr.contains "#" u = false) (discovered_urls x)));
    [|exact Hr|constructor].
  intros a b Ha Hab.
  destruct (all_pages_body_world _ _ _ _ _ Hab)
    as (url & depth & rest & _ & [[-> _]|(_ & -> & _)]); [done|].
  apply Forall_forall. intros u [->|Hu]%set_add_elem.
  - apply hash_not_in_before_hash.
  - rewrite Forall_forall in Ha. auto.
Qed.

Lemma discover_all_pages_shape (law : SetOrderLaw)
    base_url start max_pages max_depth fuel w l :
  CompleteTextWebScraper.discover_all_pages base_url start max_pages max_depth fuel w
    = Returns l ->
  (forall u, u ∈ l -> PyStr.contains "#" u = false) /\
  (max_pages = 0 -> l = []) /\
  (0 < max_pages -> PyStr.before_hash start ∈ l).
Proof.
  intros Hrun.
  apply discover_all_pages_result in Hrun as (base_domain & s & _ & Hr & Hn & ->).
  split; [|split].
  - intros u Hu. rewrite (law (discovered_urls s)) in Hu.
    apply all_pages_fragment_free in Hr. rewrite Forall_forall in Hr. auto.
  - intros ->.
    assert (s = CompleteTextWebScraper.discover_all_pages_init start w) as ->.
    { inversion Hr as [|a b c Hab _]; [done|].
      unfold step, CompleteTextWebScraper.discover_all_pages_body in Hab.
      simpl in Hab. done. }
    simpl. apply Permutation_nil. symmetry. apply (law []).
  - intros Hpos. rewrite (law (discovered_urls s)).
    assert (CompleteTextWebScraper.discover_all_pages_body base_domain max_pages max_depth
              (CompleteTextWebScraper.discover_all_pages_init start w) <> None) as Hgo.
    { unfold CompleteTextWebScraper.discover_all_pages_body. simpl.
      destruct max_pages as [|k]; [lia|]. simpl.
      rewrite !bool_decide_eq_false_2 by set_solver. simpl.
      destruct (_ && _); [|done].
      by destruct (CompleteTextWebScraper.fetch_links _ _ _ _ _). }
    destruct (reaches_first_step _ _ _ Hr Hn Hgo) as (s1 & Hs1 & Hr1).
    eapply all_pages_discovered_grows; [exact Hr1|].
    destruct (all_pages_body_world _ _ _ _ _ Hs1)
      as (url & depth & rest & Hq & [[Hsame _]|(_ & -> & _)]).
    + exfalso. revert Hs1. unfold step, CompleteTextWebScraper.discover_all_pages_body.
      simpl. destruct max_pages as [|k]; [lia|]. simpl.
      rewrite !bool_decide_eq_false_2 by set_solver. simpl.
      destruct (_ && _).
      * destruct (CompleteTextWebScraper.fetch_links _ _ _ _ _).
        intros [= <-]. simpl in Hsame. done.
      * intros [= <-]. simpl in Hsame. done.
    + simpl in Hq. injection Hq as <- _ _. apply set_add_elem. by left.
Qed.

(** [discover_all_pages] returns no URL with a fragment; it returns the
    empty list when [max_pages] is not positive or [max_depth] is negative,
    and otherwise the start URL without its fragment is in the list. *)
Theorem discover_all_pages_result_shape (law : SetOrderLaw)
    base_url start (max_pages max_depth : Z) fuel w l :
  CompleteTextWebScraper.discover_all_pages_int base_url start max_pages max_depth fuel w
    = Returns l ->
  (forall u, u ∈ l -> PyStr.contains "#" u = false) /\
  ((max_pages <= 0)%Z \/ (max_depth < 0)%Z -> l = []) /\
  ((0 < max_pages)%Z -> (0 <= max_depth)%Z -> PyStr.before_hash start ∈ l).
Proof.
  intros Hrun.
  assert ((max_pages <= 0)%Z \/ (max_depth < 0)%Z -> l = []) as Hnothing.
  { intros Hneg. revert Hrun.
    unfold CompleteTextWebScraper.discover_all_pages_int,
      CompleteTextWebScraper.discover_all_pages_in_int.
    destruct (urlparse_netloc base_url) as [base_domain|]; [|done].
    destruct (while _ fuel _) as [s| |] eqn:Hw; [|done..].
    intros [= <-]. apply (all_pages_int_nothing _ _ _ _ _ _ _ Hneg) in Hw as [-> _].
    apply Permutation_nil. symmetry. apply (law []). }
  destruct (Z.ltb_spec 0 max_pages) as [Hpages|Hpages];
    [destruct (Z.ltb_spec max_depth 0) as [Hdepth|Hdepth]|].
  - rewrite Hnothing by by right. split; [by intros u Hu%elem_of_nil|]. split; [done|lia].
  - rewrite <- (Z2Nat.id max_pages), <- (Z2Nat.id max_depth) in Hrun by lia.
    rewrite discover_all_pages_int_nat in Hrun.
    destruct (discover_all_pages_shape law _ _ _ _ _ _ _ Hrun) as (Hfree & _ & Hstart).
    split; [done|]. split; [done|]. intros _ _. apply Hstart. lia.
  - rewrite Hnothing by by left. split; [by intros u Hu%elem_of_nil|]. split; [done|lia].
Qed.

End MoreOnCrawls.

Section CountedCrawls.
Context {World : Type} (R : Requests World) `{!UrlLib} `{!HtmlParser}.

Local Abbreviation counted_pages_body base_domain max_pages max_depth :=
  (@CompleteTextWebScraper.discover_all_pages_body (World * nat) (counting R) _ _
     base_domain max_pages max_depth).
Local Abbreviation pages_body base_domain max_pages max_depth :=
  (@CompleteTextWebScraper.discover_all_pages_body World R _ _
     base_domain max_pages max_depth).
Local Abbreviation counted_urls_body base_url max_depth :=
  (@WebScraperForLLM.discover_urls_body (World * nat) (counting R) _ _ base_url max_depth).
Local Abbreviation urls_body base_url max_depth :=
  (@WebScraperForLLM.discover_urls_body World R _ _ base_url max_depth).

(** The counted crawl is the crawl: without the counter, an iteration of
    the one is an iteration of the other. *)
Lemma counted_pages_body_forget base_domain max_pages max_depth s :
  pages_body base_domain max_pages max_depth (forget s) =
  forget <$> counted_pages_body base_domain max_pages max_depth s.
Proof.
  unfold CompleteTextWebScraper.discover_all_pages_body, forget. simpl.
  destruct (to_visit s) as [|[url depth] rest]; [done|].
  destruct (length (discovered_urls s) <? max_pages); simpl; [|done].
  destruct (bool_decide (url ∈ visited s)); simpl; [done|].
  destruct (max_depth <? depth); simpl; [done|].
  destruct (bool_decide (PyStr.before_hash url ∈ visited s)); [done|].
  destruct (_ && _); [|done].
  unfold CompleteTextWebScraper.fetch_links. simpl.
  destruct (@session_get _ R (world s).1 (PyStr.before_hash url)) as [w' [response|]];
    [|done].
  by destruct (@raise_for_status _ R response).
Qed.

Lemma counted_urls_body_forget base_url max_depth s :
  urls_body base_url max_depth (forget s) =
  forget <$> counted_urls_body base_url max_depth s.
Proof.
  unfold WebScraperForLLM.discover_urls_body, forget. simpl.
  destruct (to_visit s) as [|[url depth] rest]; [done|].
  destruct (bool_decide (url ∈ visited s)); simpl; [done|].
  destruct (max_depth <? depth); simpl; [done|].
  destruct (depth <? max_depth); [|done].
  unfold WebScraperForLLM.fetch_links. simpl.
  by destruct (@session_get _ R (world s).1 url) as [w' [response|]].
Qed.

Lemma while_forget (counted : crawl (World * nat) -> option (crawl (World * nat)))
    (plain : crawl World -> option (crawl World)) :
  (forall s, plain (forget s) = forget <$> counted s) ->
  forall fuel s s',
    while counted fuel s = Returns s' -> while plain fuel (forget s) = Returns (forget s').
Proof.
  intros Hsim fuel. induction fuel as [|fuel IH]; intros s s'; simpl; rewrite Hsim.
  - destruct (counted s); simpl; [done|]. by intros [= <-].
  - destruct (counted s) as [s1|]; simpl; [apply IH|]. by intros [= <-].
Qed.

Lemma counted_pages_bounds base_domain start max_pages max_depth fuel w s :
  while (counted_pages_body base_domain max_pages max_depth) fuel
    (CompleteTextWebScraper.discover_all_pages_init start (w, 0)) = Returns s ->
  while (pages_body base_domain max_pages max_depth) fuel
    (CompleteTextWebScraper.discover_all_pages_init start w) = Returns (forget s) /\
  requests s <= length (discovered_urls s) /\
  requests s <= max_pages - 1 /\
  (max_depth = 0 -> requests s = 0).
Proof.
  intros Hw. split.
  { apply (while_forget _ _ (counted_pages_body_forget base_domain max_pages max_depth)
             fuel _ _ Hw). }
  apply while_returns in Hw as [Hr _].
  assert (requests s <= length (discovered_urls s) /\
          (requests s = 0 \/ requests s < max_pages) /\
          (max_depth = 0 -> requests s = 0)) as (H1 & H2 & H3); [|lia].
  revert s Hr.
  apply (rtc_ind_r (fun s => requests s <= length (discovered_urls s) /\
                             (requests s = 0 \/ requests s < max_pages) /\
                             (max_depth = 0 -> requests s = 0))).
  { unfold requests. simpl. split; [lia|]. split; [by left|done]. }
  intros a b Hr Hab IH.
  destruct IH as (I1 & I2 & I3).
  pose proof (all_pages_discovered_visited _ _ _ _ _ _ Hr) as Hdv.
  destruct (all_pages_body_world _ _ _ _ _ Hab)
    as (url & depth & rest & _ & [[Hd Hwd]|(Hnew & Hd & [Hwd|(Hlt & Hcap & Hwd)])]);
    unfold requests in *.
  - rewrite Hd, Hwd. done.
  - rewrite Hd, Hwd. rewrite set_add_new by by rewrite Hdv.
    rewrite length_app. simpl. split; [lia|done].
  - rewrite Hd in *. rewrite set_add_new in * by by rewrite Hdv.
    rewrite length_app in *. simpl in *. rewrite Hwd.
    destruct (session_get (world a).1 (PyStr.before_hash url)) as [w' response].
    simpl. split; [lia|]. split; lia.
Qed.

(** [discover_all_pages] makes at most one request per discovered URL,
    fewer than [max_pages] requests in all, and none when [max_depth] is
    0. *)
Theorem discover_all_pages_requests base_domain start max_pages max_depth fuel w s :
  while (counted_pages_body base_domain max_pages max_depth) fuel
    (CompleteTextWebScraper.discover_all_pages_init start (w, 0)) = Returns s ->
  while (pages_body base_domain max_pages max_depth) fuel
    (CompleteTextWebScraper.discover_all_pages_init start w) = Returns (forget s) /\
  requests s <= length (discovered_urls s) /\
  requests s <= max_pages - 1 /\
  (max_depth = 0 -> requests s = 0).
Proof. apply counted_pages_bounds. Qed.

(** [discover_urls] makes at most one request per discovered URL, and none
    when [max_depth] is 0. *)
Theorem discover_urls_requests base_url start max_depth fuel w s :
  while (counted_urls_body base_url max_depth) fuel
    (WebScraperForLLM.discover_urls_init start (w, 0)) = Returns s ->
  while (urls_body base_url max_depth) fuel
    (WebScraperForLLM.discover_urls_init start w) = Returns (forget s) /\
  requests s <= length (discovered_urls s) /\
  (max_depth = 0 -> requests s = 0).
Proof.
  intros Hw. split.
  { apply (while_forget _ _ (counted_urls_body_forget base_url max_depth) fuel _ _ Hw). }
  apply while_returns in Hw as [Hr _].
  revert s Hr.
  apply (rtc_ind_r (fun s => requests s <= length (discovered_urls s) /\
                             (max_depth = 0 -> requests s = 0))).
  { unfold requests. simpl. split; [lia|done]. }
  intros a b Hr Hab IH.
  destruct IH as (I1 & I3).
  pose proof (urls_discovered_visited _ _ _ _ _ Hr) as Hdv.
  destruct (urls_body_world _ _ _ _ Hab)
    as (url & depth & rest & _ & [[Hd Hwd]|(Hnew & Hd & [Hwd|(Hlt & Hwd)])]);
    unfold requests in *.
  - rewrite Hd, Hwd. done.
  - rewrite Hd, Hwd. rewrite set_add_new by by rewrite Hdv.
    rewrite length_app. simpl. split; [lia|done].
  - rewrite Hd. rewrite set_add_new by by rewrite Hdv.
    rewrite length_app. rewrite Hwd. simpl.
    destruct (session_get (world a).1 url) as [w' response].
    simpl. split; lia.
Qed.

End CountedCrawls.

(** ** Whitespace in the extracted texts *)

Lemma single_spaced_weaken prev s : single_spaced true s = true -> single_spaced prev s = true.
Proof.
  destruct s as [|c s]; [done|]. simpl.
  destruct (PyStr.isspace c); [|done]. rewrite andb_false_r. done.
Qed.

Lemma collapse_ws_single_spaced prev s : single_spaced prev (PyStr.collapse_ws prev s) = true.
Proof.
  revert prev. induction s as [|c s IH]; intros prev; [done|]. simpl.
  destruct (PyStr.isspace c) eqn:Hc.
  - destruct prev; [apply IH|]. simpl. by rewrite IH.
  - simpl. by rewrite Hc, IH.
Qed.

Lemma single_spaced_collapse_ws prev s :
  single_spaced prev s = true -> PyStr.collapse_ws prev s = s.
Proof.
  revert prev. induction s as [|c s IH]; intros prev; [done|]. simpl.
  destruct (PyStr.isspace c) eqn:Hc.
  - intros [[Heq Hp]%andb_true_iff Hs]%andb_true_iff.
    apply Ascii.eqb_eq in Heq as ->. apply negb_true_iff in Hp as ->.
    by rewrite (IH true Hs).
  - intros Hs. by rewrite (IH false Hs).
Qed.

Lemma lstrip_single_spaced prev s :
  single_spaced prev s = true -> single_spaced true (PyStr.lstrip s) = true.
Proof.
  revert prev. induction s as [|c s IH]; intros prev; [done|]. simpl.
  destruct (PyStr.isspace c) eqn:Hc.
  - intros [_ Hs]%andb_true_iff. by apply (IH true).
  - intros Hs. simpl. by rewrite Hc.
Qed.

Lemma rstrip_single_spaced prev s :
  single_spaced prev s = true -> single_spaced prev (PyStr.rstrip s) = true.
Proof.
  revert prev. induction s as [|c s IH]; intros prev; [done|]. simpl.
  destruct (PyStr.isspace c) eqn:Hc.
  - intros [Hhead Hs]%andb_true_iff. specialize (IH true Hs).
    destruct (PyStr.rstrip s) as [|d r]; [done|].
    simpl. rewrite Hc, Hhead. exact IH.
  - intros Hs. specialize (IH false Hs).
    destruct (PyStr.rstrip s) as [|d r]; simpl; by rewrite Hc.
Qed.

Lemma rstrip_idem s : PyStr.rstrip (PyStr.rstrip s) = PyStr.rstrip s.
Proof.
  induction s as [|c s IH]; [done|]. simpl.
  destruct (PyStr.rstrip s) as [|d r] eqn:Hr.
  - destruct (PyStr.isspace c) eqn:Hc; [done|]. simpl. by rewrite Hc.
  - change (PyStr.rstrip (String c (String d r))) with
      (match PyStr.rstrip (String d r) with
       | EmptyString => if PyStr.isspace c then EmptyString else String c EmptyString
       | t => String c t
       end).
    rewrite IH. done.
Qed.

(** A string that does not start with whitespace keeps its start under
    [rstrip]. *)
Lemma lstrip_rstrip s : PyStr.lstrip s = s -> PyStr.lstrip (PyStr.rstrip s) = PyStr.rstrip s.
Proof.
  destruct s as [|c s]; [done|]. simpl.
  destruct (PyStr.isspace c) eqn:Hc.
  - intros Hl. exfalso.
    assert (forall t, String.length (PyStr.lstrip t) <= String.length t) as Hlen.
    { induction t as [|a t IHt]; simpl; [lia|]. destruct (PyStr.isspace a); simpl; lia. }
    specialize (Hlen s). rewrite Hl in Hlen. simpl in Hlen. lia.
  - intros _. destruct (PyStr.rstrip s); simpl; by rewrite Hc.
Qed.

Lemma lstrip_idem s : PyStr.lstrip (PyStr.lstrip s) = PyStr.lstrip s.
Proof.
  induction s as [|c s IH]; [done|]. simpl.
  destruct (PyStr.isspace c) eqn:Hc; [done|]. simpl. by rewrite Hc.
Qed.

Lemma strip_idem s : PyStr.strip (PyStr.strip s) = PyStr.strip s.
Proof.
  unfold PyStr.strip.
  rewrite (lstrip_rstrip (PyStr.lstrip s)) by apply lstrip_idem.
  apply rstrip_idem.
Qed.

Lemma strip_collapse_normal text :
  let r := PyStr.strip (PyStr.collapse_ws false text) in
  PyStr.strip r = r /\ PyStr.collapse_ws false r = r /\ single_spaced true r = true.
Proof.
  intros r.
  assert (single_spaced true r = true) as Hs.
  { unfold r, PyStr.strip. apply rstrip_single_spaced.
    apply (lstrip_single_spaced false), collapse_ws_single_spaced. }
  split; [apply strip_idem|]. split; [|done].
  by apply single_spaced_collapse_ws, single_spaced_weaken.
Qed.

(** The texts that [_extract_clean_text] and [_extract_complete_body_text]
    return are whitespace-normalised: they hold no whitespace but single
    spaces between other characters, so that stripping them or collapsing
    their whitespace once more changes nothing. *)
Theorem clean_text_normalised soup :
  (let r := fst (WebScraperForLLM._extract_clean_text soup) in
   PyStr.strip r = r /\ PyStr.collapse_ws false r = r /\ single_spaced true r = true) /\
  (let r := fst (CompleteTextWebScraper._extract_complete_body_text soup) in
   PyStr.strip r = r /\ PyStr.collapse_ws false r = r /\ single_spaced true r = true).
Proof. split; apply strip_collapse_normal. Qed.

(** ** What the extractors of [WebScraperForLLM] return *)

Lemma truthy_nonempty s : PyStr.truthy s = true <-> s <> EmptyString.
Proof.
  unfold PyStr.truthy. rewrite negb_true_iff. split.
  - intros Hs ->. done.
  - intros Hs. by apply String.eqb_neq.
Qed.

Lemma Forall_flat_map_intro {A B : Type} (P : B -> Prop) (f : A -> list B) (l : list A) :
  (forall x, x ∈ l -> Forall P (f x)) -> Forall P (flat_map f l).
Proof.
  intros Hall. apply Forall_flat_map, Forall_forall. intros x Hx. by apply Hall.
Qed.

Lemma faq_content_nonempty soup :
  Forall (fun f => WebScraperForLLM.question f <> EmptyString /\
                   WebScraperForLLM.answer f <> EmptyString)
    (WebScraperForLLM._extract_faq_content soup).
Proof.
  unfold WebScraperForLLM._extract_faq_content.
  apply Forall_flat_map_intro. intros selector _.
  apply Forall_flat_map_intro. intros section _.
  apply Forall_flat_map_intro. intros q _.
  unfold WebScraperForLLM.faq_of.
  destruct (PyStr.truthy (PyStr.strip (Soup.get_text (Soup.element q)))) eqn:Hq;
    [|constructor].
  simpl.
  match goal with |- Forall _ (if PyStr.truthy ?a then _ else _) =>
    destruct (PyStr.truthy a) eqn:Ha; [|constructor] end.
  constructor; [|constructor]. simpl. split; by apply truthy_nonempty.
Qed.

(** Every pair that [_extract_faq_content] returns has a question and an
    answer, and neither is empty. *)
Theorem faq_pairs_complete soup :
  Forall (fun f => WebScraperForLLM.question f <> EmptyString /\
                   WebScraperForLLM.answer f <> EmptyString)
    (WebScraperForLLM._extract_faq_content soup).
Proof. apply faq_content_nonempty. Qed.

Lemma first_text_nonempty soup selector_list text :
  WebScraperForLLM.first_text soup selector_list = Some text -> text <> EmptyString.
Proof.
  induction selector_list as [|selector rest IH]; [done|]. simpl.
  destruct (negb _ && PyStr.truthy _) eqn:Hc; [|done].
  intros [= <-]. apply andb_true_iff in Hc as [_ Ht]. by apply truthy_nonempty.
Qed.

(** [_extract_product_info] returns at most one entry for each of the keys
    [description], [features], [price] and [specifications], in this order,
    and no entry has an empty text. *)
Theorem product_info_entries soup :
  sublist (map fst (WebScraperForLLM._extract_product_info soup))
    ["description"; "features"; "price"; "specifications"] /\
  Forall (fun kv : string * string => kv.2 <> EmptyString)
    (WebScraperForLLM._extract_product_info soup).
Proof.
  unfold WebScraperForLLM._extract_product_info, WebScraperForLLM.product_selectors.
  cbn [flat_map].
  repeat match goal with
         | |- context [WebScraperForLLM.first_text soup ?l] =>
             let H := fresh "Hfirst" in
             destruct (WebScraperForLLM.first_text soup l) eqn:H;
             [apply first_text_nonempty in H|]
         end;
    (split; [cbn; repeat (first [apply sublist_skip | apply sublist_cons | apply sublist_nil])
            | repeat (apply List.Forall_cons; [first [assumption | done]|]);
              apply List.Forall_nil]).
Qed.

(** [_extract_contact_info] returns at most the entries [email] and
    [phone], in this order, each with one, two or three matches. *)
Theorem contact_info_entries `{!Regex} soup :
  sublist (map fst (WebScraperForLLM._extract_contact_info soup)) ["email"; "phone"] /\
  Forall (fun kv : string * list (list string) => 1 <= length kv.2 <= 3)
    (WebScraperForLLM._extract_contact_info soup).
Proof.
  unfold WebScraperForLLM._extract_contact_info, WebScraperForLLM.contact_patterns.
  cbn [flat_map].
  assert (forall l : list (list string), l <> [] -> 1 <= length (take 3 l) <= 3) as Hlen.
  { intros l Hl. rewrite length_take. destruct l; [done|]. cbn [length]. lia. }
  repeat match goal with
         | |- context [bool_decide (?l = [])] =>
             let H := fresh "Hfound" in
             destruct (bool_decide (l = [])) eqn:H;
             [|apply bool_decide_eq_false in H; apply Hlen in H]
         end;
    (split; [cbn; repeat (first [apply sublist_skip | apply sublist_cons | apply sublist_nil])
            | repeat (apply List.Forall_cons; [first [assumption | done]|]);
              apply List.Forall_nil]).
Qed.

Lemma set_of_list_spec l :
  NoDup (WebScraperForLLM.set_of_list l) /\
  forall u, u ∈ WebScraperForLLM.set_of_list l <-> u ∈ l.
Proof.
  unfold WebScraperForLLM.set_of_list.
  assert (forall acc : pyset,
            NoDup acc ->
            NoDup (fold_left (fun s x => set_add x s) l acc) /\
            forall u, u ∈ fold_left (fun s x => set_add x s) l acc <-> u ∈ acc \/ u ∈ l)
    as Hgen.
  { induction l as [|x l IH]; intros acc Hacc; simpl.
    - split; [done|]. intros u. rewrite elem_of_nil. tauto.
    - destruct (IH (set_add x acc) (set_add_NoDup x acc Hacc)) as [Hnd Hin].
      split; [done|]. intros u. rewrite Hin, set_add_elem, elem_of_cons. tauto. }
  destruct (Hgen [] (NoDup_nil_2)) as [Hnd Hin]. split; [done|].
  intros u. rewrite Hin, elem_of_nil. tauto.
Qed.

(** With a list that holds the elements of the set,
    [_extract_navigation_text] returns no text twice and no empty text. *)
Theorem navigation_text_distinct `{!SetOrder} (law : SetOrderLaw) soup :
  NoDup (WebScraperForLLM._extract_navigation_text soup) /\
  Forall (fun text => text <> EmptyString) (WebScraperForLLM._extract_navigation_text soup).
Proof.
  unfold WebScraperForLLM._extract_navigation_text.
  match goal with |- context [WebScraperForLLM.set_of_list ?l] => set (nav_text := l) end.
  destruct (set_of_list_spec nav_text) as [Hnd Hin].
  rewrite (law (WebScraperForLLM.set_of_list nav_text)). split; [done|].
  apply Forall_forall. intros text Ht. apply Hin in Ht.
  assert (Forall (fun t => t <> EmptyString) nav_text) as Hall.
  { unfold nav_text. apply Forall_flat_map_intro. intros selector _.
    apply Forall_flat_map_intro. intros nav _.
    apply Forall_forall. intros t Hx.
    apply list_elem_of_In, filter_In in Hx as [_ Hx]. by apply truthy_nonempty. }
  rewrite Forall_forall in Hall. auto.
Qed.

Lemma length_append s t : String.length (s +:+ t) = String.length s + String.length t.
Proof. induction s as [|c s IH]; [done|]. rewrite append_cons. simpl. by rewrite IH. Qed.

Lemma join_length_bound sep l n :
  l <> [] -> Forall (fun x => n < String.length x) l ->
  n < String.length (PyStr.join sep l).
Proof.
  induction l as [|x l IH]; [done|]. intros _ Hall.
  apply Forall_cons in Hall as [Hx Hall]. simpl.
  destruct l as [|y l]; [done|].
  rewrite !length_append. lia.
Qed.

(** [_extract_main_content] returns the empty string or a text of more
    than 100 characters. *)
Theorem main_content_substantial soup :
  WebScraperForLLM._extract_main_content soup = EmptyString \/
  100 < String.length (WebScraperForLLM._extract_main_content soup).
Proof.
  unfold WebScraperForLLM._extract_main_content.
  match goal with |- context [PyStr.join " " ?l] => set (content_text := l) end.
  destruct content_text as [|x rest] eqn:Hc; [by left|right].
  rewrite <- Hc. apply join_length_bound; [by rewrite Hc|].
  unfold content_text. apply Forall_flat_map_intro. intros selector _.
  apply Forall_forall. intros text Ht.
  apply list_elem_of_In, filter_In in Ht as [_ Ht]. by apply Nat.ltb_lt.
Qed.

(** ** [scrape_multiple_urls] and [create_llm_training_format] *)

Section MoreOnScraping.
Context {World : Type} (R : Requests World) (C : Clock World) `{!UrlLib} `{!HtmlParser}
  `{!SetOrder} `{!Regex}.

Local Abbreviation scrape_page :=
  (@WebScraperForLLM.scrape_page World R C _ _ _ _).
Local Abbreviation counted_scrape_page :=
  (@WebScraperForLLM.scrape_page (World * nat) (counting R) (counting_clock C) _ _ _ _).
Local Abbreviation scrape_multiple_urls :=
  (@WebScraperForLLM.scrape_multiple_urls World R C _ _ _ _).
Local Abbreviation counted_scrape_multiple_urls :=
  (@WebScraperForLLM.scrape_multiple_urls (World * nat) (counting R) (counting_clock C)
     _ _ _ _).

(** A record that [scrape_page] returns holds what the extractors return
    on the parsed answer. *)
Lemma scrape_page_record url w data w' :
  scrape_page url w = (Some data, w') ->
  WebScraperForLLM.data_url data = url /\
  exists soup links,
    WebScraperForLLM._extract_links soup url = Some links /\
    WebScraperForLLM.data_links data = links /\
    WebScraperForLLM.data_faq_content data = WebScraperForLLM._extract_faq_content soup /\
    WebScraperForLLM.data_product_info data = WebScraperForLLM._extract_product_info soup /\
    WebScraperForLLM.data_main_content data = WebScraperForLLM._extract_main_content soup /\
    WebScraperForLLM.data_clean_text data = fst (WebScraperForLLM._extract_clean_text soup).
Proof.
  unfold WebScraperForLLM.scrape_page.
  destruct (session_get w url) as [w1 [response|]]; [|done].
  destruct (raise_for_status response); [done|].
  destruct (datetime_now w1) as [w2 timestamp].
  unfold WebScraperForLLM.extract_fields.
  destruct (WebScraperForLLM._extract_links _ url) as [links|] eqn:Hl; [|done].
  intros [= <- _]. simpl. split; [done|]. eauto 10.
Qed.



End MoreOnScraping.

Lemma slice_to_length n s : String.length (PyStr.slice_to n s) <= n.
Proof.
  revert s. induction n as [|n IH]; intros [|c s]; simpl; try lia.
  specialize (IH s). lia.
Qed.

Lemma summary_output_spec main_content :
  String.length (WebScraperForLLM.summary_output main_content) <= 503 /\
  (String.length main_content <= 500 ->
   WebScraperForLLM.summary_output main_content = main_content) /\
  (main_content <> EmptyString ->
   WebScraperForLLM.summary_output main_content <> EmptyString).
Proof.
  unfold WebScraperForLLM.summary_output.
  destruct (500 <? String.length main_content) eqn:Hlen.
  - apply Nat.ltb_lt in Hlen. split; [|split].
    + rewrite length_append. pose proof (slice_to_length 500 main_content).
      change (String.length "...") with 3. lia.
    + lia.
    + intros _ Hs. apply (f_equal String.length) in Hs.
      rewrite length_append in Hs.
      change (String.length "...") with 3 in Hs.
      change (String.length EmptyString) with 0 in Hs. lia.
  - apply Nat.ltb_ge in Hlen. split; [lia|]. split; done.
Qed.

Lemma examples_origin scraped_data e :
  e ∈ WebScraperForLLM.training_data scraped_data ->
  exists item,
    item ∈ scraped_data /\
    WebScraperForLLM.ex_source_url e = WebScraperForLLM.data_url item /\
    ((WebScraperForLLM.ex_type e = "faq" /\
      exists f, f ∈ WebScraperForLLM.data_faq_content item /\
                WebScraperForLLM.ex_input e = WebScraperForLLM.question f /\
                WebScraperForLLM.ex_output e = WebScraperForLLM.answer f) \/
     (WebScraperForLLM.ex_type e = "page_summary" /\
      WebScraperForLLM.ex_input e =
        "What can you tell me about " +:+ WebScraperForLLM.data_title item +:+ "?" /\
      WebScraperForLLM.data_title item <> EmptyString /\
      WebScraperForLLM.data_main_content item <> EmptyString /\
      WebScraperForLLM.ex_output e <> EmptyString /\
      String.length (WebScraperForLLM.ex_output e) <= 503 /\
      (String.length (WebScraperForLLM.data_main_content item) <= 500 ->
       WebScraperForLLM.ex_output e = WebScraperForLLM.data_main_content item)) \/
     (WebScraperForLLM.ex_type e = "product_info" /\
      exists key,
        (key, WebScraperForLLM.ex_output e) ∈ WebScraperForLLM.data_product_info item /\
        WebScraperForLLM.ex_input e =
          "Tell me about the " +:+ key +:+ " of this product/service" /\
        WebScraperForLLM.ex_output e <> EmptyString)).
Proof.
  unfold WebScraperForLLM.training_data.
  rewrite list_elem_of_In, in_flat_map.
  intros (item & Hitem & He). exists item. apply list_elem_of_In in Hitem.
  split; [done|]. apply list_elem_of_In in He.
  unfold WebScraperForLLM.examples_of in He.
  apply elem_of_app in He as [He|He]; [|apply elem_of_app in He as [He|He]].
  - apply list_elem_of_fmap in He as (f & -> & Hf). simpl. split; [done|].
    left. split; [done|]. eauto.
  - destruct (PyStr.truthy (WebScraperForLLM.data_title item)) eqn:Ht; simpl in He;
      [|by apply elem_of_nil in He].
    destruct (PyStr.truthy (WebScraperForLLM.data_main_content item)) eqn:Hm;
      [|by apply elem_of_nil in He].
    apply list_elem_of_singleton in He as ->. simpl. split; [done|].
    right. left. apply truthy_nonempty in Ht, Hm.
    destruct (summary_output_spec (WebScraperForLLM.data_main_content item))
      as (Hlen & Hshort & Hne).
    repeat split; auto.
  - apply list_elem_of_In, in_flat_map in He as ([key value] & Hkv & He).
    destruct (PyStr.truthy value) eqn:Hv; [|done].
    destruct He as [<-|[]]. simpl. split; [done|].
    right. right. split; [done|]. exists key.
    split; [by apply list_elem_of_In|]. split; [done | by apply truthy_nonempty].
Qed.

(** Every training example comes from a record of [scraped_data] and
    carries its URL.  It is the question and the answer of one of its FAQ
    entries; or the page summary of a record with a title and a main
    content, whose output is not empty, has at most 503 characters, and is
    the main content itself when that has at most 500; or one of its
    product information entries with a text that is not empty. *)
Theorem training_examples_sound scraped_data e :
  e ∈ WebScraperForLLM.training_data scraped_data ->
  exists item,
    item ∈ scraped_data /\
    WebScraperForLLM.ex_source_url e = WebScraperForLLM.data_url item /\
    ((WebScraperForLLM.ex_type e = "faq" /\
      exists f, f ∈ WebScraperForLLM.data_faq_content item /\
                WebScraperForLLM.ex_input e = WebScraperForLLM.question f /\
                WebScraperForLLM.ex_output e = WebScraperForLLM.answer f) \/
     (WebScraperForLLM.ex_type e = "page_summary" /\
      WebScraperForLLM.ex_input e =
        "What can you tell me about " +:+ WebScraperForLLM.data_title item +:+ "?" /\
      WebScraperForLLM.data_title item <> EmptyString /\
      WebScraperForLLM.data_main_content item <> EmptyString /\
      WebScraperForLLM.ex_output e <> EmptyString /\
      String.length (WebScraperForLLM.ex_output e) <= 503 /\
      (String.length (WebScraperForLLM.data_main_content item) <= 500 ->
       WebScraperForLLM.ex_output e = WebScraperForLLM.data_main_content item)) \/
     (WebScraperForLLM.ex_type e = "product_info" /\
      exists key,
        (key, WebScraperForLLM.ex_output e) ∈ WebScraperForLLM.data_product_info item /\
        WebScraperForLLM.ex_input e =
          "Tell me about the " +:+ key +:+ " of this product/service" /\
        WebScraperForLLM.ex_output e <> EmptyString)).
Proof. apply examples_origin. Qed.

(** No example made of scraped pages has an empty input or an empty
    output. *)
Theorem scraped_examples_nonempty {World : Type} `{!Requests World} `{!Clock World}
    `{!UrlLib} `{!HtmlParser} `{!SetOrder} `{!Regex} urls (w : World) :
  Forall (fun e => WebScraperForLLM.ex_input e <> EmptyString /\
                   WebScraperForLLM.ex_output e <> EmptyString)
    (WebScraperForLLM.training_data
       (fst (WebScraperForLLM.scrape_multiple_urls urls [] w))).
Proof.
  assert (forall urls scraped_data (w : World),
            Forall (fun item =>
                      Forall (fun f => WebScraperForLLM.question f <> EmptyString /\
                                       WebScraperForLLM.answer f <> EmptyString)
                        (WebScraperForLLM.data_faq_content item)) scraped_data ->
            Forall (fun item =>
                      Forall (fun f => WebScraperForLLM.question f <> EmptyString /\
                                       WebScraperForLLM.answer f <> EmptyString)
                        (WebScraperForLLM.data_faq_content item))
              (fst (WebScraperForLLM.scrape_multiple_urls urls scraped_data w))) as Hfaq.
  { clear urls w. induction urls as [|url urls IH]; intros scraped_data w Hall; [done|].
    simpl. destruct (WebScraperForLLM.scrape_page url w) as [[data|] w'] eqn:Hp.
    - apply IH. apply Forall_app. split; [done|]. constructor; [|constructor].
      apply scrape_page_record in Hp as (_ & soup & links & _ & _ & -> & _).
      apply faq_content_nonempty.
    - by apply IH. }
  specialize (Hfaq urls [] w (Forall_nil_2 _)).
  apply Forall_forall. intros e He.
  apply examples_origin in He
    as (item & Hitem & _ &
        [(_ & f & Hf & -> & ->)|[(_ & -> & _ & _ & Hout & _)|(_ & key & _ & -> & Hout)]]).
  - rewrite Forall_forall in Hfaq. specialize (Hfaq item Hitem).
    rewrite Forall_forall in Hfaq. by apply Hfaq.
  - split; [|done]. intros Hs. apply (f_equal String.length) in Hs.
    rewrite !length_append in Hs. simpl in Hs. lia.
  - split; [|done]. intros Hs. apply (f_equal String.length) in Hs.
    rewrite !length_append in Hs. simpl in Hs. lia.
Qed.

(** ** The caller in analyze_training_data.py *)

Lemma sublist_elem {A : Type} (l1 l2 : list A) x : sublist l1 l2 -> x ∈ l1 -> x ∈ l2.
Proof.
  induction 1 as [|y l1 l2 _ IH|y l1 l2 _ IH]; [done| |].
  - intros [->|Hx]%elem_of_cons; [by left | right; auto].
  - intros Hx. right. auto.
Qed.

Lemma filter_NoDup {A : Type} (f : A -> bool) (l : list A) : NoDup l -> NoDup (List.filter f l).
Proof. intros Hnd. eapply sublist_NoDup; [exact Hnd | apply filter_sublist]. Qed.

Section MoreOnCallers.
Context {World : Type} `{!Requests World} `{!Clock World} `{!UrlLib} `{!HtmlParser}
  `{!SetOrder} `{!Regex}.

Lemma scrape_multiple_urls_sublist urls scraped_data (w : World) :
  exists added,
    fst (WebScraperForLLM.scrape_multiple_urls urls scraped_data w) = scraped_data ++ added /\
    sublist (map WebScraperForLLM.data_url added) urls.
Proof.
  revert scraped_data w. induction urls as [|url urls IH]; intros scraped_data w; simpl.
  - exists []. by rewrite app_nil_r.
  - destruct (WebScraperForLLM.scrape_page url w) as [[data|] w'] eqn:Hp.
    + destruct (IH (scraped_data ++ [data]) w') as (added & -> & Hsub).
      exists (data :: added). split; [by rewrite <- app_assoc|].
      apply scrape_page_record in Hp as [<- _]. simpl. by apply sublist_skip.
    + destruct (IH scraped_data w') as (added & -> & Hsub).
      exists added. split; [done|]. by apply sublist_cons.
Qed.

Lemma discover_urls_in_NoDup (law : SetOrderLaw) base_url start max_depth fuel
    (w : World) l w' :
  WebScraperForLLM.discover_urls_in base_url start max_depth fuel w = Returns (l, w') ->
  NoDup l.
Proof.
  unfold WebScraperForLLM.discover_urls_in.
  destruct (while _ fuel _) as [s| |] eqn:Hw; [|done..].
  intros [= <- _]. rewrite (law (discovered_urls s)).
  apply while_returns in Hw as [Hr _]. by eapply urls_NoDup.
Qed.

Lemma eagles_pages_facts :
  NoDup AnalyzeTrainingData.eagles_pages /\
  length AnalyzeTrainingData.eagles_pages = 7 /\
  Forall (fun url => PyStr.contains AnalyzeTrainingData.EAGLES_WEBSITE url = true)
    AnalyzeTrainingData.eagles_pages.
Proof.
  split; [|split; [reflexivity|]].
  - apply (bool_decide_unpack _). vm_compute. exact I.
  - apply (bool_decide_unpack _). vm_compute. exact I.
Qed.

Lemma additional_urls_facts discovered :
  NoDup discovered ->
  NoDup (AnalyzeTrainingData.additional_urls discovered) /\
  forall url,
    url ∈ AnalyzeTrainingData.additional_urls discovered ->
    (url ∉ AnalyzeTrainingData.eagles_pages) /\
    PyStr.contains AnalyzeTrainingData.EAGLES_WEBSITE url = true.
Proof.
  intros Hnd. split; [by apply filter_NoDup|].
  intros url Hu. apply list_elem_of_In, filter_In in Hu as [_ Hu].
  apply andb_true_iff in Hu as [Hc Hn]. split; [|done].
  apply negb_true_iff, bool_decide_eq_false in Hn. done.
Qed.

(** [scrape_eagles_team_experiences] returns at most 17 records, no two of
    them for the same URL, and every one for a URL that contains
    [EAGLES_WEBSITE]. *)
Theorem eagles_records (law : SetOrderLaw) fuel (w : World) scraped_data w' :
  AnalyzeTrainingData.scrape_eagles_team_experiences fuel w = Returns (scraped_data, w') ->
  length scraped_data <= 17 /\
  NoDup (map WebScraperForLLM.data_url scraped_data) /\
  Forall (fun data =>
            PyStr.contains AnalyzeTrainingData.EAGLES_WEBSITE
              (WebScraperForLLM.data_url data) = true) scraped_data.
Proof.
  unfold AnalyzeTrainingData.scrape_eagles_team_experiences.
  destruct (scrape_multiple_urls_sublist AnalyzeTrainingData.eagles_pages [] w)
    as (first & Hfirst & Hsub1).
  destruct (WebScraperForLLM.scrape_multiple_urls AnalyzeTrainingData.eagles_pages [] w)
    as [scraped1 w1].
  simpl in Hfirst. subst scraped1.
  destruct eagles_pages_facts as (Hpages & Hseven & Hbase).
  destruct (WebScraperForLLM.discover_urls_in _ _ 1 fuel w1) as [[discovered w2]| |] eqn:Hd;
    [|done..].
  apply (discover_urls_in_NoDup law) in Hd.
  destruct (additional_urls_facts discovered Hd) as [Hmore Hfilter].
  assert (length first <= 7) as Hlen1.
  { rewrite <- Hseven, <- (length_map WebScraperForLLM.data_url). by apply sublist_length. }
  assert (NoDup (map WebScraperForLLM.data_url first)) as Hnd1
    by exact (sublist_NoDup _ _ Hpages Hsub1).
  assert (Forall (fun data =>
                    PyStr.contains AnalyzeTrainingData.EAGLES_WEBSITE
                      (WebScraperForLLM.data_url data) = true) first) as Hin1.
  { apply Forall_forall. intros data Hdata. rewrite Forall_forall in Hbase.
    apply Hbase. eapply sublist_elem; [exact Hsub1|].
    apply list_elem_of_fmap. eauto. }
  destruct (AnalyzeTrainingData.additional_urls discovered) as [|url more] eqn:Heq.
  { intros [= <- _]. split; [lia|]. split; done. }
  rewrite <- Heq in *. clear Heq url more.
  destruct (scrape_multiple_urls_sublist
              (take 10 (AnalyzeTrainingData.additional_urls discovered)) first w2)
    as (second & Hsecond & Hsub2).
  destruct (WebScraperForLLM.scrape_multiple_urls _ first w2) as [scraped2 w3].
  simpl in Hsecond. intros [= <- _]. subst scraped2.
  assert (forall url, url ∈ map WebScraperForLLM.data_url second ->
                      url ∈ AnalyzeTrainingData.additional_urls discovered) as Hin2.
  { intros url Hu. eapply sublist_elem; [apply sublist_take|].
    eapply sublist_elem; [exact Hsub2 | exact Hu]. }
  split; [|split].
  - rewrite length_app.
    assert (length second <= 10); [|lia].
    rewrite <- (length_map WebScraperForLLM.data_url).
    etrans; [by apply sublist_length|]. rewrite length_take. lia.
  - rewrite map_app. apply NoDup_app. split; [done|]. split.
    + intros url Hu1 Hu2. apply Hin2, Hfilter in Hu2 as [Hnot _]. apply Hnot.
      by eapply sublist_elem.
    + eapply sublist_NoDup; [|exact Hsub2].
      eapply sublist_NoDup; [exact Hmore | apply sublist_take].
  - apply Forall_app. split; [done|].
    apply Forall_forall. intros data Hdata.
    apply (Hfilter (WebScraperForLLM.data_url data)). apply Hin2.
    apply list_elem_of_fmap. eauto.
Qed.

End MoreOnCallers.

(** ** The other extractors of [CompleteTextWebScraper] *)

Lemma filter_truthy_nonempty l :
  Forall (fun s => s <> EmptyString) (List.filter PyStr.truthy l).
Proof.
  apply Forall_forall. intros s Hs.
  apply list_elem_of_In, filter_In in Hs as [_ Hs]. by apply truthy_nonempty.
Qed.

Lemma filter_length_or {A : Type} (f g : A -> bool) (l : list A) :
  (forall x, f x && g x = false) ->
  length (List.filter (fun x => f x || g x) l) =
  length (List.filter f l) + length (List.filter g l).
Proof.
  intros Hfg. induction l as [|x l IH]; [done|]. simpl.
  specialize (Hfg x). destruct (f x), (g x); simpl in *; try done; lia.
Qed.

Lemma named_cons a names n :
  Soup.named (a :: names) n = Soup.named [a] n || Soup.named names n.
Proof. destruct n; simpl; [done|]. by rewrite orb_false_r. Qed.

Lemma named_apart a names n :
  a ∉ names -> Soup.named [a] n && Soup.named names n = false.
Proof.
  intros Ha. destruct n as [|name attrs cs]; simpl; [done|]. rewrite orb_false_r.
  destruct (String.eqb name a) eqn:E; [|done]. apply String.eqb_eq in E as ->. simpl.
  apply not_true_iff_false. intros (x & Hx & E)%existsb_exists.
  apply String.eqb_eq in E as <-. by apply Ha, list_elem_of_In.
Qed.

(** The tags with one of several names, counted name by name. *)
Lemma find_all_count names d :
  NoDup names ->
  length (Soup.find_all names d) =
  list_sum (map (fun name => length (Soup.find_all [name] d)) names).
Proof.
  unfold Soup.find_all. generalize (Soup.nodes d) as l. intros l.
  induction 1 as [|a names Ha Hnd IH]; simpl.
  - induction l as [|n l IHl]; [done|]. simpl. by destruct n.
  - rewrite <- IH.
    rewrite <- (filter_length_or _ _ l (fun n => named_apart a names n Ha)).
    f_equal. apply filter_ext. intros n. apply named_cons.
Qed.

Lemma headings_in_level_order (texts : string -> list string) levels :
  StronglySorted (fun a b => String.leb a b = true) levels ->
  StronglySorted (fun a b : string * string => String.leb a.1 b.1 = true)
    (flat_map (fun level => map (fun text => (level, text)) (texts level)) levels).
Proof.
  induction 1 as [|level levels Hs IH Hle]; simpl; [constructor|].
  induction (texts level) as [|text others IHr]; simpl; [done|].
  constructor; [done|]. apply Forall_app. split.
  - apply Forall_forall. intros [l t] [? [[= -> ->] _]]%list_elem_of_fmap. simpl.
    by destruct (String.leb_total level level).
  - apply Forall_forall. intros [l t] Hin. simpl.
    apply list_elem_of_In, in_flat_map in Hin as (l' & Hl' & Hin).
    apply in_map_iff in Hin as (t' & [= <- <-] & _).
    rewrite List.Forall_forall in Hle. by apply Hle.
Qed.

Lemma all_headings_by_level_parts soup :
  StronglySorted (fun a b : string * string => String.leb a.1 b.1 = true)
    (CompleteTextWebScraper._extract_all_headings soup) /\
  Forall (fun h : string * string =>
            (h.1 ∈ WebScraperForLLM.heading_names) /\
            h.2 <> EmptyString /\ PyStr.strip h.2 = h.2)
    (CompleteTextWebScraper._extract_all_headings soup).
Proof.
  unfold CompleteTextWebScraper._extract_all_headings. split.
  - apply headings_in_level_order. unfold WebScraperForLLM.heading_names.
    repeat (constructor; [|repeat (constructor; [reflexivity|]); constructor]).
    constructor.
  - apply Forall_forall. intros [l t] Hin.
    apply list_elem_of_In, in_flat_map in Hin as (l' & Hl' & Hin).
    apply in_map_iff in Hin as (t' & [= <- <-] & Hin).
    apply filter_In in Hin as [Hin Ht]. simpl.
    split; [by apply list_elem_of_In|]. split; [by apply truthy_nonempty|].
    apply in_map_iff in Hin as (n & <- & _). apply strip_idem.
Qed.

(** [_extract_all_headings] lists the headings level by level, from [h1]
    to [h6], and not in the order of the document; no entry has an empty
    text, and there are at most as many entries as heading tags. *)
Theorem all_headings_by_level soup :
  let headings := CompleteTextWebScraper._extract_all_headings soup in
  StronglySorted (fun a b : string * string => String.leb a.1 b.1 = true) headings /\
  Forall (fun h : string * string =>
            (h.1 ∈ WebScraperForLLM.heading_names) /\
            h.2 <> EmptyString /\ PyStr.strip h.2 = h.2) headings /\
  length headings <= length (Soup.find_all WebScraperForLLM.heading_names soup).
Proof.
  cbv zeta. destruct (all_headings_by_level_parts soup) as [Hsorted Hall].
  split; [done|]. split; [done|]. clear Hsorted Hall.
  unfold CompleteTextWebScraper._extract_all_headings.
  rewrite find_all_count.
  2:{ apply (bool_decide_unpack _). vm_compute. exact I. }
  induction WebScraperForLLM.heading_names as [|level levels IH]; [done|].
  simpl. rewrite length_app, length_map.
  pose proof (filter_length PyStr.truthy
                (map CompleteTextWebScraper.text_of (Soup.find_all [level] soup))) as Hf.
  rewrite length_map in Hf. lia.
Qed.

(** [get_summary_stats] returns the empty dictionary exactly when nothing
    has been scraped; otherwise it counts the records, lists one URL per
    record, and the average is the whole part of the words per page. *)
Theorem summary_stats_average scraped_data :
  match CompleteTextWebScraper.get_summary_stats scraped_data with
  | None => scraped_data = []
  | Some stats =>
      CompleteTextWebScraper.total_pages stats = length scraped_data /\
      0 < CompleteTextWebScraper.total_pages stats /\
      length (CompleteTextWebScraper.urls_scraped stats)
        = CompleteTextWebScraper.total_pages stats /\
      CompleteTextWebScraper.average_words_per_page stats
        * CompleteTextWebScraper.total_pages stats
        <= CompleteTextWebScraper.summary_total_words stats /\
      CompleteTextWebScraper.summary_total_words stats
        < (CompleteTextWebScraper.average_words_per_page stats + 1)
          * CompleteTextWebScraper.total_pages stats
  end.
Proof.
  destruct scraped_data as [|item rest]; [done|].
  unfold CompleteTextWebScraper.get_summary_stats.
  set (data := item :: rest).
  assert (0 < length data) as Hpos by (simpl; lia).
  cbn [CompleteTextWebScraper.total_pages CompleteTextWebScraper.urls_scraped
       CompleteTextWebScraper.average_words_per_page
       CompleteTextWebScraper.summary_total_words].
  generalize (CompleteTextWebScraper.sum_of CompleteTextWebScraper.total_words data) as words.
  intros words. rewrite length_map.
  split; [done|]. split; [done|]. split; [done|].
  pose proof (Nat.div_mod_eq words (length data)) as Hdiv.
  pose proof (Nat.mod_upper_bound words (length data)) as Hmod.
  nia.
Qed.

(** ** The records of [CompleteTextWebScraper.scrape_page] *)

Lemma all_paragraphs_long soup :
  Forall (fun text => 10 < String.length text)
    (CompleteTextWebScraper._extract_all_paragraphs soup).
Proof.
  apply Forall_forall. intros text Ht.
  apply list_elem_of_In, filter_In in Ht as [_ Ht].
  apply andb_true_iff in Ht as [_ Ht]. by apply Nat.ltb_lt.
Qed.

Lemma all_lists_filled soup :
  Forall (fun entry : string * CompleteTextWebScraper.list_items =>
            match entry.2 with
            | CompleteTextWebScraper.Items items =>
                (entry.1 = "ul" \/ entry.1 = "ol") /\ items <> [] /\
                Forall (fun text => text <> EmptyString) items
            | CompleteTextWebScraper.Definitions terms_and_defs =>
                entry.1 = "dl" /\ terms_and_defs <> [] /\
                Forall (fun td : string * string => td.1 <> EmptyString) terms_and_defs
            end)
    (CompleteTextWebScraper._extract_all_lists soup).
Proof.
  unfold CompleteTextWebScraper._extract_all_lists. apply Forall_app. split.
  - apply Forall_flat_map_intro. intros list_type Htype.
    apply Forall_flat_map_intro. intros list_elem _.
    pose proof (filter_truthy_nonempty
                  (map CompleteTextWebScraper.text_of
                     (Soup.find_all ["li"] (Soup.children list_elem)))) as Hne.
    destruct (List.filter _ _) as [|item items]; [constructor|].
    constructor; [|constructor]. simpl. split; [|done].
    apply elem_of_cons in Htype as [->|Htype]; [by left|].
    apply list_elem_of_singleton in Htype as ->. by right.
  - apply Forall_flat_map_intro. intros dl _.
    assert (Forall (fun td : string * string => td.1 <> EmptyString)
              (flat_map CompleteTextWebScraper.term_of (Soup.find_all_below ["dt"] dl)))
      as Hne.
    { apply Forall_flat_map_intro. intros dt _. unfold CompleteTextWebScraper.term_of.
      destruct (PyStr.truthy _) eqn:Ht; [|constructor].
      constructor; [|constructor]. by apply truthy_nonempty. }
    destruct (flat_map _ _) as [|td tds]; [constructor|].
    constructor; [|constructor]. simpl. done.
Qed.

Lemma all_tables_filled soup :
  Forall (fun table =>
            (CompleteTextWebScraper.table_headers table <> [] \/
             CompleteTextWebScraper.table_rows table <> []) /\
            Forall (fun row => Exists (fun cell => cell <> EmptyString) row)
              (CompleteTextWebScraper.table_rows table))
    (CompleteTextWebScraper._extract_all_tables soup).
Proof.
  unfold CompleteTextWebScraper._extract_all_tables.
  apply Forall_flat_map_intro. intros table _.
  set (headers := map _ (Soup.find_all ["th"] _)).
  set (rows := List.filter _ _).
  assert (Forall (fun row => Exists (fun cell => cell <> EmptyString) row) rows) as Hrows.
  { apply Forall_forall. intros row Hrow.
    apply list_elem_of_In, filter_In in Hrow as [_ Hrow].
    apply existsb_exists in Hrow as (cell & Hcell & Ht).
    apply Exists_exists. exists cell. split; [by apply list_elem_of_In|].
    by apply truthy_nonempty. }
  destruct headers as [|h hs], rows as [|r rs]; [constructor|..];
    (constructor; [|constructor]); simpl; (split; [|done]); auto.
Qed.

Lemma form_text_nonempty soup :
  Forall (fun text => text <> EmptyString) (CompleteTextWebScraper._extract_form_text soup).
Proof.
  assert (forall prefix text, "" <> prefix -> prefix +:+ text <> EmptyString) as Hpre.
  { intros [|c prefix] text Hp; [done|]. by rewrite append_cons. }
  unfold CompleteTextWebScraper._extract_form_text.
  repeat (apply Forall_app; split).
  - apply filter_truthy_nonempty.
  - apply Forall_flat_map_intro. intros input_elem _.
    unfold CompleteTextWebScraper.input_text. apply Forall_app. split.
    + destruct (PyStr.truthy _); repeat constructor. by apply Hpre.
    + destruct (_ && _); repeat constructor. by apply Hpre.
  - apply Forall_flat_map_intro. intros textarea _.
    unfold CompleteTextWebScraper.textarea_text. apply Forall_app. split.
    + destruct (PyStr.truthy _); repeat constructor. by apply Hpre.
    + destruct (PyStr.truthy _); repeat constructor. by apply Hpre.
  - apply filter_truthy_nonempty.
Qed.

Lemma button_text_nonempty soup :
  Forall (fun text => text <> EmptyString) (CompleteTextWebScraper._extract_button_text soup).
Proof.
  apply Forall_flat_map_intro. intros button _.
  unfold CompleteTextWebScraper.button_text.
  destruct (_ && _); [constructor|].
  destruct (PyStr.truthy (CompleteTextWebScraper.text_of button)) eqn:Ht.
  { constructor; [|constructor]. by apply truthy_nonempty. }
  destruct (PyStr.truthy (CompleteTextWebScraper.attr_of button "value")) eqn:Hv;
    [|constructor].
  constructor; [|constructor]. by apply truthy_nonempty.
Qed.

Lemma link_text_loop_spec `{!UrlLib} base_url anchors acc links :
  CompleteTextWebScraper.link_text_loop base_url anchors acc = Some links ->
  exists added,
    links = acc ++ added /\
    length added <= length anchors /\
    Forall (fun l => CompleteTextWebScraper.lt_text l <> EmptyString \/
                     CompleteTextWebScraper.lt_title l <> EmptyString) added.
Proof.
  revert acc. induction anchors as [|a rest IH]; intros acc; simpl.
  { intros [= <-]. exists []. by rewrite app_nil_r. }
  destruct (_ || _) eqn:Hkeep.
  - destruct (urljoin base_url (Soup.href a)) as [full_url|]; [|done].
    intros (added & -> & Hlen & Hall)%IH.
    eexists (_ :: added). split; [by rewrite <- app_assoc|]. split; [simpl; lia|].
    constructor; [|done]. simpl.
    apply orb_true_iff in Hkeep as [Ht|Ht]; apply truthy_nonempty in Ht; auto.
  - intros (added & -> & Hlen & Hall)%IH. exists added. split; [done|]. split; [lia|done].
Qed.

Lemma data_attributes_spec soup :
  Forall (fun attr : string * string =>
            PyStr.startswith attr.1 "data-" = true /\ 3 < String.length attr.2 /\
            PyStr.strip attr.2 = attr.2)
    (CompleteTextWebScraper._extract_data_attributes soup).
Proof.
  apply Forall_flat_map_intro. intros elem _.
  apply Forall_flat_map_intro. intros [attr_name attr_value] _.
  destruct (_ && _) eqn:Hkeep; [|constructor].
  constructor; [|constructor]. simpl.
  apply andb_true_iff in Hkeep as [Hn Hv]. split; [done|].
  split; [by apply Nat.ltb_lt | apply strip_idem].
Qed.

Lemma structured_content_spec soup :
  map fst (CompleteTextWebScraper._extract_structured_content soup)
    = map snd CompleteTextWebScraper.sections /\
  Forall (fun entry : string * list string =>
            Forall (fun text => 20 < String.length text) entry.2)
    (CompleteTextWebScraper._extract_structured_content soup).
Proof.
  unfold CompleteTextWebScraper._extract_structured_content. split.
  - induction CompleteTextWebScraper.sections as [|[tag key] rest IH]; [done|].
    simpl. by rewrite IH.
  - apply Forall_forall. intros [key texts] Hin.
    apply list_elem_of_fmap in Hin as ([tag key'] & [= -> ->] & _). simpl.
    apply Forall_forall. intros text Ht.
    apply list_elem_of_In, filter_In in Ht as [_ Ht].
    apply andb_true_iff in Ht as [_ Ht]. by apply Nat.ltb_lt.
Qed.

Lemma split_ws_length cur s :
  length (PyStr.split_ws cur s) <= (if PyStr.truthy cur then 1 else 0) + String.length s.
Proof.
  revert cur. induction s as [|c s IH]; intros cur; simpl.
  - destruct (PyStr.truthy cur); simpl; lia.
  - destruct (PyStr.isspace c).
    + specialize (IH EmptyString). simpl in IH.
      destruct (PyStr.truthy cur); simpl; lia.
    + specialize (IH (cur +:+ String c EmptyString)).
      destruct (PyStr.truthy (cur +:+ String c EmptyString)), (PyStr.truthy cur); lia.
Qed.

Section CompleteRecords.
Context {World : Type} `{!Requests World} `{!Clock World} `{!UrlLib} `{!HtmlParser}.

(** A record that [scrape_page] returns holds what the extractors return
    on the parsed answer, each on the document that the calls before it
    have left. *)
Lemma complete_scrape_page_record base_url url (w : World) data w' :
  CompleteTextWebScraper.scrape_page base_url url w = (Some data, w') ->
  CompleteTextWebScraper.data_url data = url /\
  exists soup soup1 soup2,
    soup1 = snd (CompleteTextWebScraper._extract_complete_body_text soup) /\
    soup2 = snd (CompleteTextWebScraper._extract_all_visible_text soup1) /\
    CompleteTextWebScraper._extract_all_link_text base_url soup1
      = Some (CompleteTextWebScraper.data_all_link_text data) /\
    CompleteTextWebScraper.data_all_headings data
      = CompleteTextWebScraper._extract_all_headings soup /\
    CompleteTextWebScraper.data_complete_body_text data
      = fst (CompleteTextWebScraper._extract_complete_body_text soup) /\
    CompleteTextWebScraper.data_all_paragraph_text data
      = CompleteTextWebScraper._extract_all_paragraphs soup1 /\
    CompleteTextWebScraper.data_all_list_items data
      = CompleteTextWebScraper._extract_all_lists soup1 /\
    CompleteTextWebScraper.data_all_table_text data
      = CompleteTextWebScraper._extract_all_tables soup1 /\
    CompleteTextWebScraper.data_all_form_labels data
      = CompleteTextWebScraper._extract_form_text soup1 /\
    CompleteTextWebScraper.data_all_button_text data
      = CompleteTextWebScraper._extract_button_text soup1 /\
    CompleteTextWebScraper.data_alt_text data
      = CompleteTextWebScraper._extract_alt_text soup1 /\
    CompleteTextWebScraper.data_title_attributes data
      = CompleteTextWebScraper._extract_title_attributes soup1 /\
    CompleteTextWebScraper.data_data_attributes data
      = CompleteTextWebScraper._extract_data_attributes soup1 /\
    CompleteTextWebScraper.data_structured_content data
      = CompleteTextWebScraper._extract_structured_content soup2 /\
    CompleteTextWebScraper.data_page_statistics data
      = CompleteTextWebScraper._calculate_page_statistics soup2.
Proof.
  unfold CompleteTextWebScraper.scrape_page.
  destruct (session_get w url) as [w1 [response|]]; [|done].
  destruct (raise_for_status response); [done|].
  destruct (datetime_now w1) as [w2 timestamp].
  unfold CompleteTextWebScraper.extract_fields.
  destruct (CompleteTextWebScraper._extract_complete_body_text _) as [body soup1] eqn:Hb.
  destruct (CompleteTextWebScraper._extract_all_link_text base_url soup1)
    as [links|] eqn:Hl; [|done].
  destruct (CompleteTextWebScraper._extract_all_visible_text soup1) as [visible soup2] eqn:Hv.
  intros [= <- _].
  cbn [CompleteTextWebScraper.data_url CompleteTextWebScraper.data_all_headings
       CompleteTextWebScraper.data_complete_body_text
       CompleteTextWebScraper.data_all_paragraph_text
       CompleteTextWebScraper.data_all_list_items
       CompleteTextWebScraper.data_all_table_text
       CompleteTextWebScraper.data_all_form_labels
       CompleteTextWebScraper.data_all_button_text
       CompleteTextWebScraper.data_all_link_text
       CompleteTextWebScraper.data_alt_text
       CompleteTextWebScraper.data_title_attributes
       CompleteTextWebScraper.data_data_attributes
       CompleteTextWebScraper.data_structured_content
       CompleteTextWebScraper.data_page_statistics].
  split; [done|].
  exists (BeautifulSoup (content response)), soup1, soup2.
  rewrite Hb, Hv. cbn [fst snd]. by repeat split.
Qed.

(** No list of a record of [scrape_page] holds an empty entry: every
    heading, form text, button text, alternative text and title attribute
    is a text that is not empty; every paragraph has more than 10
    characters and every text of the structured content more than 20;
    every list has an item and every definition a term; every row of a
    table has a cell that is not empty; every link has a text or a title;
    every data attribute is named [data-...] and has a value of more than 3
    characters.  The structured content has its seven keys, and the body
    text is normalised. *)
Theorem complete_record_filled base_url url (w : World) data w' :
  CompleteTextWebScraper.scrape_page base_url url w = (Some data, w') ->
  CompleteTextWebScraper.data_url data = url /\
  Forall (fun h : string * string => h.2 <> EmptyString)
    (CompleteTextWebScraper.data_all_headings data) /\
  (PyStr.strip (CompleteTextWebScraper.data_complete_body_text data)
     = CompleteTextWebScraper.data_complete_body_text data /\
   single_spaced true (CompleteTextWebScraper.data_complete_body_text data) = true) /\
  Forall (fun text => 10 < String.length text)
    (CompleteTextWebScraper.data_all_paragraph_text data) /\
  Forall (fun entry : string * CompleteTextWebScraper.list_items =>
            match entry.2 with
            | CompleteTextWebScraper.Items items =>
                (entry.1 = "ul" \/ entry.1 = "ol") /\ items <> [] /\
                Forall (fun text => text <> EmptyString) items
            | CompleteTextWebScraper.Definitions terms_and_defs =>
                entry.1 = "dl" /\ terms_and_defs <> [] /\
                Forall (fun td : string * string => td.1 <> EmptyString) terms_and_defs
            end)
    (CompleteTextWebScraper.data_all_list_items data) /\
  Forall (fun table =>
            (CompleteTextWebScraper.table_headers table <> [] \/
             CompleteTextWebScraper.table_rows table <> []) /\
            Forall (fun row => Exists (fun cell => cell <> EmptyString) row)
              (CompleteTextWebScraper.table_rows table))
    (CompleteTextWebScraper.data_all_table_text data) /\
  Forall (fun text => text <> EmptyString)
    (CompleteTextWebScraper.data_all_form_labels data ++
     CompleteTextWebScraper.data_all_button_text data ++
     CompleteTextWebScraper.data_alt_text data ++
     CompleteTextWebScraper.data_title_attributes data) /\
  Forall (fun l => CompleteTextWebScraper.lt_text l <> EmptyString \/
                   CompleteTextWebScraper.lt_title l <> EmptyString)
    (CompleteTextWebScraper.data_all_link_text data) /\
  Forall (fun attr : string * string =>
            PyStr.startswith attr.1 "data-" = true /\ 3 < String.length attr.2 /\
            PyStr.strip attr.2 = attr.2)
    (CompleteTextWebScraper.data_data_attributes data) /\
  map fst (CompleteTextWebScraper.data_structured_content data)
    = ["nav_text"; "header_text"; "main_text"; "aside_text"; "footer_text";
       "article_text"; "section_text"] /\
  Forall (fun entry : string * list string =>
            Forall (fun text => 20 < String.length text) entry.2)
    (CompleteTextWebScraper.data_structured_content data) /\
  CompleteTextWebScraper.total_words (CompleteTextWebScraper.data_page_statistics data)
    <= CompleteTextWebScraper.total_characters
         (CompleteTextWebScraper.data_page_statistics data).
Proof.
  intros (Hurl & soup & soup1 & soup2 & _ & _ & Hlinks & -> & -> & -> & -> & -> & -> & ->
          & -> & -> & -> & -> & ->)%complete_scrape_page_record.
  split; [done|]. split.
  { destruct (all_headings_by_level_parts soup) as [_ Hh].
    eapply Forall_impl; [exact Hh|]. by intros h (_ & Hne & _). }
  split.
  { unfold CompleteTextWebScraper._extract_complete_body_text. cbn [fst].
    destruct (strip_collapse_normal
                (match Soup.find ["body"]
                         (Soup.prune_all CompleteTextWebScraper.comment_like
                            (Soup.decompose_all
                               CompleteTextWebScraper.removed_for_body_text soup)) with
                 | Some body => Soup.get_text_sep body
                 | None =>
                     Soup.soup_text_sep
                       (Soup.prune_all CompleteTextWebScraper.comment_like
                          (Soup.decompose_all
                             CompleteTextWebScraper.removed_for_body_text soup))
                 end)) as (Hs & _ & Hsp).
    done. }
  split; [apply all_paragraphs_long|].
  split; [apply all_lists_filled|].
  split; [apply all_tables_filled|].
  split.
  { apply Forall_app. split; [apply form_text_nonempty|].
    apply Forall_app. split; [apply button_text_nonempty|].
    apply Forall_app. split; apply filter_truthy_nonempty. }
  split.
  { apply link_text_loop_spec in Hlinks as (added & -> & _ & Hall). done. }
  split; [apply data_attributes_spec|].
  destruct (structured_content_spec soup2) as [Hkeys Hlong].
  split; [exact Hkeys|]. split; [exact Hlong|].
  cbn. apply (split_ws_length EmptyString).
Qed.

End CompleteRecords.

(** ** [scrape_entire_website] *)

Section WholeWebsite.
Context {World : Type} `{!Requests World} `{!Clock World} `{!UrlLib} `{!HtmlParser}
  `{!SetOrder}.

Lemma complete_scrape_multiple_urls_sublist base_url urls scraped_data (w : World) :
  exists added,
    fst (CompleteTextWebScraper.scrape_multiple_urls base_url urls scraped_data w)
      = scraped_data ++ added /\
    sublist (map CompleteTextWebScraper.data_url added) urls.
Proof.
  revert scraped_data w. induction urls as [|url urls IH]; intros scraped_data w; simpl.
  - exists []. by rewrite app_nil_r.
  - destruct (CompleteTextWebScraper.scrape_page base_url url w) as [[data|] w'] eqn:Hp.
    + destruct (IH (scraped_data ++ [data]) w') as (added & -> & Hsub).
      exists (data :: added). split; [by rewrite <- app_assoc|].
      apply complete_scrape_page_record in Hp as [<- _]. simpl. by apply sublist_skip.
    + destruct (IH scraped_data w') as (added & -> & Hsub).
      exists added. split; [done|]. by apply sublist_cons.
Qed.

(** [discover_all_pages_in] is [discover_all_pages] with the world it
    leaves. *)
Lemma discover_all_pages_in_list base_url start max_pages max_depth fuel (w : World) l w' :
  CompleteTextWebScraper.discover_all_pages_in base_url start max_pages max_depth fuel w
    = Returns (l, w') ->
  CompleteTextWebScraper.discover_all_pages base_url start max_pages max_depth fuel w
    = Returns l.
Proof.
  unfold CompleteTextWebScraper.discover_all_pages_in,
    CompleteTextWebScraper.discover_all_pages.
  destruct (urlparse_netloc base_url) as [base_domain|]; [|done].
  destruct (while _ fuel _) as [s| |]; [|done..]. by intros [= <- _].
Qed.

Lemma discover_all_pages_in_facts (law : SetOrderLaw)
    base_url start max_pages max_depth fuel (w : World) l w' :
  CompleteTextWebScraper.discover_all_pages_in base_url start max_pages max_depth fuel w
    = Returns (l, w') ->
  NoDup l /\ length l <= max_pages /\
  Forall (fun u => PyStr.contains "#" u = false) l /\
  (max_pages = 0 -> l = []) /\ (0 < max_pages -> l <> []).
Proof.
  intros Hrun%discover_all_pages_in_list.
  destruct (discover_all_pages_shape law _ _ _ _ _ _ _ Hrun) as (Hfree & Hzero & Hstart).
  apply discover_all_pages_result in Hrun as (base_domain & s & _ & Hr & _ & ->).
  split; [|split; [|split; [|split]]].
  - rewrite (law (discovered_urls s)). by eapply all_pages_NoDup.
  - rewrite (law (discovered_urls s)). by eapply all_pages_size.
  - apply Forall_forall. exact Hfree.
  - exact Hzero.
  - intros Hpos Hnil. specialize (Hstart Hpos). rewrite Hnil in Hstart.
    by apply elem_of_nil in Hstart.
Qed.

Lemma scrape_entire_website_spec (law : SetOrderLaw)
    base_url start max_pages max_depth fuel scraped_data (w : World) result w' :
  CompleteTextWebScraper.scrape_entire_website base_url start max_pages max_depth fuel
    scraped_data w = Returns (result, w') ->
  exists all_urls added,
    CompleteTextWebScraper.discover_all_pages base_url start max_pages max_depth fuel w
      = Returns all_urls /\
    CompleteTextWebScraper.scraped_after result = scraped_data ++ added /\
    sublist (map CompleteTextWebScraper.data_url added) all_urls /\
    length added <= max_pages /\
    NoDup (map CompleteTextWebScraper.data_url added) /\
    Forall (fun data =>
              PyStr.contains "#" (CompleteTextWebScraper.data_url data) = false) added /\
    (max_pages = 0 ->
     CompleteTextWebScraper.returned result = [] /\ added = []) /\
    (0 < max_pages ->
     CompleteTextWebScraper.returned result = CompleteTextWebScraper.scraped_after result).
Proof.
  unfold CompleteTextWebScraper.scrape_entire_website.
  destruct (CompleteTextWebScraper.discover_all_pages_in _ _ _ _ fuel w)
    as [[all_urls w1]| |] eqn:Hd; [|done..].
  pose proof (discover_all_pages_in_list _ _ _ _ _ _ _ _ Hd) as Hlist.
  apply (discover_all_pages_in_facts law) in Hd as (Hnd & Hlen & Hfree & Hzero & Hpos).
  destruct all_urls as [|url urls] eqn:Hall.
  { intros [= <- _]. exists [], []. simpl. rewrite app_nil_r.
    split; [done|]. split; [done|]. split; [done|]. split; [lia|].
    split; [constructor|]. split; [constructor|]. split; [done|].
    intros Hp. by destruct (Hpos Hp). }
  assert (all_urls <> []) as Hne by by rewrite Hall.
  rewrite <- Hall in *. clear Hall url urls.
  destruct (complete_scrape_multiple_urls_sublist base_url all_urls scraped_data w1)
    as (added & Hadd & Hsub).
  destruct (CompleteTextWebScraper.scrape_multiple_urls base_url all_urls scraped_data w1)
    as [scraped_data' w2].
  simpl in Hadd. subst scraped_data'. intros [= <- _]. simpl.
  exists all_urls, added. split; [done|]. split; [done|]. split; [done|].
  split.
  { rewrite <- (length_map CompleteTextWebScraper.data_url).
    etrans; [by apply sublist_length | done]. }
  split; [by eapply sublist_NoDup|]. split.
  { apply Forall_forall. intros data Hdata. rewrite Forall_forall in Hfree.
    apply Hfree. eapply sublist_elem; [exact Hsub|]. apply list_elem_of_fmap. eauto. }
  split; [|done]. intros Hz. by destruct (Hne (Hzero Hz)).
Qed.

(** For limits that are natural numbers [scrape_entire_website] with [int]
    limits is [scrape_entire_website] with natural limits. *)
Lemma scrape_entire_website_int_nat base_url start max_pages max_depth fuel scraped_data
    (w : World) :
  CompleteTextWebScraper.scrape_entire_website_int base_url start
    (Z.of_nat max_pages) (Z.of_nat max_depth) fuel scraped_data w
  = CompleteTextWebScraper.scrape_entire_website base_url start max_pages max_depth fuel
      scraped_data w.
Proof.
  unfold CompleteTextWebScraper.scrape_entire_website_int,
    CompleteTextWebScraper.scrape_entire_website,
    CompleteTextWebScraper.discover_all_pages_in_int,
    CompleteTextWebScraper.discover_all_pages_in.
  destruct (urlparse_netloc base_url) as [base_domain|]; [|done].
  by rewrite (while_ext _ _ (all_pages_body_int_nat base_domain max_pages max_depth)).
Qed.

Lemma discover_all_pages_in_int_list base_url start max_pages max_depth fuel (w : World)
    l w' :
  CompleteTextWebScraper.discover_all_pages_in_int base_url start max_pages max_depth fuel w
    = Returns (l, w') ->
  CompleteTextWebScraper.discover_all_pages_int base_url start max_pages max_depth fuel w
    = Returns l.
Proof. unfold CompleteTextWebScraper.discover_all_pages_int. by intros ->. Qed.

(** [scrape_entire_website] keeps the records scraped before and appends
    at most [max_pages] records, one per discovered URL at most, in the
    order of the discovered list, no two for the same URL and none for a URL
    with a fragment.  With a positive [max_pages] and a [max_depth] that is
    not negative it returns all of [self.scraped_data], the records scraped
    before included; otherwise it adds nothing and returns the empty list,
    whatever [self.scraped_data] holds. *)
Theorem scrape_entire_website_result (law : SetOrderLaw)
    base_url start (max_pages max_depth : Z) fuel scraped_data (w : World) result w' :
  CompleteTextWebScraper.scrape_entire_website_int base_url start max_pages max_depth fuel
    scraped_data w = Returns (result, w') ->
  exists all_urls added,
    CompleteTextWebScraper.discover_all_pages_int base_url start max_pages max_depth fuel w
      = Returns all_urls /\
    CompleteTextWebScraper.scraped_after result = scraped_data ++ added /\
    sublist (map CompleteTextWebScraper.data_url added) all_urls /\
    (Z.of_nat (length added) <= Z.max 0 max_pages)%Z /\
    NoDup (map CompleteTextWebScraper.data_url added) /\
    Forall (fun data =>
              PyStr.contains "#" (CompleteTextWebScraper.data_url data) = false) added /\
    ((max_pages <= 0)%Z \/ (max_depth < 0)%Z ->
     CompleteTextWebScraper.returned result = [] /\ added = []) /\
    ((0 < max_pages)%Z -> (0 <= max_depth)%Z ->
     CompleteTextWebScraper.returned result = CompleteTextWebScraper.scraped_after result).
Proof.
  intros Hrun.
  destruct (decide ((max_pages <= 0)%Z \/ (max_depth < 0)%Z)) as [Hneg|Hpos].
  - revert Hrun. unfold CompleteTextWebScraper.scrape_entire_website_int.
    destruct (CompleteTextWebScraper.discover_all_pages_in_int _ _ _ _ fuel w)
      as [[all_urls w1]| |] eqn:Hd; [|done..].
    pose proof (discover_all_pages_in_int_list _ _ _ _ _ _ _ _ Hd) as Hlist.
    assert (all_urls = []) as ->.
    { revert Hd. unfold CompleteTextWebScraper.discover_all_pages_in_int.
      destruct (urlparse_netloc base_url) as [base_domain|]; [|done].
      destruct (while _ fuel _) as [s| |] eqn:Hw; [|done..].
      intros [= <- _]. apply (all_pages_int_nothing _ _ _ _ _ _ _ Hneg) in Hw as [-> _].
      apply Permutation_nil. symmetry. apply (law []). }
    intros [= <- _]. exists [], []. simpl. rewrite app_nil_r.
    split; [done|]. split; [done|]. split; [done|]. split; [lia|].
    split; [constructor|]. split; [constructor|]. split; [done|]. lia.
  - rewrite <- (Z2Nat.id max_pages), <- (Z2Nat.id max_depth) in Hrun by lia.
    rewrite scrape_entire_website_int_nat in Hrun.
    apply (scrape_entire_website_spec law) in Hrun
      as (all_urls & added & Hlist & Hafter & Hsub & Hlen & Hnd & Hfree & _ & Hret).
    exists all_urls, added.
    split.
    { rewrite <- (Z2Nat.id max_pages), <- (Z2Nat.id max_depth) by lia.
      by rewrite discover_all_pages_int_nat. }
    split; [done|]. split; [done|]. split; [lia|]. split; [done|]. split; [done|].
    split; [by intros Hneg|]. intros Hp _. apply Hret. lia.
Qed.

End WholeWebsite.

Section CountedWebsite.
Context {World : Type} (R : Requests World) (C : Clock World) `{!UrlLib} `{!HtmlParser}
  `{!SetOrder}.

Local Abbreviation complete_scrape_page :=
  (@CompleteTextWebScraper.scrape_page World R C _ _).
Local Abbreviation complete_counted_scrape_page :=
  (@CompleteTextWebScraper.scrape_page (World * nat) (counting R) (counting_clock C) _ _).
Local Abbreviation complete_scrape_multiple_urls :=
  (@CompleteTextWebScraper.scrape_multiple_urls World R C _ _).
Local Abbreviation complete_counted_scrape_multiple_urls :=
  (@CompleteTextWebScraper.scrape_multiple_urls (World * nat) (counting R)
     (counting_clock C) _ _).
Local Abbreviation scrape_entire_website :=
  (@CompleteTextWebScraper.scrape_entire_website World R C _ _ _).
Local Abbreviation counted_scrape_entire_website :=
  (@CompleteTextWebScraper.scrape_entire_website (World * nat) (counting R)
     (counting_clock C) _ _ _).

Lemma complete_counted_scrape_page_spec base_url url w n :
  complete_counted_scrape_page base_url url (w, n) =
  (fst (complete_scrape_page base_url url w),
   (snd (complete_scrape_page base_url url w), S n)).
Proof.
  unfold CompleteTextWebScraper.scrape_page. simpl.
  destruct (@session_get _ R w url) as [w1 [response|]]; [|done].
  destruct (@raise_for_status _ R response); [done|]. simpl.
  by destruct (@datetime_now _ C w1) as [w2 timestamp].
Qed.

Lemma complete_counted_scrape_multiple_urls_spec base_url urls scraped_data w n :
  complete_counted_scrape_multiple_urls base_url urls scraped_data (w, n) =
  (fst (complete_scrape_multiple_urls base_url urls scraped_data w),
   (snd (complete_scrape_multiple_urls base_url urls scraped_data w), n + length urls)).
Proof.
  revert scraped_data w n. induction urls as [|url urls IH]; intros scraped_data w n.
  - simpl. by rewrite Nat.add_0_r.
  - cbn [CompleteTextWebScraper.scrape_multiple_urls].
    rewrite complete_counted_scrape_page_spec.
    destruct (complete_scrape_page base_url url w) as [[data|] w1]; cbn [fst snd];
      rewrite IH; simpl; repeat f_equal; lia.
Qed.

Lemma counted_website_spec (law : SetOrderLaw)
    base_url start max_pages max_depth fuel scraped_data w result w' n :
  counted_scrape_entire_website base_url start max_pages max_depth fuel scraped_data (w, 0)
    = Returns (result, (w', n)) ->
  scrape_entire_website base_url start max_pages max_depth fuel scraped_data w
    = Returns (result, w') /\
  n <= 2 * max_pages - 1 /\
  (max_pages = 0 -> n = 0).
Proof.
  unfold CompleteTextWebScraper.scrape_entire_website,
    CompleteTextWebScraper.discover_all_pages_in.
  destruct (urlparse_netloc base_url) as [base_domain|]; [|done].
  destruct (while _ fuel (CompleteTextWebScraper.discover_all_pages_init start (w, 0)))
    as [s| |] eqn:Hw; [|done..].
  destruct (counted_pages_bounds R _ _ _ _ _ _ _ Hw) as (Hplain & _ & Hreq & _).
  rewrite Hplain. cbn [forget discovered_urls world].
  apply while_returns in Hw as [Hr _].
  pose proof (all_pages_size _ _ _ _ _ _ Hr) as Hsize.
  assert (length (list_of_set (discovered_urls s)) <= max_pages) as Hlen
    by by rewrite (law (discovered_urls s)).
  destruct (world s) as [w1 k] eqn:Hws. unfold requests in Hreq. rewrite Hws in Hreq.
  cbn [fst snd] in *.
  destruct (list_of_set (discovered_urls s)) as [|url urls] eqn:Hl.
  { intros [= <- <- <-]. split; [done|]. lia. }
  rewrite <- Hl in *. clear Hl url urls.
  rewrite complete_counted_scrape_multiple_urls_spec. cbn [fst snd] in *.
  destruct (complete_scrape_multiple_urls base_url _ scraped_data w1) as [scraped_data' w2].
  cbn [fst snd]. intros [= <- <- <-]. split; [done|]. lia.
Qed.

(** [scrape_entire_website] makes at most [2 * max_pages - 1] requests:
    fewer than [max_pages] to discover the pages and one per discovered
    page to scrape it; with [max_pages] 0 it makes none. *)
Theorem scrape_entire_website_requests (law : SetOrderLaw)
    base_url start max_pages max_depth fuel scraped_data w result w' n :
  counted_scrape_entire_website base_url start max_pages max_depth fuel scraped_data (w, 0)
    = Returns (result, (w', n)) ->
  scrape_entire_website base_url start max_pages max_depth fuel scraped_data w
    = Returns (result, w') /\
  n <= 2 * max_pages - 1 /\
  (max_pages = 0 -> n = 0).
Proof. by apply counted_website_spec. Qed.

End CountedWebsite.

(** ** The headings of both scrapers *)

(** [_extract_headings] returns the six keys [h1] to [h6], and its six
    lists hold together one text for every heading tag of the document;
    [_extract_all_headings] of the other scraper lists the same texts, the
    empty ones left out. *)
Theorem headings_cover_heading_tags soup :
  map fst (WebScraperForLLM._extract_headings soup) = WebScraperForLLM.heading_names /\
  list_sum (map (fun entry : string * list string => length entry.2)
              (WebScraperForLLM._extract_headings soup))
    = length (Soup.find_all WebScraperForLLM.heading_names soup) /\
  CompleteTextWebScraper._extract_all_headings soup
    = flat_map (fun entry : string * list string =>
                  map (fun text => (entry.1, text)) (List.filter PyStr.truthy entry.2))
        (WebScraperForLLM._extract_headings soup).
Proof.
  unfold WebScraperForLLM._extract_headings, CompleteTextWebScraper._extract_all_headings.
  split; [|split].
  - rewrite map_map. apply map_id.
  - rewrite find_all_count.
    2:{ apply (bool_decide_unpack _). vm_compute. exact I. }
    rewrite map_map. unfold WebScraperForLLM.heading_names. cbn [map list_sum snd].
    by rewrite !length_map.
  - induction WebScraperForLLM.heading_names as [|level levels IH]; [done|].
    simpl. by rewrite IH.
Qed.

(** ** The further properties on the sample sites *)

Section FurtherSamples.
Import Sample.

Local Abbreviation counted_site := (counting (static_site fragment_site)).
Local Abbreviation counted_shop := (counting (static_site shop_site)).

Lemma discover_urls_returns_start_witness :
  "https://x/" ∈ ["https://x/"; "https://x/a#foo"; "https://x/a#bar"] /\
  (forall l,
     @WebScraperForLLM.discover_urls_int unit (static_site fragment_site) absolute_urls
       (table_parser fragment_trees) insertion_order "https://x/" "https://x/" (-1) 10 tt
     = Returns l ->
     l = []).
Proof.
  split.
  - apply (proj1 (@discover_urls_returns_start unit (static_site fragment_site)
                    absolute_urls (table_parser fragment_trees) insertion_order
                    insertion_order_law "https://x/" "https://x/" 2 10 tt
                    ["https://x/"; "https://x/a#foo"; "https://x/a#bar"]
                    ltac:(vm_compute; reflexivity))).
    lia.
  - intros l Hrun.
    apply (proj2 (@discover_urls_returns_start unit (static_site fragment_site)
                    absolute_urls (table_parser fragment_trees) insertion_order
                    insertion_order_law "https://x/" "https://x/" (-1) 10 tt l Hrun)).
    lia.
Defined.

Lemma discover_all_pages_result_shape_witness :
  (forall u, u ∈ ["https://x/"; "https://x/a"] -> PyStr.contains "#" u = false) /\
  "https://x/" ∈ ["https://x/"; "https://x/a"] /\
  (forall l,
     @CompleteTextWebScraper.discover_all_pages_int unit (static_site fragment_site)
       absolute_urls (table_parser fragment_trees) insertion_order
       "https://x/" "https://x/#top" 50 (-1) 10 tt = Returns l ->
     l = []).
Proof.
  destruct (@discover_all_pages_result_shape unit (static_site fragment_site) absolute_urls
              (table_parser fragment_trees) insertion_order insertion_order_law
              "https://x/" "https://x/#top" 50 3 10 tt ["https://x/"; "https://x/a"]
              ltac:(vm_compute; reflexivity)) as (Hfree & _ & Hstart).
  split; [exact Hfree|]. split; [apply Hstart; lia|].
  intros l Hrun.
  apply (proj1 (proj2 (@discover_all_pages_result_shape unit (static_site fragment_site)
                         absolute_urls (table_parser fragment_trees) insertion_order
                         insertion_order_law "https://x/" "https://x/#top" 50 (-1) 10 tt l
                         Hrun))).
  right. lia.
Defined.

Lemma discover_all_pages_requests_witness :
  exists s,
    while (@CompleteTextWebScraper.discover_all_pages_body (unit * nat) counted_site
             absolute_urls (table_parser fragment_trees) "x" 50 3) 10
      (CompleteTextWebScraper.discover_all_pages_init "https://x/" (tt, 0)) = Returns s /\
    requests s <= length (discovered_urls s) /\
    requests s <= 50 - 1.
Proof.
  destruct (while (@CompleteTextWebScraper.discover_all_pages_body (unit * nat) counted_site
                     absolute_urls (table_parser fragment_trees) "x" 50 3) 10
              (CompleteTextWebScraper.discover_all_pages_init "https://x/" (tt, 0)))
    as [s| |] eqn:Hw.
  - exists s. split; [done|].
    destruct (@discover_all_pages_requests unit (static_site fragment_site) absolute_urls
                (table_parser fragment_trees) "x" "https://x/" 50 3 10 tt s Hw)
      as (_ & Hone & Hall & _).
    done.
  - exfalso. vm_compute in Hw. discriminate.
  - exfalso. vm_compute in Hw. discriminate.
Defined.

Lemma discover_urls_requests_witness :
  exists s,
    while (@WebScraperForLLM.discover_urls_body (unit * nat) counted_site
             absolute_urls (table_parser fragment_trees) "https://x/" 2) 10
      (WebScraperForLLM.discover_urls_init "https://x/" (tt, 0)) = Returns s /\
    requests s <= length (discovered_urls s).
Proof.
  destruct (while (@WebScraperForLLM.discover_urls_body (unit * nat) counted_site
                     absolute_urls (table_parser fragment_trees) "https://x/" 2) 10
              (WebScraperForLLM.discover_urls_init "https://x/" (tt, 0)))
    as [s| |] eqn:Hw.
  - exists s. split; [done|].
    destruct (@discover_urls_requests unit (static_site fragment_site) absolute_urls
                (table_parser fragment_trees) "https://x/" "https://x/" 2 10 tt s Hw)
      as (_ & Hone & _).
    done.
  - exfalso. vm_compute in Hw. discriminate.
  - exfalso. vm_compute in Hw. discriminate.
Defined.

Lemma navigation_text_distinct_witness :
  NoDup ["Home"; "About"] /\
  Forall (fun text => text <> EmptyString) ["Home"; "About"].
Proof. exact (@navigation_text_distinct insertion_order insertion_order_law nav_doc). Defined.

Lemma training_examples_sound_witness :
  exists item,
    item ∈ fst (@WebScraperForLLM.scrape_multiple_urls unit (static_site faq_site)
                  (fixed_clock "T") absolute_urls (table_parser faq_trees) insertion_order
                  nothing_to_find ["https://x/faq"; "https://x/gone"] [] tt) /\
    WebScraperForLLM.data_url item = "https://x/faq".
Proof.
  destruct (training_examples_sound
              (fst (@WebScraperForLLM.scrape_multiple_urls unit (static_site faq_site)
                      (fixed_clock "T") absolute_urls (table_parser faq_trees)
                      insertion_order nothing_to_find
                      ["https://x/faq"; "https://x/gone"] [] tt))
              (WebScraperForLLM.mkExample "Q1" "A1" "https://x/faq" "faq"))
    as (item & Hitem & Hurl & _).
  - vm_compute. apply list_elem_of_here.
  - exists item. split; [exact Hitem|]. symmetry. exact Hurl.
Defined.

Lemma eagles_records_witness :
  exists scraped_data,
    @AnalyzeTrainingData.scrape_eagles_team_experiences unit (static_site eagles_site)
      (fixed_clock "T") absolute_urls (table_parser eagles_trees) insertion_order
      nothing_to_find 10 tt = Returns (scraped_data, tt) /\
    length scraped_data <= 17 /\
    NoDup (map WebScraperForLLM.data_url scraped_data).
Proof.
  destruct (@AnalyzeTrainingData.scrape_eagles_team_experiences unit
              (static_site eagles_site) (fixed_clock "T") absolute_urls
              (table_parser eagles_trees) insertion_order nothing_to_find 10 tt)
    as [[scraped_data []]| |] eqn:Hrun.
  - exists scraped_data. split; [done|].
    destruct (@eagles_records unit (static_site eagles_site) (fixed_clock "T")
                absolute_urls (table_parser eagles_trees) insertion_order nothing_to_find
                insertion_order_law 10 tt scraped_data tt Hrun) as (Hlen & Hnd & _).
    done.
  - exfalso. vm_compute in Hrun. discriminate.
  - exfalso. vm_compute in Hrun. discriminate.
Defined.

Lemma complete_record_filled_witness :
  exists data,
    fst (@CompleteTextWebScraper.scrape_page unit (static_site shop_site) (fixed_clock "T")
           absolute_urls (table_parser shop_trees) "https://x/" "https://x/a" tt)
      = Some data /\
    CompleteTextWebScraper.data_url data = "https://x/a" /\
    Forall (fun text => text <> EmptyString)
      (CompleteTextWebScraper.data_all_form_labels data ++
       CompleteTextWebScraper.data_all_button_text data ++
       CompleteTextWebScraper.data_alt_text data ++
       CompleteTextWebScraper.data_title_attributes data).
Proof.
  destruct (@CompleteTextWebScraper.scrape_page unit (static_site shop_site)
              (fixed_clock "T") absolute_urls (table_parser shop_trees)
              "https://x/" "https://x/a" tt) as [[data|] []] eqn:Hp.
  - exists data. split; [done|].
    destruct (@complete_record_filled unit (static_site shop_site) (fixed_clock "T")
                absolute_urls (table_parser shop_trees) "https://x/" "https://x/a" tt
                data tt Hp) as (Hurl & _ & _ & _ & _ & _ & Htexts & _).
    done.
  - exfalso. vm_compute in Hp. discriminate.
Defined.

Lemma scrape_entire_website_result_witness :
  exists result added,
    @CompleteTextWebScraper.scrape_entire_website_int unit (static_site shop_site)
      (fixed_clock "T") absolute_urls (table_parser shop_trees) insertion_order
      "https://x/" "https://x/#top" 50 3 10 [] tt = Returns (result, tt) /\
    CompleteTextWebScraper.scraped_after result = [] ++ added /\
    (Z.of_nat (length added) <= Z.max 0 50)%Z /\
    CompleteTextWebScraper.returned result = CompleteTextWebScraper.scraped_after result.
Proof.
  destruct (@CompleteTextWebScraper.scrape_entire_website_int unit (static_site shop_site)
              (fixed_clock "T") absolute_urls (table_parser shop_trees) insertion_order
              "https://x/" "https://x/#top" 50 3 10 [] tt) as [[result []]| |] eqn:Hrun.
  - destruct (@scrape_entire_website_result unit (static_site shop_site) (fixed_clock "T")
                absolute_urls (table_parser shop_trees) insertion_order
                insertion_order_law "https://x/" "https://x/#top" 50 3 10 [] tt result tt
                Hrun)
      as (all_urls & added & _ & Hafter & _ & Hlen & _ & _ & _ & Hret).
    exists result, added. split; [done|]. split; [done|]. split; [done|].
    apply Hret; lia.
  - exfalso. vm_compute in Hrun. discriminate.
  - exfalso. vm_compute in Hrun. discriminate.
Defined.

Lemma scrape_entire_website_requests_witness :
  exists result n,
    @CompleteTextWebScraper.scrape_entire_website (unit * nat) counted_shop
      (counting_clock (fixed_clock "T")) absolute_urls (table_parser shop_trees)
      insertion_order "https://x/" "https://x/#top" 2 3 10 [] (tt, 0)
      = Returns (result, (tt, n)) /\
    n <= 2 * 2 - 1.
Proof.
  destruct (@CompleteTextWebScraper.scrape_entire_website (unit * nat) counted_shop
              (counting_clock (fixed_clock "T")) absolute_urls (table_parser shop_trees)
              insertion_order "https://x/" "https://x/#top" 2 3 10 [] (tt, 0))
    as [[result [[] n]]| |] eqn:Hrun.
  - exists result, n. split; [done|].
    destruct (@scrape_entire_website_requests unit (static_site shop_site)
                (fixed_clock "T") absolute_urls (table_parser shop_trees) insertion_order
                insertion_order_law "https://x/" "https://x/#top" 2 3 10 [] tt result tt n
                Hrun) as (_ & Hn & _).
    exact Hn.
  - exfalso. vm_compute in Hrun. discriminate.
  - exfalso. vm_compute in Hrun. discriminate.
Defined.

End FurtherSamples.
